(** * SpartanEngine RHI: command list (D3D12) and pipeline object (Vulkan)

    Shallow embedding of
    - [runtime/RHI/D3D12/D3D12_CommandList.cpp]  (module [D3D12]),
    - [runtime/RHI/Vulkan/Vulkan_Pipeline.cpp]   (module [Vulkan]).

    C++ member functions become computations in a state-and-failure monad:
    the state is what the function mutates (the command list object, the
    profiler's static counters, the calls recorded on the backend object),
    failure is a fatal assertion together with its diagnostic and the state
    in which the process stops. *)

From Stdlib Require Import ZArith List String Bool Lia.
From Stdlib Require Import Floats.SpecFloat.
Import ListNotations.
Local Open Scope Z_scope.

Set Implicit Arguments.

(* ===================================================================== *)
(** * Failure and state *)
(* ===================================================================== *)

(** Outcome of a call: it returns a value and a state, or the process is
    terminated by a fatal assertion that logs [diagnostic]; [s] is then the
    state at that point, with everything that was done before the process
    stopped. *)
Inductive Result (S A : Type) : Type :=
| Ok (r : A * S)
| Fatal (diagnostic : string) (s : S).
Arguments Ok {S A} r.
Arguments Fatal {S A} diagnostic s.

Definition M (S A : Type) : Type := S -> Result S A.

(** The state a call ends in, whether it returns or not. *)
Definition state_of {S A} (r : Result S A) : S :=
  match r with
  | Ok (_, s) => s
  | Fatal _ s => s
  end.

Definition ret {S A} (a : A) : M S A := fun s => Ok (a, s).

Definition bind {S A B} (c : M S A) (k : A -> M S B) : M S B :=
  fun s => match c s with
           | Ok (a, s') => k a s'
           | Fatal d s' => Fatal d s'
           end.

Definition get {S} : M S S := fun s => Ok (s, s).
Definition modify {S} (f : S -> S) : M S unit := fun s => Ok (tt, f s).

Declare Scope rhi_scope.
Delimit Scope rhi_scope with rhi.
Notation "x <- c ;; k" := (bind c (fun x => k))
  (at level 61, c at next level, right associativity) : rhi_scope.
Notation "c ;; k" := (bind c (fun _ => k))
  (at level 61, right associativity) : rhi_scope.
Local Open Scope rhi_scope.

(** Modelled from the spec: the macros [SP_ASSERT] and [SP_ASSERT_MSG] of
    Definitions.h, which is not among the sources.  Spec, section 7: a
    contract violation is a "fatal assertion -- terminates with diagnostic
    message; never recovered".  [SP_ASSERT] logs the text of the asserted
    expression, [SP_ASSERT_MSG] the message given. *)
Definition SP_ASSERT {S} (expression : bool) (text : string) : M S unit :=
  fun s => if expression then Ok (tt, s) else Fatal text s.

Definition SP_ASSERT_MSG {S} (expression : bool) (message : string) : M S unit :=
  SP_ASSERT expression message.

(** C++ [for (x : xs) body]. *)
Fixpoint for_each {S A} (xs : list A) (body : A -> M S unit) : M S unit :=
  match xs with
  | [] => ret tt
  | x :: xs' => body x ;; for_each xs' body
  end.

(** Machine data. *)
Definition ptr := Z.
Definition nullptr : ptr := 0.
Definition is_null (p : ptr) : bool := p =? nullptr.

Definition uint32_max : Z := 2 ^ 32.
Definition to_uint32 (z : Z) : Z := z mod uint32_max.

(** The conversion of an integer to a 32-bit signed one ([INT], [LONG]):
    the value modulo 2^32 that lies between -2^31 and 2^31 - 1. *)
Definition to_int32 (z : Z) : Z := (z + 2 ^ 31) mod uint32_max - 2 ^ 31.

(** Single precision: [spec_float] at [prec = 24], [emax = 128]. *)
Definition float := spec_float.
Definition float_prec : Z := 24.
Definition float_emax : Z := 128.
Definition float_zero : float := S754_zero false.
Definition float_eqb : float -> float -> bool := SFeqb.
Definition float_mul : float -> float -> float := SFmul float_prec float_emax.

(** [static_cast<float>] and [(float)] of an integer: rounded to nearest. *)
Definition float_of_Z (z : Z) : float :=
  binary_normalize float_prec float_emax z 0 false.

(** Modelled from the spec: [Math::Helper::Floor] (MathHelper.h is not among
    the sources), the "floor" of the depth-bias property: the largest
    integral value not above the argument.  Zeros, infinities and NaN are
    returned as they are, and so is a finite value with a non-negative
    exponent, which is integral. *)
Definition Floor (x : float) : float :=
  match x with
  | S754_finite s m e =>
      if 0 <=? e then x
      else binary_normalize float_prec float_emax
             (cond_Zopp s (Zpos m) / 2 ^ (- e)) 0 s
  | _ => x
  end.

Definition not_implemented : string := "Function is not implemented"%string.

(* ===================================================================== *)
(** * D3D12 command list *)
(* ===================================================================== *)

Module D3D12.

Inductive RHI_CommandListState : Type := Idle | Recording | Ended | Submitted.

Definition state_eqb (a b : RHI_CommandListState) : bool :=
  match a, b with
  | Idle, Idle | Recording, Recording | Ended, Ended | Submitted, Submitted => true
  | _, _ => false
  end.

Record RHI_CommandList : Type := {
  m_state : RHI_CommandListState;
  m_rhi_resource : ptr;
  m_rhi_cmd_pool_resource : ptr;
  m_vertex_buffer_id : Z;   (* uint64_t *)
  m_index_buffer_id : Z     (* uint64_t *)
}.

(** The getters of the resources a command takes. *)
Record RHI_VertexBuffer : Type := {
  vb_GetObjectId : Z;
  vb_GetStride : Z;
  vb_GetObjectSizeGpu : Z
}.

Record RHI_IndexBuffer : Type := {
  ib_GetObjectId : Z;
  ib_GetObjectSizeGpu : Z;
  ib_Is16Bit : bool
}.

Record RHI_Texture : Type := {
  tex_GetFlags : Z;
  tex_GetWidth : Z;
  tex_GetHeight : Z
}.

Record RHI_SwapChain : Type := {
  sc_GetWidth : Z;
  sc_GetHeight : Z
}.

Record RHI_Viewport : Type := {
  x : float; y : float; width : float; height : float;
  depth_min : float; depth_max : float
}.

Record Rectangle : Type := {
  left : float; top : float; right : float; bottom : float
}.

(** Native structures. *)
Record D3D12_VIEWPORT : Type := {
  TopLeftX : float; TopLeftY : float; Width : float; Height : float;
  MinDepth : float; MaxDepth : float
}.

Record D3D12_RECT : Type := {
  rect_left : Z; rect_top : Z; rect_right : Z; rect_bottom : Z
}.

Record D3D12_VERTEX_BUFFER_VIEW : Type := {
  vbv_BufferLocation : Z; vbv_StrideInBytes : Z; vbv_SizeInBytes : Z
}.

Inductive DXGI_FORMAT : Type := DXGI_FORMAT_R16_UINT | DXGI_FORMAT_R32_UINT.

Record D3D12_INDEX_BUFFER_VIEW : Type := {
  ibv_BufferLocation : Z; ibv_SizeInBytes : Z; ibv_Format : DXGI_FORMAT
}.

(** A call made on the [ID3D12GraphicsCommandList] behind [m_rhi_resource]. *)
Inductive D3D12_Call : Type :=
| Reset (pAllocator : ptr)
| Close
| DrawInstanced (VertexCountPerInstance InstanceCount
                 StartVertexLocation StartInstanceLocation : Z)
| DrawIndexedInstanced (IndexCountPerInstance InstanceCount StartIndexLocation
                        BaseVertexLocation StartInstanceLocation : Z)
| Dispatch_call (ThreadGroupCountX ThreadGroupCountY ThreadGroupCountZ : Z)
| RSSetViewports (NumViewports : Z) (pViewports : D3D12_VIEWPORT)
| RSSetScissorRects (NumRects : Z) (pRects : D3D12_RECT)
| IASetVertexBuffers (StartSlot NumViews : Z) (pViews : D3D12_VERTEX_BUFFER_VIEW)
| IASetIndexBuffer (pView : D3D12_INDEX_BUFFER_VIEW).

(** The static counters of [Profiler] that the command list increments
    (Profiler.h is not among the sources; they are taken to be uint32_t). *)
Record Profiler : Type := {
  m_rhi_draw : Z;
  m_rhi_dispatch : Z;
  m_rhi_bindings_buffer_vertex : Z;
  m_rhi_bindings_buffer_index : Z
}.

(** What a member function of the command list reads and writes. *)
Record Machine : Type := {
  cmd_list : RHI_CommandList;
  profiler : Profiler;
  recorded : list D3D12_Call
}.

Definition HRESULT := Z.
Definition SUCCEEDED (hr : HRESULT) : bool := 0 <=? hr.

(** Modelled from the spec: [d3d12_utility::error::check]
    (RHI_Implementation.h is not among the sources); a backend
    object-creation failure is reported by the native error code, so the
    check holds exactly for a success code. *)
Definition error_check (hr : HRESULT) : bool := SUCCEEDED hr.

(** What the file uses and does not define. *)
Class Externals : Type := {
  (** the HRESULT the driver returns for a call, given what was recorded *)
  driver : list D3D12_Call -> D3D12_Call -> HRESULT;
  (** [RHI_CommandList::WaitForExecution] *)
  WaitForExecution : M Machine unit;
  (** the flag bit [RHI_Texture_ClearBlit] *)
  RHI_Texture_ClearBlit : Z;
  (** [static_cast<LONG>] of a float *)
  static_cast_LONG : float -> Z;
  (** [RHI_PipelineState] and its [IsValid()] *)
  RHI_PipelineState : Type;
  IsValid : RHI_PipelineState -> bool
}.

Section CommandList.
Context {ext : Externals}.

(** ** Field access *)

Definition set_m_state (s : RHI_CommandListState) (m : Machine) : Machine :=
  {| cmd_list := {| m_state := s;
                    m_rhi_resource := m_rhi_resource (cmd_list m);
                    m_rhi_cmd_pool_resource := m_rhi_cmd_pool_resource (cmd_list m);
                    m_vertex_buffer_id := m_vertex_buffer_id (cmd_list m);
                    m_index_buffer_id := m_index_buffer_id (cmd_list m) |};
     profiler := profiler m;
     recorded := recorded m |}.

Definition set_m_vertex_buffer_id (id : Z) (m : Machine) : Machine :=
  {| cmd_list := {| m_state := m_state (cmd_list m);
                    m_rhi_resource := m_rhi_resource (cmd_list m);
                    m_rhi_cmd_pool_resource := m_rhi_cmd_pool_resource (cmd_list m);
                    m_vertex_buffer_id := id;
                    m_index_buffer_id := m_index_buffer_id (cmd_list m) |};
     profiler := profiler m;
     recorded := recorded m |}.

Definition set_m_index_buffer_id (id : Z) (m : Machine) : Machine :=
  {| cmd_list := {| m_state := m_state (cmd_list m);
                    m_rhi_resource := m_rhi_resource (cmd_list m);
                    m_rhi_cmd_pool_resource := m_rhi_cmd_pool_resource (cmd_list m);
                    m_vertex_buffer_id := m_vertex_buffer_id (cmd_list m);
                    m_index_buffer_id := id |};
     profiler := profiler m;
     recorded := recorded m |}.

Definition set_profiler (p : Profiler) (m : Machine) : Machine :=
  {| cmd_list := cmd_list m; profiler := p; recorded := recorded m |}.

(** [counter++] on a uint32_t. *)
Definition incr (counter : Z) : Z := to_uint32 (counter + 1).

Definition incr_m_rhi_draw (p : Profiler) : Profiler :=
  {| m_rhi_draw := incr (m_rhi_draw p);
     m_rhi_dispatch := m_rhi_dispatch p;
     m_rhi_bindings_buffer_vertex := m_rhi_bindings_buffer_vertex p;
     m_rhi_bindings_buffer_index := m_rhi_bindings_buffer_index p |}.

Definition incr_m_rhi_dispatch (p : Profiler) : Profiler :=
  {| m_rhi_draw := m_rhi_draw p;
     m_rhi_dispatch := incr (m_rhi_dispatch p);
     m_rhi_bindings_buffer_vertex := m_rhi_bindings_buffer_vertex p;
     m_rhi_bindings_buffer_index := m_rhi_bindings_buffer_index p |}.

Definition incr_m_rhi_bindings_buffer_vertex (p : Profiler) : Profiler :=
  {| m_rhi_draw := m_rhi_draw p;
     m_rhi_dispatch := m_rhi_dispatch p;
     m_rhi_bindings_buffer_vertex := incr (m_rhi_bindings_buffer_vertex p);
     m_rhi_bindings_buffer_index := m_rhi_bindings_buffer_index p |}.

Definition incr_m_rhi_bindings_buffer_index (p : Profiler) : Profiler :=
  {| m_rhi_draw := m_rhi_draw p;
     m_rhi_dispatch := m_rhi_dispatch p;
     m_rhi_bindings_buffer_vertex := m_rhi_bindings_buffer_vertex p;
     m_rhi_bindings_buffer_index := incr (m_rhi_bindings_buffer_index p) |}.

(** A call on the backend command list: it is appended to what the list has
    recorded, and the driver's result code is returned. *)
Definition d3d12 (c : D3D12_Call) : M Machine HRESULT :=
  fun m => Ok (driver (recorded m) c,
               {| cmd_list := cmd_list m;
                  profiler := profiler m;
                  recorded := recorded m ++ [c] |}).

Definition in_state (s : RHI_CommandListState) (m : Machine) : bool :=
  state_eqb (m_state (cmd_list m)) s.

Definition assert_Recording : M Machine unit :=
  m <- get ;;
  SP_ASSERT (in_state Recording m) "m_state == RHI_CommandListState::Recording"%string.

(** ** The member functions, in the order of the file *)

Definition Begin : M Machine unit :=
  m <- get ;;
  (if in_state Submitted m then WaitForExecution else ret tt) ;;
  m <- get ;;
  SP_ASSERT (negb (is_null (m_rhi_resource (cmd_list m))))
            "m_rhi_resource != nullptr"%string ;;
  SP_ASSERT (in_state Idle m) "m_state == RHI_CommandListState::Idle"%string ;;
  hr <- d3d12 (Reset (m_rhi_cmd_pool_resource (cmd_list m))) ;;
  SP_ASSERT_MSG (error_check hr) "Failed to reset command list"%string ;;
  modify (set_m_state Recording).

Definition End : M Machine unit :=
  m <- get ;;
  SP_ASSERT (negb (is_null (m_rhi_resource (cmd_list m))))
            "m_rhi_resource != nullptr"%string ;;
  SP_ASSERT (in_state Recording m) "m_state == RHI_CommandListState::Recording"%string ;;
  hr <- d3d12 Close ;;
  SP_ASSERT_MSG (SUCCEEDED hr) "Failed to end command list"%string ;;
  modify (set_m_state Ended).

Definition Submit : M Machine unit := ret tt.

Definition SetPipelineState (pso : RHI_PipelineState) : M Machine unit :=
  (* the asserted expression is [pso.IsValid() && "Pipeline state is invalid"] *)
  SP_ASSERT (IsValid pso) "Pipeline state is invalid"%string ;;
  assert_Recording ;;
  SP_ASSERT_MSG false not_implemented.

Definition BeginRenderPass : M Machine unit := SP_ASSERT_MSG false not_implemented.
Definition EndRenderPass : M Machine unit := SP_ASSERT_MSG false not_implemented.

Definition ClearPipelineStateRenderTargets (pipeline_state : RHI_PipelineState)
  : M Machine unit := SP_ASSERT_MSG false not_implemented.

Definition ClearRenderTarget (texture : RHI_Texture)
  (color_index depth_stencil_index : Z) (storage : bool)
  (clear_depth : float) (clear_stencil : Z) : M Machine unit :=
  SP_ASSERT_MSG false not_implemented.

Definition OnDraw : M Machine unit := SP_ASSERT_MSG false not_implemented.

(** The statements of [Draw] after the pre-draw hook. *)
Definition Draw_issue (vertex_count vertex_start_index : Z) : M Machine unit :=
  d3d12 (DrawInstanced vertex_count 1 vertex_start_index 0) ;;
  modify (fun m => set_profiler (incr_m_rhi_draw (profiler m)) m).

Definition Draw (vertex_count vertex_start_index : Z) : M Machine unit :=
  assert_Recording ;;
  OnDraw ;;
  Draw_issue vertex_count vertex_start_index.

(** The statements of [DrawIndexed] after the pre-draw hook. *)
Definition DrawIndexed_issue (index_count index_offset vertex_offset instance_count : Z)
  : M Machine unit :=
  d3d12 (DrawIndexedInstanced index_count 1 index_offset (to_int32 vertex_offset) 0) ;;
  modify (fun m => set_profiler (incr_m_rhi_draw (profiler m)) m).

Definition DrawIndexed (index_count index_offset vertex_offset instance_count : Z)
  : M Machine unit :=
  assert_Recording ;;
  OnDraw ;;
  DrawIndexed_issue index_count index_offset vertex_offset instance_count.

Definition Dispatch (x y z : Z) (async : bool) : M Machine unit :=
  assert_Recording ;;
  OnDraw ;;
  d3d12 (Dispatch_call x y z) ;;
  modify (fun m => set_profiler (incr_m_rhi_dispatch (profiler m)) m).

Definition Blit_texture (source destination : RHI_Texture) (blit_mips : bool)
  : M Machine unit := SP_ASSERT_MSG false not_implemented.

Definition Blit_swapchain (source : RHI_Texture) (destination : RHI_SwapChain)
  : M Machine unit :=
  SP_ASSERT_MSG (negb (Z.land (tex_GetFlags source) RHI_Texture_ClearBlit =? 0))
    "The texture needs the RHI_Texture_ClearOrBlit flag"%string ;;
  SP_ASSERT_MSG ((tex_GetWidth source <=? sc_GetWidth destination)
                 && (tex_GetHeight source <=? sc_GetHeight destination))
    "The source texture dimension(s) are larger than the those of the destination texture"%string.

Definition Copy_texture (source destination : RHI_Texture) (blit_mips : bool)
  : M Machine unit := SP_ASSERT_MSG false not_implemented.

Definition Copy_swapchain (source : RHI_Texture) (destination : RHI_SwapChain)
  : M Machine unit :=
  SP_ASSERT_MSG (negb (Z.land (tex_GetFlags source) RHI_Texture_ClearBlit =? 0))
    "The texture needs the RHI_Texture_ClearOrBlit flag"%string ;;
  SP_ASSERT (tex_GetWidth source =? sc_GetWidth destination)
    "source->GetWidth() == destination->GetWidth()"%string ;;
  SP_ASSERT (tex_GetHeight source =? sc_GetHeight destination)
    "source->GetHeight() == destination->GetHeight()"%string.

Definition SetViewport (viewport : RHI_Viewport) : M Machine unit :=
  assert_Recording ;;
  d3d12 (RSSetViewports 1
           {| TopLeftX := x viewport; TopLeftY := y viewport;
              Width := width viewport; Height := height viewport;
              MinDepth := depth_min viewport; MaxDepth := depth_max viewport |}) ;;
  ret tt.

Definition SetScissorRectangle (scissor_rectangle : Rectangle) : M Machine unit :=
  assert_Recording ;;
  d3d12 (RSSetScissorRects 1
           {| rect_left := static_cast_LONG (left scissor_rectangle);
              rect_top := static_cast_LONG (top scissor_rectangle);
              rect_right := static_cast_LONG (right scissor_rectangle);
              rect_bottom := static_cast_LONG (bottom scissor_rectangle) |}) ;;
  ret tt.

Definition SetBufferVertex (buffer : RHI_VertexBuffer) (binding : Z) : M Machine unit :=
  assert_Recording ;;
  m <- get ;;
  if m_vertex_buffer_id (cmd_list m) =? vb_GetObjectId buffer then ret tt
  else
    d3d12 (IASetVertexBuffers 0 1
             {| vbv_BufferLocation := 0;
                vbv_StrideInBytes := to_uint32 (vb_GetStride buffer);
                vbv_SizeInBytes := to_uint32 (vb_GetObjectSizeGpu buffer) |}) ;;
    modify (set_m_vertex_buffer_id (vb_GetObjectId buffer)) ;;
    modify (fun m => set_profiler (incr_m_rhi_bindings_buffer_vertex (profiler m)) m).

Definition SetBufferIndex (buffer : RHI_IndexBuffer) : M Machine unit :=
  assert_Recording ;;
  m <- get ;;
  if m_index_buffer_id (cmd_list m) =? ib_GetObjectId buffer then ret tt
  else
    d3d12 (IASetIndexBuffer
             {| ibv_BufferLocation := 0;
                ibv_SizeInBytes := to_uint32 (ib_GetObjectSizeGpu buffer);
                ibv_Format := if ib_Is16Bit buffer then DXGI_FORMAT_R16_UINT
                              else DXGI_FORMAT_R32_UINT |}) ;;
    modify (set_m_index_buffer_id (ib_GetObjectId buffer)) ;;
    modify (fun m => set_profiler (incr_m_rhi_bindings_buffer_index (profiler m)) m).

Definition SetConstantBuffer (slot : Z) (constant_buffer : ptr) : M Machine unit :=
  SP_ASSERT_MSG false not_implemented.
Definition PushConstants (offset size : Z) (data : ptr) : M Machine unit :=
  SP_ASSERT_MSG false not_implemented.
Definition SetStructuredBuffer (slot : Z) (structured_buffer : ptr) : M Machine unit :=
  SP_ASSERT_MSG false not_implemented.
Definition SetSampler (slot : Z) (sampler : ptr) : M Machine unit :=
  SP_ASSERT_MSG false not_implemented.
Definition SetTexture (slot : Z) (texture : RHI_Texture) (mip_index mip_range : Z)
  (uav : bool) : M Machine unit :=
  SP_ASSERT_MSG false not_implemented.

Definition BeginTimestamp : M Machine Z :=
  SP_ASSERT_MSG false not_implemented ;; ret 0.
Definition EndTimestamp : M Machine unit := SP_ASSERT_MSG false not_implemented.
Definition GetTimestampDuration (timestamp_index : Z) : M Machine float :=
  ret float_zero.
Definition BeginTimeblock (name : string) (gpu_marker gpu_timing : bool)
  : M Machine unit := SP_ASSERT_MSG false not_implemented.
Definition EndTimeblock : M Machine unit := SP_ASSERT_MSG false not_implemented.
Definition BeginMarker (name : string) : M Machine unit :=
  SP_ASSERT_MSG false not_implemented.
Definition EndMarker : M Machine unit := SP_ASSERT_MSG false not_implemented.

Definition InsertMemoryBarrierImage_image (image : ptr)
  (aspect_mask mip_index mip_range array_length layout_old layout_new : Z)
  : M Machine unit := ret tt.
Definition InsertMemoryBarrierImage (texture : RHI_Texture)
  (mip_start mip_range array_length layout_old layout_new : Z)
  : M Machine unit := ret tt.
Definition InsertMemoryBarrierImageWaitForWrite (texture : RHI_Texture)
  : M Machine unit := ret tt.

End CommandList.

End D3D12.

(* ===================================================================== *)
(** * Vulkan pipeline object *)
(* ===================================================================== *)

Module Vulkan.

(** ** What the constructor reads *)

Inductive RHI_Descriptor_Type : Type :=
| PushConstantBuffer
| OtherDescriptor (tag : Z).

Record RHI_Descriptor : Type := {
  type : RHI_Descriptor_Type;
  stage : Z;          (* bit mask of RHI_Shader_Stage *)
  struct_size : Z
}.

(** The caller's [RHI_DescriptorSetLayout*]; the constructor dereferences
    it at once, so it is an object here and never null. *)
Record RHI_DescriptorSetLayout : Type := {
  dsl_GetRhiResource : ptr;
  dsl_GetDescriptors : list RHI_Descriptor
}.

Record VertexAttribute : Type := {
  va_location : Z; va_binding : Z; va_format : Z; va_offset : Z
}.

Record RHI_InputLayout : Type := {
  GetAttributeDescriptions : list VertexAttribute
}.

Record RHI_Shader : Type := {
  sh_GetRhiResource : ptr;
  sh_GetEntryPoint : option string;       (* const char*, [None] when null *)
  sh_GetVertexSize : Z;
  sh_GetInputLayout : option RHI_InputLayout
}.

Record RHI_RasterizerState : Type := {
  GetDepthClipEnabled : bool;
  GetPolygonMode : Z;
  GetLineWidth : float;
  GetCullMode : Z;
  GetDepthBias : float;
  GetDepthBiasClamp : float;
  GetDepthBiasSlopeScaled : float
}.

Record RHI_BlendState : Type := {
  GetBlendEnabled : bool;
  GetSourceBlend : Z; GetDestBlend : Z; GetBlendOp : Z;
  GetSourceBlendAlpha : Z; GetDestBlendAlpha : Z; GetBlendOpAlpha : Z;
  GetBlendFactor : float
}.

Record RHI_DepthStencilState : Type := {
  GetDepthTestEnabled : bool;
  GetDepthWriteEnabled : bool;
  GetDepthComparisonFunction : Z;
  GetStencilTestEnabled : bool;
  GetStencilComparisonFunction : Z;
  GetStencilFailOperation : Z;
  GetStencilDepthFailOperation : Z;
  GetStencilPassOperation : Z;
  GetStencilReadMask : Z;
  GetStencilWriteMask : Z
}.

Record RHI_Texture : Type := {
  tex_GetFormat : Z;
  tex_IsStencilFormat : bool
}.

Record RHI_SwapChain : Type := {
  sc_GetFormat : Z
}.

Record RHI_PipelineState : Type := {
  shader_vertex : option RHI_Shader;
  shader_pixel : option RHI_Shader;
  shader_compute : option RHI_Shader;
  rasterizer_state : option RHI_RasterizerState;
  blend_state : option RHI_BlendState;
  depth_stencil_state : option RHI_DepthStencilState;
  render_target_swapchain : option RHI_SwapChain;
  (** an array of [rhi_max_render_target_count] pointers *)
  render_target_color_textures : list (option RHI_Texture);
  render_target_depth_texture : option RHI_Texture;
  primitive_topology : Z;
  dynamic_scissor : bool;
  is_fullscreen_triangle : bool;
  instancing : bool;
  name : string
}.

Inductive RHI_Device_Resource : Type := sampler_comparison | sampler_regular.
Inductive RHI_Resource_Type : Type := PipelineLayout | Pipeline.

(** ** What the constructor hands to Vulkan *)

Definition VkResult := Z.
Definition VK_SUCCESS : VkResult := 0.

Definition VK_SHADER_STAGE_VERTEX_BIT : Z := 1.
Definition VK_SHADER_STAGE_FRAGMENT_BIT : Z := 16.
Definition VK_SHADER_STAGE_COMPUTE_BIT : Z := 32.
Definition VK_VERTEX_INPUT_RATE_VERTEX : Z := 0.
Definition VK_VERTEX_INPUT_RATE_INSTANCE : Z := 1.
Definition VK_FORMAT_UNDEFINED : Z := 0.
Definition VK_FORMAT_R32G32B32A32_SFLOAT : Z := 109.
Definition VK_FRONT_FACE_CLOCKWISE : Z := 1.
Definition VK_SAMPLE_COUNT_1_BIT : Z := 1.
Definition VK_LOGIC_OP_COPY : Z := 3.
Definition VK_COLOR_COMPONENT_RGBA : Z := 15.   (* R | G | B | A *)

Inductive VkDynamicState : Type := VK_DYNAMIC_STATE_VIEWPORT | VK_DYNAMIC_STATE_SCISSOR.

Record VkPushConstantRange : Type := {
  pcr_stageFlags : Z; pcr_offset : Z; pcr_size : Z
}.

Record VkPipelineLayoutCreateInfo : Type := {
  setLayoutCount : Z;
  pSetLayouts : list ptr;
  pushConstantRangeCount : Z;
  pPushConstantRanges : list VkPushConstantRange
}.

Record VkPipelineDynamicStateCreateInfo : Type := {
  dynamicStateCount : Z;
  pDynamicStates : list VkDynamicState
}.

Record VkViewport : Type := {
  vp_x : float; vp_y : float; vp_width : float; vp_height : float;
  vp_minDepth : float; vp_maxDepth : float
}.

Record VkRect2D : Type := {
  offset_x : Z; offset_y : Z; extent_width : Z; extent_height : Z
}.

Record VkPipelineViewportStateCreateInfo : Type := {
  viewportCount : Z; pViewports : VkViewport;
  scissorCount : Z; pScissors : VkRect2D
}.

Record VkPipelineShaderStageCreateInfo : Type := {
  ss_stage : Z;
  ss_module : ptr;
  ss_pName : option string
}.

Record VkVertexInputBindingDescription : Type := {
  vib_binding : Z; vib_stride : Z; vib_inputRate : Z
}.

Record VkVertexInputAttributeDescription : Type := {
  via_location : Z; via_binding : Z; via_format : Z; via_offset : Z
}.

Record VkPipelineVertexInputStateCreateInfo : Type := {
  vertexBindingDescriptionCount : Z;
  pVertexBindingDescriptions : list VkVertexInputBindingDescription;
  vertexAttributeDescriptionCount : Z;
  pVertexAttributeDescriptions : list VkVertexInputAttributeDescription
}.

Record VkPipelineInputAssemblyStateCreateInfo : Type := {
  topology : Z;
  primitiveRestartEnable : bool
}.

Record VkPipelineRasterizationStateCreateInfo : Type := {
  (** [pNext]: the depth-clip state, [None] when the struct is left zeroed *)
  depthClipEnable : option bool;
  depthClampEnable : bool;
  rasterizerDiscardEnable : bool;
  polygonMode : Z;
  lineWidth : float;
  cullMode : Z;
  frontFace : Z;
  depthBiasEnable : bool;
  depthBiasConstantFactor : float;
  depthBiasClamp : float;
  depthBiasSlopeFactor : float
}.

Record VkPipelineMultisampleStateCreateInfo : Type := {
  sampleShadingEnable : bool;
  rasterizationSamples : Z
}.

Record VkPipelineColorBlendAttachmentState : Type := {
  colorWriteMask : Z;
  blendEnable : bool;
  srcColorBlendFactor : Z; dstColorBlendFactor : Z; colorBlendOp : Z;
  srcAlphaBlendFactor : Z; dstAlphaBlendFactor : Z; alphaBlendOp : Z
}.

Record VkPipelineColorBlendStateCreateInfo : Type := {
  logicOpEnable : bool;
  logicOp : Z;
  attachmentCount : Z;
  pAttachments : list VkPipelineColorBlendAttachmentState;
  blendConstants : list float
}.

Record VkStencilOpState : Type := {
  failOp : Z; passOp : Z; depthFailOp : Z; compareOp : Z;
  compareMask : Z; writeMask : Z; reference : Z
}.

Record VkPipelineDepthStencilStateCreateInfo : Type := {
  depthTestEnable : bool;
  depthWriteEnable : bool;
  depthCompareOp : Z;
  stencilTestEnable : bool;
  front : VkStencilOpState;
  back : VkStencilOpState;
  minDepthBounds : float;
  maxDepthBounds : float
}.

Record VkPipelineRenderingCreateInfoKHR : Type := {
  colorAttachmentCount : Z;
  pColorAttachmentFormats : list Z;
  depthAttachmentFormat : Z;
  stencilAttachmentFormat : Z
}.

Record VkGraphicsPipelineCreateInfo : Type := {
  pNext : VkPipelineRenderingCreateInfoKHR;
  stageCount : Z;
  pStages : list VkPipelineShaderStageCreateInfo;
  pVertexInputState : VkPipelineVertexInputStateCreateInfo;
  pInputAssemblyState : VkPipelineInputAssemblyStateCreateInfo;
  pDynamicState : VkPipelineDynamicStateCreateInfo;
  pViewportState : VkPipelineViewportStateCreateInfo;
  pRasterizationState : VkPipelineRasterizationStateCreateInfo;
  pMultisampleState : VkPipelineMultisampleStateCreateInfo;
  pColorBlendState : VkPipelineColorBlendStateCreateInfo;
  pDepthStencilState : VkPipelineDepthStencilStateCreateInfo;
  gp_layout : ptr;
  renderPass : ptr
}.

Record VkComputePipelineCreateInfo : Type := {
  cp_layout : ptr;
  (** [shader_stages[0]]; [None] stands for a read outside the vector *)
  cp_stage : option VkPipelineShaderStageCreateInfo
}.

(** The calls the constructor makes, in order. *)
Inductive VkCall : Type :=
| vkCreatePipelineLayout_call (info : VkPipelineLayoutCreateInfo)
| vkCreateGraphicsPipelines_call (info : VkGraphicsPipelineCreateInfo)
| vkCreateComputePipelines_call (info : VkComputePipelineCreateInfo)
| SetResourceName (resource : ptr) (resource_type : RHI_Resource_Type) (name : string).

(** The object under construction. *)
Record RHI_Pipeline : Type := {
  m_state : RHI_PipelineState;
  m_resource_pipeline_layout : ptr;
  m_resource_pipeline : ptr
}.

(** What the file uses and does not define: members of [RHI_PipelineState]
    and [RHI_Device], the translation tables, enum values and conversions. *)
Class Externals : Type := {
  IsGraphics : RHI_PipelineState -> bool;
  IsCompute : RHI_PipelineState -> bool;
  GetWidth : RHI_PipelineState -> Z;
  GetHeight : RHI_PipelineState -> Z;
  GetDescriptorSetLayout : RHI_Device_Resource -> ptr;
  PropertyGetMaxPushConstantSize : Z;
  (** result code and handle written by the three creation calls *)
  vkCreatePipelineLayout : VkPipelineLayoutCreateInfo -> VkResult * ptr;
  vkCreateGraphicsPipelines : VkGraphicsPipelineCreateInfo -> VkResult * ptr;
  vkCreateComputePipelines : VkComputePipelineCreateInfo -> VkResult * ptr;
  RHI_Shader_Vertex : Z;
  RHI_Shader_Pixel : Z;
  RHI_Shader_Compute : Z;
  rhi_format_to_index : Z -> Z;
  vulkan_format : Z -> Z;
  vulkan_primitive_topology : Z -> Z;
  vulkan_polygon_mode : Z -> Z;
  vulkan_cull_mode : Z -> Z;
  vulkan_blend_factor : Z -> Z;
  vulkan_blend_operation : Z -> Z;
  vulkan_compare_operator : Z -> Z;
  vulkan_stencil_operation : Z -> Z;
  (** [static_cast<uint32_t>] of a float *)
  static_cast_uint32 : float -> Z
}.

Definition sizeof_Matrix : Z := 64.    (* 4 x 4 floats *)
Definition sizeof_Vector4 : Z := 16.   (* 4 floats *)

(** Modelled from the spec: the member initialiser of [m_resource_pipeline]
    (RHI_Pipeline.h is not among the sources); a pipeline object that holds
    no backend pipeline holds null, as the destructor leaves it. *)
Definition m_resource_pipeline_initial : ptr := nullptr.

Definition is_some {A} (o : option A) : bool :=
  match o with Some _ => true | None => false end.

(** [static_cast<uint32_t>(v.size())] *)
Definition size {A} (v : list A) : Z := to_uint32 (Z.of_nat (List.length v)).

Section Pipeline.
Context {ext : Externals}.

Definition Trace := list VkCall.

Definition call (c : VkCall) : M Trace unit := modify (fun t => t ++ [c]).

(** Modelled from the spec: the macro [SP_VK_ASSERT_MSG]
    (RHI_Implementation.h is not among the sources): "any backend
    object-creation failure is fatal (aborts with diagnostic)". *)
Definition SP_VK_ASSERT_MSG (vk_result : VkResult) (message : string) : M Trace unit :=
  SP_ASSERT_MSG (vk_result =? VK_SUCCESS) message.

(** *** Pipeline layout *)

Definition layouts (descriptor_set_layout : RHI_DescriptorSetLayout) : list ptr :=
  [ dsl_GetRhiResource descriptor_set_layout;
    GetDescriptorSetLayout sampler_comparison;
    GetDescriptorSetLayout sampler_regular ].

Definition stage_flag (stage mask bit : Z) : Z :=
  if Z.land stage mask =? 0 then 0 else bit.

Definition push_constant_range (descriptor : RHI_Descriptor) : VkPushConstantRange :=
  {| pcr_offset := 0;
     pcr_size := struct_size descriptor;
     pcr_stageFlags :=
       Z.lor (Z.lor (stage_flag (stage descriptor) RHI_Shader_Vertex VK_SHADER_STAGE_VERTEX_BIT)
                    (stage_flag (stage descriptor) RHI_Shader_Pixel VK_SHADER_STAGE_FRAGMENT_BIT))
             (stage_flag (stage descriptor) RHI_Shader_Compute VK_SHADER_STAGE_COMPUTE_BIT) |}.

Fixpoint push_constant_ranges (descriptors : list RHI_Descriptor)
  (ranges : list VkPushConstantRange) : M Trace (list VkPushConstantRange) :=
  match descriptors with
  | [] => ret ranges
  | descriptor :: rest =>
      match type descriptor with
      | PushConstantBuffer =>
          SP_ASSERT (struct_size descriptor <=? PropertyGetMaxPushConstantSize)
            "descriptor.struct_size <= RHI_Device::PropertyGetMaxPushConstantSize()"%string ;;
          push_constant_ranges rest (ranges ++ [push_constant_range descriptor])
      | OtherDescriptor _ => push_constant_ranges rest ranges
      end
  end.

Definition pipeline_layout_info (descriptor_set_layout : RHI_DescriptorSetLayout)
  (ranges : list VkPushConstantRange) : VkPipelineLayoutCreateInfo :=
  {| setLayoutCount := size (layouts descriptor_set_layout);
     pSetLayouts := layouts descriptor_set_layout;
     pushConstantRangeCount := size ranges;
     pPushConstantRanges := ranges |}.

Definition pipeline_layout (pipeline_state : RHI_PipelineState)
  (descriptor_set_layout : RHI_DescriptorSetLayout) : M Trace ptr :=
  for_each (layouts descriptor_set_layout)
    (fun layout => SP_ASSERT (negb (is_null layout)) "layout != nullptr"%string) ;;
  ranges <- push_constant_ranges (dsl_GetDescriptors descriptor_set_layout) [] ;;
  let pipeline_layout_info := pipeline_layout_info descriptor_set_layout ranges in
  call (vkCreatePipelineLayout_call pipeline_layout_info) ;;
  SP_VK_ASSERT_MSG (fst (vkCreatePipelineLayout pipeline_layout_info))
    "Failed to create pipeline layout"%string ;;
  let m_resource_pipeline_layout := snd (vkCreatePipelineLayout pipeline_layout_info) in
  call (SetResourceName m_resource_pipeline_layout PipelineLayout (name pipeline_state)) ;;
  ret m_resource_pipeline_layout.

(** *** Viewport and scissor *)

Definition dynamic_states (pipeline_state : RHI_PipelineState) : list VkDynamicState :=
  [VK_DYNAMIC_STATE_VIEWPORT]
  ++ (if dynamic_scissor pipeline_state then [VK_DYNAMIC_STATE_SCISSOR] else []).

Definition dynamic_state (pipeline_state : RHI_PipelineState)
  : VkPipelineDynamicStateCreateInfo :=
  {| dynamicStateCount := size (dynamic_states pipeline_state);
     pDynamicStates := dynamic_states pipeline_state |}.

Definition vkViewport (pipeline_state : RHI_PipelineState) : VkViewport :=
  {| vp_x := float_zero;
     vp_y := float_zero;
     vp_width := float_of_Z (GetWidth pipeline_state);
     vp_height := float_of_Z (GetHeight pipeline_state);
     vp_minDepth := float_zero;
     vp_maxDepth := float_of_Z 1 |}.

Definition scissor (pipeline_state : RHI_PipelineState) : VkRect2D :=
  {| offset_x := 0;
     offset_y := 0;
     extent_width := static_cast_uint32 (vp_width (vkViewport pipeline_state));
     extent_height := static_cast_uint32 (vp_height (vkViewport pipeline_state)) |}.

Definition viewport_state (pipeline_state : RHI_PipelineState)
  : VkPipelineViewportStateCreateInfo :=
  {| viewportCount := 1; pViewports := vkViewport pipeline_state;
     scissorCount := 1; pScissors := scissor pipeline_state |}.

(** *** Shader stages *)

Definition shader_stage (stage_bit : Z) (shader : option RHI_Shader)
  (shader_stages : list VkPipelineShaderStageCreateInfo)
  : M Trace (list VkPipelineShaderStageCreateInfo) :=
  match shader with
  | None => ret shader_stages
  | Some sh =>
      let shader_stage_info :=
        {| ss_stage := stage_bit;
           ss_module := sh_GetRhiResource sh;
           ss_pName := sh_GetEntryPoint sh |} in
      SP_ASSERT (negb (is_null (ss_module shader_stage_info)))
        "shader_stage_info.module != nullptr"%string ;;
      SP_ASSERT (is_some (ss_pName shader_stage_info))
        "shader_stage_info.pName != nullptr"%string ;;
      ret (shader_stages ++ [shader_stage_info])
  end.

Definition shader_stages (pipeline_state : RHI_PipelineState)
  : M Trace (list VkPipelineShaderStageCreateInfo) :=
  stages <- shader_stage VK_SHADER_STAGE_VERTEX_BIT (shader_vertex pipeline_state) [] ;;
  stages <- shader_stage VK_SHADER_STAGE_FRAGMENT_BIT (shader_pixel pipeline_state) stages ;;
  shader_stage VK_SHADER_STAGE_COMPUTE_BIT (shader_compute pipeline_state) stages.

(** *** Vertex input *)

Definition vertex_input_binding_descs (pipeline_state : RHI_PipelineState)
  : list VkVertexInputBindingDescription :=
  match shader_vertex pipeline_state with
  | Some vs =>
      if negb (is_fullscreen_triangle pipeline_state) then
        [ {| vib_binding := 0; vib_stride := sh_GetVertexSize vs;
             vib_inputRate := VK_VERTEX_INPUT_RATE_VERTEX |} ]
        ++ (if instancing pipeline_state then
              [ {| vib_binding := 1; vib_stride := sizeof_Matrix;
                   vib_inputRate := VK_VERTEX_INPUT_RATE_INSTANCE |} ]
            else [])
      else []
  | None => []
  end.

(** One more attribute per row of the instance matrix, each at the next
    free location. *)
Definition matrix_row (descs : list VkVertexInputAttributeDescription) (i : Z)
  : list VkVertexInputAttributeDescription :=
  descs ++ [ {| via_location := size descs; via_binding := 1;
                via_format := VK_FORMAT_R32G32B32A32_SFLOAT;
                via_offset := i * sizeof_Vector4 |} ].

Definition vertex_attribute_descs (pipeline_state : RHI_PipelineState)
  : list VkVertexInputAttributeDescription :=
  match shader_vertex pipeline_state with
  | Some vs =>
      if negb (is_fullscreen_triangle pipeline_state) then
        let reflected :=
          match sh_GetInputLayout vs with
          | Some input_layout =>
              map (fun desc =>
                     {| via_location := va_location desc;
                        via_binding := va_binding desc;
                        via_format := vulkan_format (rhi_format_to_index (va_format desc));
                        via_offset := va_offset desc |})
                  (GetAttributeDescriptions input_layout)
          | None => []
          end in
        if instancing pipeline_state then fold_left matrix_row [0; 1; 2; 3] reflected
        else reflected
      else []
  | None => []
  end.

Definition vertex_input_state (pipeline_state : RHI_PipelineState)
  : VkPipelineVertexInputStateCreateInfo :=
  {| vertexBindingDescriptionCount := size (vertex_input_binding_descs pipeline_state);
     pVertexBindingDescriptions := vertex_input_binding_descs pipeline_state;
     vertexAttributeDescriptionCount := size (vertex_attribute_descs pipeline_state);
     pVertexAttributeDescriptions := vertex_attribute_descs pipeline_state |}.

Definition input_assembly_state (pipeline_state : RHI_PipelineState)
  : VkPipelineInputAssemblyStateCreateInfo :=
  {| topology := vulkan_primitive_topology (primitive_topology pipeline_state);
     primitiveRestartEnable := false |}.

(** *** Rasterizer, multisampling, blending, depth-stencil *)

Definition rasterizer_state_info (pipeline_state : RHI_PipelineState)
  : VkPipelineRasterizationStateCreateInfo :=
  match rasterizer_state pipeline_state with
  | Some rs =>
      {| depthClipEnable := Some (GetDepthClipEnabled rs);
         depthClampEnable := false;
         rasterizerDiscardEnable := false;
         polygonMode := vulkan_polygon_mode (GetPolygonMode rs);
         lineWidth := GetLineWidth rs;
         cullMode := vulkan_cull_mode (GetCullMode rs);
         frontFace := VK_FRONT_FACE_CLOCKWISE;
         depthBiasEnable := negb (float_eqb (GetDepthBias rs) float_zero);
         depthBiasConstantFactor :=
           Floor (float_mul (GetDepthBias rs) (float_of_Z (Z.shiftl 1 24)));
         depthBiasClamp := GetDepthBiasClamp rs;
         depthBiasSlopeFactor := GetDepthBiasSlopeScaled rs |}
  | None =>
      {| depthClipEnable := None;
         depthClampEnable := false;
         rasterizerDiscardEnable := false;
         polygonMode := 0;
         lineWidth := float_zero;
         cullMode := 0;
         frontFace := 0;
         depthBiasEnable := false;
         depthBiasConstantFactor := float_zero;
         depthBiasClamp := float_zero;
         depthBiasSlopeFactor := float_zero |}
  end.

Definition multisampling_state : VkPipelineMultisampleStateCreateInfo :=
  {| sampleShadingEnable := false; rasterizationSamples := VK_SAMPLE_COUNT_1_BIT |}.

Definition blend_state_attachment (bs : RHI_BlendState)
  : VkPipelineColorBlendAttachmentState :=
  {| colorWriteMask := VK_COLOR_COMPONENT_RGBA;
     blendEnable := GetBlendEnabled bs;
     srcColorBlendFactor := vulkan_blend_factor (GetSourceBlend bs);
     dstColorBlendFactor := vulkan_blend_factor (GetDestBlend bs);
     colorBlendOp := vulkan_blend_operation (GetBlendOp bs);
     srcAlphaBlendFactor := vulkan_blend_factor (GetSourceBlendAlpha bs);
     dstAlphaBlendFactor := vulkan_blend_factor (GetDestBlendAlpha bs);
     alphaBlendOp := vulkan_blend_operation (GetBlendOpAlpha bs) |}.

Definition blend_state_attachments (pipeline_state : RHI_PipelineState) (bs : RHI_BlendState)
  : list VkPipelineColorBlendAttachmentState :=
  (if is_some (render_target_swapchain pipeline_state)
   then [blend_state_attachment bs] else [])
  ++ flat_map (fun texture => if is_some texture then [blend_state_attachment bs] else [])
       (render_target_color_textures pipeline_state).

Definition color_blend_state (pipeline_state : RHI_PipelineState)
  : VkPipelineColorBlendStateCreateInfo :=
  match blend_state pipeline_state with
  | Some bs =>
      {| logicOpEnable := false;
         logicOp := VK_LOGIC_OP_COPY;
         attachmentCount := size (blend_state_attachments pipeline_state bs);
         pAttachments := blend_state_attachments pipeline_state bs;
         blendConstants := [GetBlendFactor bs; GetBlendFactor bs;
                            GetBlendFactor bs; GetBlendFactor bs] |}
  | None =>
      {| logicOpEnable := false; logicOp := 0; attachmentCount := 0; pAttachments := [];
         blendConstants := [float_zero; float_zero; float_zero; float_zero] |}
  end.

Definition stencil_front (dss : RHI_DepthStencilState) : VkStencilOpState :=
  {| compareOp := vulkan_compare_operator (GetStencilComparisonFunction dss);
     failOp := vulkan_stencil_operation (GetStencilFailOperation dss);
     depthFailOp := vulkan_stencil_operation (GetStencilDepthFailOperation dss);
     passOp := vulkan_stencil_operation (GetStencilPassOperation dss);
     compareMask := GetStencilReadMask dss;
     writeMask := GetStencilWriteMask dss;
     reference := 1 |}.

Definition zero_stencil : VkStencilOpState :=
  {| failOp := 0; passOp := 0; depthFailOp := 0; compareOp := 0;
     compareMask := 0; writeMask := 0; reference := 0 |}.

Definition depth_stencil_state_info (pipeline_state : RHI_PipelineState)
  : VkPipelineDepthStencilStateCreateInfo :=
  match depth_stencil_state pipeline_state with
  | Some dss =>
      {| depthTestEnable := GetDepthTestEnabled dss;
         depthWriteEnable := GetDepthWriteEnabled dss;
         depthCompareOp := vulkan_compare_operator (GetDepthComparisonFunction dss);
         stencilTestEnable := GetStencilTestEnabled dss;
         front := stencil_front dss;
         back := stencil_front dss;
         minDepthBounds := float_of_Z 1;
         maxDepthBounds := float_zero |}
  | None =>
      {| depthTestEnable := false; depthWriteEnable := false; depthCompareOp := 0;
         stencilTestEnable := false; front := zero_stencil; back := zero_stencil;
         minDepthBounds := float_zero; maxDepthBounds := float_zero |}
  end.

(** *** The pipeline *)

(** The formats of the colour textures up to the first null one. *)
Fixpoint formats_until_null (textures : list (option RHI_Texture)) : list Z :=
  match textures with
  | Some texture :: rest =>
      vulkan_format (rhi_format_to_index (tex_GetFormat texture)) :: formats_until_null rest
  | _ => []
  end.

Definition attachment_formats_color (pipeline_state : RHI_PipelineState) : list Z :=
  match render_target_swapchain pipeline_state with
  | Some swapchain => [vulkan_format (rhi_format_to_index (sc_GetFormat swapchain))]
  | None => formats_until_null (render_target_color_textures pipeline_state)
  end.

Definition pipeline_rendering_create_info (pipeline_state : RHI_PipelineState)
  : VkPipelineRenderingCreateInfoKHR :=
  let attachment_format_depth :=
    match render_target_depth_texture pipeline_state with
    | Some tex_depth => vulkan_format (rhi_format_to_index (tex_GetFormat tex_depth))
    | None => VK_FORMAT_UNDEFINED
    end in
  let attachment_format_stencil :=
    match render_target_depth_texture pipeline_state with
    | Some tex_depth =>
        if tex_IsStencilFormat tex_depth then attachment_format_depth
        else VK_FORMAT_UNDEFINED
    | None => VK_FORMAT_UNDEFINED
    end in
  {| colorAttachmentCount := size (attachment_formats_color pipeline_state);
     pColorAttachmentFormats := attachment_formats_color pipeline_state;
     depthAttachmentFormat := attachment_format_depth;
     stencilAttachmentFormat := attachment_format_stencil |}.

Definition graphics_pipeline_info (pipeline_state : RHI_PipelineState)
  (m_resource_pipeline_layout : ptr)
  (shader_stages : list VkPipelineShaderStageCreateInfo) : VkGraphicsPipelineCreateInfo :=
  {| pNext := pipeline_rendering_create_info pipeline_state;
     stageCount := size shader_stages;
     pStages := shader_stages;
     pVertexInputState := vertex_input_state pipeline_state;
     pInputAssemblyState := input_assembly_state pipeline_state;
     pDynamicState := dynamic_state pipeline_state;
     pViewportState := viewport_state pipeline_state;
     pRasterizationState := rasterizer_state_info pipeline_state;
     pMultisampleState := multisampling_state;
     pColorBlendState := color_blend_state pipeline_state;
     pDepthStencilState := depth_stencil_state_info pipeline_state;
     gp_layout := m_resource_pipeline_layout;
     renderPass := nullptr |}.

Definition compute_pipeline_info (m_resource_pipeline_layout : ptr)
  (shader_stages : list VkPipelineShaderStageCreateInfo) : VkComputePipelineCreateInfo :=
  {| cp_layout := m_resource_pipeline_layout;
     cp_stage := nth_error shader_stages 0 |}.

(** The block that creates the pipeline; its value is [m_resource_pipeline]
    at the end of the constructor. *)
Definition pipeline (pipeline_state : RHI_PipelineState)
  (m_resource_pipeline_layout : ptr)
  (shader_stages : list VkPipelineShaderStageCreateInfo) : M Trace ptr :=
  if IsGraphics pipeline_state then
    let pipeline_info :=
      graphics_pipeline_info pipeline_state m_resource_pipeline_layout shader_stages in
    call (vkCreateGraphicsPipelines_call pipeline_info) ;;
    SP_VK_ASSERT_MSG (fst (vkCreateGraphicsPipelines pipeline_info))
      "Failed to create graphics pipeline"%string ;;
    ret (snd (vkCreateGraphicsPipelines pipeline_info))
  else if IsCompute pipeline_state then
    let pipeline_info := compute_pipeline_info m_resource_pipeline_layout shader_stages in
    call (vkCreateComputePipelines_call pipeline_info) ;;
    SP_VK_ASSERT_MSG (fst (vkCreateComputePipelines pipeline_info))
      "Failed to create compute pipeline"%string ;;
    let pipeline := snd (vkCreateComputePipelines pipeline_info) in
    call (SetResourceName pipeline Pipeline (name pipeline_state)) ;;
    ret pipeline
  else ret m_resource_pipeline_initial.

(** [RHI_Pipeline::RHI_Pipeline(pipeline_state, descriptor_set_layout)]. *)
Definition RHI_Pipeline_ctor (pipeline_state : RHI_PipelineState)
  (descriptor_set_layout : RHI_DescriptorSetLayout) : M Trace RHI_Pipeline :=
  layout <- pipeline_layout pipeline_state descriptor_set_layout ;;
  stages <- shader_stages pipeline_state ;;
  handle <- pipeline pipeline_state layout stages ;;
  ret {| m_state := pipeline_state;
         m_resource_pipeline_layout := layout;
         m_resource_pipeline := handle |}.

End Pipeline.

End Vulkan.

(* ===================================================================== *)
(** * Single precision: values and exact operations *)
(* ===================================================================== *)

(** [d] is a single-precision number: its mantissa and exponent are in range
    and canonical. *)
Definition float_valid (d : float) : Prop := valid_binary float_prec float_emax d = true.
Definition is_finite (d : float) : bool :=
  match d with S754_zero _ | S754_finite _ _ _ => true | _ => false end.
Definition is_zero (d : float) : bool :=
  match d with S754_zero _ => true | _ => false end.
(** Every finite single-precision number is an integer multiple of the least
    subnormal, 2^-149; [units d] is that integer: [d = units d * 2^-149]. *)
Definition units (d : float) : Z :=
  match d with
  | S754_finite s m e => cond_Zopp s (Zpos m * 2 ^ (e + 149))
  | _ => 0
  end.

(** [floor (d * 2^k)] for a finite [d] and [k <= 149]: with
    [d = units d * 2^-149], the product is [units d / 2^(149 - k)] and the
    floor is the quotient of the division that rounds down. *)
Definition floor_times_pow2 (d : float) (k : Z) : Z := units d / 2 ^ (149 - k).

(** [|d| < 2^k] for a finite [d]. *)
Definition magnitude_below_pow2 (d : float) (k : Z) : Prop :=
  Z.abs (units d) < 2 ^ (k + 149).

(** [f] is finite and its value is the integer [N]. *)
Definition holds_integer (f : float) (N : Z) : Prop :=
  is_finite f = true /\ units f = N * 2 ^ 149.

(** ** Shifts *)

Lemma iter_pos_nat {A} (f : A -> A) (p : positive) (x : A) :
  iter_pos f p x = Nat.iter (Pos.to_nat p) f x.
Proof.
  revert x. induction p as [p IH|p IH|]; intro x; cbn [iter_pos].
  - rewrite !IH, Pos2Nat.inj_xI, <- Nat.iter_add, <- Nat.iter_succ_r.
    f_equal. lia.
  - rewrite !IH, Pos2Nat.inj_xO, <- Nat.iter_add. f_equal. lia.
  - reflexivity.
Qed.

(** A shift record with nothing lost. *)
Definition nothing_lost (m : positive) : shr_record :=
  {| shr_m := Zpos m; shr_r := false; shr_s := false |}.

Lemma shr_1_shiftl (n : nat) (a : positive) :
  Nat.iter n shr_1 (nothing_lost (Pos.shiftl_nat a n)) = nothing_lost a.
Proof.
  induction n as [|n IH]; [reflexivity|].
  rewrite Nat.iter_succ_r. simpl. exact IH.
Qed.

Lemma digits2_shiftl (n : nat) (a : positive) :
  Zpos (digits2_pos (Pos.shiftl_nat a n)) = Zpos (digits2_pos a) + Z.of_nat n.
Proof.
  induction n as [|n IH]; [simpl; lia|].
  change (Pos.shiftl_nat a (S n)) with (xO (Pos.shiftl_nat a n)).
  simpl digits2_pos. rewrite Pos2Z.inj_succ, IH. lia.
Qed.

Lemma Zpos_shiftl (n : nat) (a : positive) :
  Zpos (Pos.shiftl_nat a n) = Zpos a * 2 ^ Z.of_nat n.
Proof.
  induction n as [|n IH]; [simpl; lia|].
  change (Pos.shiftl_nat a (S n)) with (xO (Pos.shiftl_nat a n)).
  rewrite Pos2Z.inj_xO, IH, Nat2Z.inj_succ, Z.pow_succ_r by lia. ring.
Qed.

Lemma shiftl_nat_add (a : positive) (n k : nat) :
  Pos.shiftl_nat a (n + k) = Pos.shiftl_nat (Pos.shiftl_nat a n) k.
Proof.
  induction k as [|k IH]; [now rewrite Nat.add_0_r|].
  rewrite Nat.add_succ_r. simpl. now rewrite IH.
Qed.

Lemma digits2_bounds (m : positive) :
  2 ^ (Zpos (digits2_pos m) - 1) <= Zpos m < 2 ^ Zpos (digits2_pos m).
Proof.
  assert (Hstep : forall d x y : Z, 1 <= d ->
            2 ^ (d - 1) <= x < 2 ^ d -> 2 * x <= y <= 2 * x + 1 ->
            2 ^ (Z.succ d - 1) <= y < 2 ^ Z.succ d).
  { intros d x y Hd Hx Hy.
    replace (Z.succ d - 1) with (Z.succ (d - 1)) by lia.
    rewrite !Z.pow_succ_r by lia.
    destruct Hx as [Hx1 Hx2]. revert Hx1 Hx2.
    generalize (2 ^ (d - 1)) (2 ^ d). intros. lia. }
  induction m as [m IH|m IH|]; simpl digits2_pos.
  - rewrite Pos2Z.inj_succ. apply (Hstep _ (Zpos m)); [lia | exact IH | lia].
  - rewrite Pos2Z.inj_succ. apply (Hstep _ (Zpos m)); [lia | exact IH | lia].
  - simpl. lia.
Qed.

Lemma digits2_le (m : positive) (k : Z) :
  0 <= k -> Zpos m < 2 ^ k -> Zpos (digits2_pos m) <= k.
Proof.
  intros Hk Hm. destruct (digits2_bounds m) as [Hlo _].
  destruct (Z_le_gt_dec (Zpos (digits2_pos m)) k) as [H|H]; [exact H|].
  exfalso. assert (2 ^ k <= 2 ^ (Zpos (digits2_pos m) - 1)) by (apply Z.pow_le_mono_r; lia).
  lia.
Qed.

(** ** Rounding that is exact *)

Lemma bounded_inv (m : positive) (e : Z) :
  bounded float_prec float_emax m e = true ->
  Zpos (digits2_pos m) <= 24 /\ -149 <= e <= 104
  /\ (e = -149 \/ Zpos (digits2_pos m) = 24).
Proof.
  unfold bounded, canonical_mantissa, fexp, emin, float_prec, float_emax.
  intro H. apply andb_true_iff in H. destruct H as [H1 H2].
  apply Z.eqb_eq in H1. apply Z.leb_le in H2. lia.
Qed.

Lemma binary_round_aux_exact (s : bool) (a : positive) (k : nat) (E : Z) :
  fexp float_prec float_emax (Zpos (digits2_pos (Pos.shiftl_nat a k)) + E) - E = Z.of_nat k ->
  binary_round_aux float_prec float_emax s (Zpos (Pos.shiftl_nat a k)) E loc_Exact =
  if E + Z.of_nat k <=? float_emax - float_prec
  then S754_finite s a (E + Z.of_nat k) else S754_infinity s.
Proof.
  intro Hshift.
  assert (Hfirst : shr_fexp float_prec float_emax (Zpos (Pos.shiftl_nat a k)) E loc_Exact
                   = (nothing_lost a, E + Z.of_nat k)).
  { unfold shr_fexp. cbn [Zdigits2 shr_record_of_loc]. rewrite Hshift.
    destruct k as [|k].
    - simpl. now rewrite Z.add_0_r.
    - unfold shr. cbn [Z.of_nat].
      rewrite iter_pos_nat, SuccNat2Pos.id_succ.
      fold (nothing_lost (Pos.shiftl_nat a (S k))).
      now rewrite (shr_1_shiftl (S k) a). }
  assert (Hsecond : shr_fexp float_prec float_emax (Zpos a) (E + Z.of_nat k) loc_Exact
                    = (nothing_lost a, E + Z.of_nat k)).
  { unfold shr_fexp. cbn [Zdigits2 shr_record_of_loc].
    rewrite digits2_shiftl in Hshift.
    replace (Zpos (digits2_pos a) + (E + Z.of_nat k))
      with (Zpos (digits2_pos a) + Z.of_nat k + E) by ring.
    replace (fexp float_prec float_emax (Zpos (digits2_pos a) + Z.of_nat k + E)
             - (E + Z.of_nat k)) with 0 by lia.
    reflexivity. }
  unfold binary_round_aux. rewrite Hfirst.
  cbn [nothing_lost shr_m loc_of_shr_record round_nearest_even].
  rewrite Hsecond. reflexivity.
Qed.

(** ** Scaling by 2^24 and taking the floor *)

(** [(float)(1 << 24)] *)
Definition two24 : float := float_of_Z (Z.shiftl 1 24).

Lemma cond_Zopp_mul (s : bool) (a b : Z) : cond_Zopp s (a * b) = cond_Zopp s a * b.
Proof. destruct s; simpl; ring. Qed.

Lemma float_mul_two24 (s : bool) (m : positive) (e : Z) :
  bounded float_prec float_emax m e = true ->
  float_mul (S754_finite s m e) two24 =
  if e + Zpos (digits2_pos m) <=? 104
  then S754_finite s (Pos.shiftl_nat m (Z.to_nat (24 - Zpos (digits2_pos m))))
         (e + Zpos (digits2_pos m))
  else S754_infinity s.
Proof.
  intro Hb. apply bounded_inv in Hb. destruct Hb as (Hd & He & _).
  set (dm := Zpos (digits2_pos m)) in *.
  assert (Hdm : 1 <= dm) by (subst dm; lia).
  change two24 with (S754_finite false 8388608 1).
  unfold float_mul, SFmul. rewrite xorb_false_r.
  replace (Pos.mul m 8388608) with (Pos.shiftl_nat m 23)
    by (rewrite Pos.mul_comm; reflexivity).
  replace 23%nat with (Z.to_nat (24 - dm) + Z.to_nat (dm - 1))%nat by lia.
  rewrite shiftl_nat_add.
  rewrite binary_round_aux_exact.
  - replace (e + 1 + Z.of_nat (Z.to_nat (dm - 1))) with (e + dm) by lia.
    reflexivity.
  - rewrite !digits2_shiftl. fold dm.
    unfold fexp, emin, float_prec, float_emax. lia.
Qed.

Lemma units_finite (s : bool) (m : positive) (e : Z) :
  units (S754_finite s m e) = cond_Zopp s (Zpos m) * 2 ^ (e + 149).
Proof. unfold units. apply cond_Zopp_mul. Qed.

Lemma abs_cond_Zopp (s : bool) (z : Z) : Z.abs (cond_Zopp s z) = Z.abs z.
Proof. destruct s; simpl; [apply Z.abs_opp | reflexivity]. Qed.

Lemma float_mul_two24_units (d : float) :
  float_valid d -> is_finite d = true -> Z.abs (units d) < 2 ^ 253 ->
  float_valid (float_mul d two24)
  /\ is_finite (float_mul d two24) = true
  /\ units (float_mul d two24) = units d * 2 ^ 24.
Proof.
  intros Hv Hf Hlt. destruct d as [s|s| |s m e]; try discriminate Hf.
  - repeat split.
  - unfold float_valid in Hv. cbn [valid_binary] in Hv.
    rewrite (float_mul_two24 s m e Hv).
    pose proof (bounded_inv m e Hv) as (Hd & He & _).
    destruct (digits2_bounds m) as [Hlo _].
    set (dm := Zpos (digits2_pos m)) in *.
    assert (Hdm : 1 <= dm) by (subst dm; lia).
    unfold units in Hlt. rewrite abs_cond_Zopp in Hlt.
    assert (Hsum : e + dm <= 104).
    { destruct (Z_le_gt_dec (e + dm) 104) as [H|H]; [exact H|]. exfalso.
      assert (2 ^ 253 <= 2 ^ (dm - 1) * 2 ^ (e + 149)).
      { rewrite <- Z.pow_add_r by lia. apply Z.pow_le_mono_r; lia. }
      assert (0 < 2 ^ (e + 149)) by (apply Z.pow_pos_nonneg; lia).
      rewrite Z.abs_eq in Hlt by lia.
      assert (2 ^ (dm - 1) * 2 ^ (e + 149) <= Zpos m * 2 ^ (e + 149))
        by (apply Z.mul_le_mono_nonneg_r; lia).
      lia. }
    apply Z.leb_le in Hsum. rewrite Hsum. apply Z.leb_le in Hsum.
    split; [|split; [reflexivity|]].
    + unfold float_valid. cbn [valid_binary].
      unfold bounded, canonical_mantissa. rewrite digits2_shiftl. fold dm.
      unfold fexp, emin, float_prec, float_emax.
      apply andb_true_iff. split; [apply Z.eqb_eq | apply Z.leb_le]; lia.
    + rewrite !units_finite, Zpos_shiftl.
      rewrite Z2Nat.id by lia.
      replace (e + dm + 149) with ((e + 149) + (dm - 24) + 24) by ring.
      rewrite !cond_Zopp_mul.
      rewrite <- !Z.mul_assoc. f_equal.
      rewrite <- !Z.pow_add_r by lia. f_equal. ring.
Qed.

Lemma binary_round_integer (s : bool) (n : positive) :
  Zpos n < 2 ^ 24 ->
  is_finite (binary_round float_prec float_emax s n 0) = true
  /\ units (binary_round float_prec float_emax s n 0) = cond_Zopp s (Zpos n) * 2 ^ 149.
Proof.
  intro Hn. pose proof (@digits2_le n 24 ltac:(lia) Hn) as Hd.
  set (dn := Zpos (digits2_pos n)) in *.
  assert (Hdn : 1 <= dn) by (subst dn; lia).
  set (j := Z.to_nat (24 - dn)).
  assert (Halign : shl_align n 0 (fexp float_prec float_emax (dn + 0))
                   = (Pos.shiftl_nat n j, - Z.of_nat j)).
  { unfold shl_align, fexp, emin, float_prec, float_emax.
    replace (Z.max (dn + 0 - 24) (3 - 128 - 24) - 0) with (dn - 24) by lia.
    replace (Z.max (dn + 0 - 24) (3 - 128 - 24)) with (dn - 24) by lia.
    destruct (dn - 24) as [|p|p] eqn:Hp; try lia.
    - replace j with 0%nat by lia. reflexivity.
    - rewrite Pos2Nat.inj_iter. unfold Pos.shiftl_nat.
      replace j with (Pos.to_nat p) by lia.
      f_equal. lia. }
  unfold binary_round. fold dn. rewrite Halign.
  replace (Pos.shiftl_nat n j) with (Pos.shiftl_nat (Pos.shiftl_nat n j) 0) by reflexivity.
  rewrite binary_round_aux_exact.
  - cbn [Pos.shiftl_nat nat_rect Z.of_nat]. rewrite Z.add_0_r.
    replace (- Z.of_nat j <=? float_emax - float_prec) with true
      by (symmetry; apply Z.leb_le; unfold float_emax, float_prec; lia).
    split; [reflexivity|].
    rewrite units_finite, Zpos_shiftl, !cond_Zopp_mul, <- Z.mul_assoc.
    f_equal. rewrite <- Z.pow_add_r by lia. f_equal. lia.
  - cbn [Pos.shiftl_nat nat_rect Z.of_nat]. rewrite digits2_shiftl. fold dn.
    unfold fexp, emin, float_prec, float_emax. lia.
Qed.

Lemma binary_normalize_integer (N : Z) (szero : bool) :
  Z.abs N < 2 ^ 24 ->
  is_finite (binary_normalize float_prec float_emax N 0 szero) = true
  /\ units (binary_normalize float_prec float_emax N 0 szero) = N * 2 ^ 149.
Proof.
  intro HN. destruct N as [|n|n]; cbn [binary_normalize].
  - split; reflexivity.
  - apply (binary_round_integer false). simpl in HN. lia.
  - apply (binary_round_integer true). simpl in HN. lia.
Qed.

Lemma Floor_units (x : float) :
  float_valid x -> is_finite x = true ->
  is_finite (Floor x) = true
  /\ units (Floor x) = units x / 2 ^ 149 * 2 ^ 149.
Proof.
  intros Hv Hf. destruct x as [s|s| |s m e]; try discriminate Hf.
  - split; reflexivity.
  - unfold float_valid in Hv. cbn [valid_binary] in Hv.
    pose proof (bounded_inv m e Hv) as (Hd & He & _).
    destruct (digits2_bounds m) as [_ Hhi].
    assert (Hm : Zpos m < 2 ^ 24).
    { eapply Z.lt_le_trans; [exact Hhi|]. apply Z.pow_le_mono_r; lia. }
    cbn [Floor]. destruct (0 <=? e) eqn:Hsign.
    + apply Z.leb_le in Hsign. split; [reflexivity|].
      rewrite units_finite.
      rewrite Z.pow_add_r, Z.mul_assoc by lia.
      rewrite Z.div_mul; [reflexivity|]. apply Z.pow_nonzero; lia.
    + apply Z.leb_gt in Hsign.
      assert (Hpow : 0 < 2 ^ (- e)) by (apply Z.pow_pos_nonneg; lia).
      assert (HN : Z.abs (cond_Zopp s (Zpos m) / 2 ^ (- e)) < 2 ^ 24).
      { destruct s; cbn [cond_Zopp].
        - assert (- Zpos m <= Z.neg m / 2 ^ (- e) <= 0).
          { split.
            - apply Z.div_le_lower_bound; [lia|]. change (Z.neg m) with (- Zpos m). nia.
            - apply Z.div_le_upper_bound; [lia|]. change (Z.neg m) with (- Zpos m). lia. }
          lia.
        - assert (0 <= Zpos m / 2 ^ (- e) <= Zpos m).
          { split; [apply Z.div_pos; lia|].
            apply Z.div_le_upper_bound; [lia|]. nia. }
          lia. }
      destruct (binary_normalize_integer _ s HN) as [Hfin Hunits].
      split; [exact Hfin|]. rewrite Hunits. f_equal.
      rewrite units_finite.
      replace (2 ^ 149) with (2 ^ (- e) * 2 ^ (e + 149)).
      * rewrite Z.div_mul_cancel_r; [reflexivity | lia |]. apply Z.pow_nonzero; lia.
      * rewrite <- Z.pow_add_r by lia. f_equal. lia.
Qed.

(** The floor rounds down, also below zero: 0.1f * 2^24 = 1677721.625,
    -(2^-25) * 2^24 = -0.5, and the least subnormal times 2^24 is 2^-125. *)
Example floor_times_pow2_examples :
  floor_times_pow2 (S754_finite false 13421773 (-27)) 24 = 1677721
  /\ Floor (float_mul (S754_finite false 13421773 (-27)) two24) = float_of_Z 1677721
  /\ floor_times_pow2 (S754_finite true 8388608 (-48)) 24 = -1
  /\ Floor (float_mul (S754_finite true 8388608 (-48)) two24) = float_of_Z (-1)
  /\ floor_times_pow2 (S754_finite false 1 (-149)) 24 = 0
  /\ Floor (float_mul (S754_finite false 1 (-149)) two24) = float_zero.
Proof. repeat split. Qed.

(** [d != 0.0f] holds for everything but the two zeros, NaN included. *)
Lemma float_eqb_zero (d : float) : float_eqb d float_zero = is_zero d.
Proof. destruct d as [s|s| |s m e]; try destruct s; reflexivity. Qed.

Lemma Floor_mul_two24 (d : float) :
  float_valid d -> is_finite d = true -> Z.abs (units d) < 2 ^ 253 ->
  is_finite (Floor (float_mul d two24)) = true
  /\ units (Floor (float_mul d two24)) = units d / 2 ^ 125 * 2 ^ 149.
Proof.
  intros Hv Hf Hlt.
  destruct (float_mul_two24_units Hv Hf Hlt) as (Hv' & Hf' & Hu).
  destruct (Floor_units Hv' Hf') as [Hfin Hunits].
  split; [exact Hfin|]. rewrite Hunits, Hu. f_equal.
  change (2 ^ 149) with (2 ^ 125 * 2 ^ 24).
  apply Z.div_mul_cancel_r; discriminate.
Qed.

(* ===================================================================== *)
(** * Reasoning about computations *)
(* ===================================================================== *)

Section MonadFacts.
Context {S : Type}.

Lemma bind_Ok {A B} (c : M S A) (k : A -> M S B) (s s' : S) (a : A) :
  c s = Ok (a, s') -> bind c k s = k a s'.
Proof. intro H. unfold bind. now rewrite H. Qed.

Lemma bind_Fatal {A B} (c : M S A) (k : A -> M S B) (s s' : S) (d : string) :
  c s = Fatal d s' -> bind c k s = Fatal d s'.
Proof. intro H. unfold bind. now rewrite H. Qed.

Lemma bind_Ok_inv {A B} (c : M S A) (k : A -> M S B) (s : S) (r : B * S) :
  bind c k s = Ok r -> exists a s', c s = Ok (a, s') /\ k a s' = Ok r.
Proof.
  unfold bind. destruct (c s) as [[a s']|d s']; [|discriminate].
  intro H. now exists a, s'.
Qed.

Lemma bind_Fatal_inv {A B} (c : M S A) (k : A -> M S B) (s s' : S) (d : string) :
  bind c k s = Fatal d s' ->
  c s = Fatal d s' \/ exists a s1, c s = Ok (a, s1) /\ k a s1 = Fatal d s'.
Proof.
  unfold bind. destruct (c s) as [[a s1]|d1 s1]; intro H.
  - right. now exists a, s1.
  - left. now inversion H.
Qed.

Lemma SP_ASSERT_true (text : string) (s : S) : SP_ASSERT true text s = Ok (tt, s).
Proof. reflexivity. Qed.

Lemma SP_ASSERT_false (text : string) (s : S) : SP_ASSERT false text s = Fatal text s.
Proof. reflexivity. Qed.

Lemma SP_ASSERT_Ok_inv (b : bool) (text : string) (s : S) (r : unit * S) :
  SP_ASSERT b text s = Ok r -> b = true /\ r = (tt, s).
Proof. destruct b; simpl; [intro H; now inversion H | discriminate]. Qed.

Lemma get_Ok_inv (s : S) (r : S * S) : get s = Ok r -> r = (s, s).
Proof. intro H. now inversion H. Qed.

End MonadFacts.

(* ===================================================================== *)
(** * The command list: state machine and binding cache *)
(* ===================================================================== *)

Module CommandListSpec.
Import D3D12.

Definition Recording_text : string := "m_state == RHI_CommandListState::Recording"%string.
Definition Idle_text : string := "m_state == RHI_CommandListState::Idle"%string.
Definition resource_text : string := "m_rhi_resource != nullptr"%string.

(** Inverts a successful run, statement by statement. *)
Ltac invert_run H :=
  repeat match type of H with
  | bind _ _ _ = Ok _ =>
      let a := fresh "a" in let s := fresh "s" in
      let H1 := fresh "H" in let H2 := fresh "H" in
      apply bind_Ok_inv in H; destruct H as (a & s & H1 & H2);
      invert_run H1; invert_run H2
  | SP_ASSERT _ _ _ = Ok _ =>
      let Hb := fresh "Hb" in
      apply SP_ASSERT_Ok_inv in H; destruct H as [Hb H]; inversion H; subst; clear H
  | SP_ASSERT_MSG _ _ _ = Ok _ => unfold SP_ASSERT_MSG in H
  | get _ = Ok _ => apply get_Ok_inv in H; inversion H; subst; clear H
  | ret _ _ = Ok _ => inversion H; subst; clear H
  | modify _ _ = Ok _ => inversion H; subst; clear H
  | d3d12 _ _ = Ok _ => inversion H; subst; clear H
  end.

Lemma state_eqb_eq (a b : RHI_CommandListState) : state_eqb a b = true <-> a = b.
Proof. destruct a, b; simpl; split; intro H; try reflexivity; discriminate H. Qed.

Lemma state_eqb_refl (a : RHI_CommandListState) : state_eqb a a = true.
Proof. now destruct a. Qed.

Section Facts.
Context {ext : Externals}.

Lemma assert_Recording_ok (m : Machine) :
  m_state (cmd_list m) = Recording -> assert_Recording m = Ok (tt, m).
Proof.
  intro H. unfold assert_Recording, bind, get, in_state. rewrite H. reflexivity.
Qed.

Lemma assert_Recording_fatal (m : Machine) :
  m_state (cmd_list m) <> Recording -> assert_Recording m = Fatal Recording_text m.
Proof.
  intro H. unfold assert_Recording, bind, get, in_state.
  destruct (state_eqb (m_state (cmd_list m)) Recording) eqn:E; [|reflexivity].
  apply state_eqb_eq in E. contradiction.
Qed.

(** A successful [Begin] leaves the list recording, with a backend object. *)
Lemma Begin_Ok_inv (m m' : Machine) :
  Begin m = Ok (tt, m') ->
  m_state (cmd_list m') = Recording /\ is_null (m_rhi_resource (cmd_list m')) = false.
Proof.
  unfold Begin. intro H. invert_run H. simpl.
  split; [reflexivity | now apply negb_true_iff].
Qed.

(** [Begin] on a list that is recording stops at one of its two assertions. *)
Lemma Begin_Recording (m : Machine) :
  m_state (cmd_list m) = Recording ->
  Begin m =
  Fatal (if is_null (m_rhi_resource (cmd_list m)) then resource_text else Idle_text) m.
Proof.
  intro H. unfold Begin, bind, get, in_state. rewrite H. simpl.
  destruct (is_null (m_rhi_resource (cmd_list m))); simpl; [reflexivity|].
  unfold in_state. now rewrite H.
Qed.

Lemma End_Ok_inv (m m' : Machine) :
  End m = Ok (tt, m') ->
  m_state (cmd_list m') = Ended /\ is_null (m_rhi_resource (cmd_list m')) = false.
Proof.
  unfold End. intro H. invert_run H. simpl.
  split; [reflexivity | now apply negb_true_iff].
Qed.

(** [Begin] on a list that has ended: it is not [Submitted], so nothing is
    waited for, and the [Idle] assertion fails. *)
Lemma Begin_Ended (m : Machine) :
  m_state (cmd_list m) = Ended ->
  Begin m =
  Fatal (if is_null (m_rhi_resource (cmd_list m)) then resource_text else Idle_text) m.
Proof.
  intro H. unfold Begin, bind, get, in_state. rewrite H. simpl.
  destruct (is_null (m_rhi_resource (cmd_list m))); simpl; [reflexivity|].
  unfold in_state. now rewrite H.
Qed.

(** ** The placeholders that fail, and the operations that check the state *)

(** The stubs marked "not implemented" fail in every state. *)
Lemma not_implemented_stubs_fail (m : Machine) :
  BeginRenderPass m = Fatal not_implemented m
  /\ EndRenderPass m = Fatal not_implemented m
  /\ (forall pso, ClearPipelineStateRenderTargets pso m = Fatal not_implemented m)
  /\ (forall t c d st cd cs, ClearRenderTarget t c d st cd cs m = Fatal not_implemented m)
  /\ (forall a b mips, Blit_texture a b mips m = Fatal not_implemented m)
  /\ (forall a b mips, Copy_texture a b mips m = Fatal not_implemented m)
  /\ (forall slot b, SetConstantBuffer slot b m = Fatal not_implemented m)
  /\ (forall o sz d, PushConstants o sz d m = Fatal not_implemented m)
  /\ (forall slot b, SetStructuredBuffer slot b m = Fatal not_implemented m)
  /\ (forall slot sm, SetSampler slot sm m = Fatal not_implemented m)
  /\ (forall slot t i r uav, SetTexture slot t i r uav m = Fatal not_implemented m)
  /\ BeginTimestamp m = Fatal not_implemented m
  /\ EndTimestamp m = Fatal not_implemented m
  /\ (forall n mk tm, BeginTimeblock n mk tm m = Fatal not_implemented m)
  /\ EndTimeblock m = Fatal not_implemented m
  /\ (forall n, BeginMarker n m = Fatal not_implemented m)
  /\ EndMarker m = Fatal not_implemented m
  /\ OnDraw m = Fatal not_implemented m.
Proof. repeat split. Qed.

(** [SetPipelineState] fails in every state as well: on an invalid state
    object, outside [Recording], or else as a placeholder. *)
Lemma SetPipelineState_fails (pso : RHI_PipelineState) (m : Machine) :
  SetPipelineState pso m =
  Fatal (if negb (IsValid pso) then "Pipeline state is invalid"%string
         else if in_state Recording m then not_implemented else Recording_text) m.
Proof.
  unfold SetPipelineState, assert_Recording, bind, get.
  destruct (IsValid pso); simpl; [|reflexivity].
  destruct (in_state Recording m); reflexivity.
Qed.

(** The operations that start with the state assertion fail on it in every
    state other than [Recording]. *)
Lemma state_checked_operations (m : Machine) :
  m_state (cmd_list m) <> Recording ->
  (forall vc vs, Draw vc vs m = Fatal Recording_text m)
  /\ (forall ic io vo n, DrawIndexed ic io vo n m = Fatal Recording_text m)
  /\ (forall x y z async, Dispatch x y z async m = Fatal Recording_text m)
  /\ (forall v, SetViewport v m = Fatal Recording_text m)
  /\ (forall r, SetScissorRectangle r m = Fatal Recording_text m)
  /\ (forall b binding, SetBufferVertex b binding m = Fatal Recording_text m)
  /\ (forall b, SetBufferIndex b m = Fatal Recording_text m).
Proof.
  intro H. pose proof (assert_Recording_fatal m H) as HF.
  repeat split; intros;
    unfold Draw, DrawIndexed, Dispatch, SetViewport, SetScissorRectangle,
           SetBufferVertex, SetBufferIndex;
    now apply bind_Fatal.
Qed.

(** ** Buffer binding *)

Definition vertex_buffer_view (b : RHI_VertexBuffer) : D3D12_VERTEX_BUFFER_VIEW :=
  {| vbv_BufferLocation := 0;
     vbv_StrideInBytes := to_uint32 (vb_GetStride b);
     vbv_SizeInBytes := to_uint32 (vb_GetObjectSizeGpu b) |}.

Definition index_buffer_view (b : RHI_IndexBuffer) : D3D12_INDEX_BUFFER_VIEW :=
  {| ibv_BufferLocation := 0;
     ibv_SizeInBytes := to_uint32 (ib_GetObjectSizeGpu b);
     ibv_Format := if ib_Is16Bit b then DXGI_FORMAT_R16_UINT else DXGI_FORMAT_R32_UINT |}.

(** The machine after an actual bind of a vertex buffer: the view is set on
    the backend list, the identity is cached, the counter is incremented. *)
Definition vertex_buffer_bound (b : RHI_VertexBuffer) (m : Machine) : Machine :=
  {| cmd_list := {| m_state := m_state (cmd_list m);
                    m_rhi_resource := m_rhi_resource (cmd_list m);
                    m_rhi_cmd_pool_resource := m_rhi_cmd_pool_resource (cmd_list m);
                    m_vertex_buffer_id := vb_GetObjectId b;
                    m_index_buffer_id := m_index_buffer_id (cmd_list m) |};
     profiler := incr_m_rhi_bindings_buffer_vertex (profiler m);
     recorded := recorded m ++ [IASetVertexBuffers 0 1 (vertex_buffer_view b)] |}.

Definition index_buffer_bound (b : RHI_IndexBuffer) (m : Machine) : Machine :=
  {| cmd_list := {| m_state := m_state (cmd_list m);
                    m_rhi_resource := m_rhi_resource (cmd_list m);
                    m_rhi_cmd_pool_resource := m_rhi_cmd_pool_resource (cmd_list m);
                    m_vertex_buffer_id := m_vertex_buffer_id (cmd_list m);
                    m_index_buffer_id := ib_GetObjectId b |};
     profiler := incr_m_rhi_bindings_buffer_index (profiler m);
     recorded := recorded m ++ [IASetIndexBuffer (index_buffer_view b)] |}.

Lemma SetBufferVertex_Recording (b : RHI_VertexBuffer) (binding : Z) (m : Machine) :
  m_state (cmd_list m) = Recording ->
  SetBufferVertex b binding m =
  Ok (tt, if m_vertex_buffer_id (cmd_list m) =? vb_GetObjectId b then m
          else vertex_buffer_bound b m).
Proof.
  intro H. unfold SetBufferVertex.
  rewrite (bind_Ok _ _ _ (assert_Recording_ok m H)).
  unfold bind at 1, get.
  destruct (m_vertex_buffer_id (cmd_list m) =? vb_GetObjectId b); reflexivity.
Qed.

Lemma SetBufferIndex_Recording (b : RHI_IndexBuffer) (m : Machine) :
  m_state (cmd_list m) = Recording ->
  SetBufferIndex b m =
  Ok (tt, if m_index_buffer_id (cmd_list m) =? ib_GetObjectId b then m
          else index_buffer_bound b m).
Proof.
  intro H. unfold SetBufferIndex.
  rewrite (bind_Ok _ _ _ (assert_Recording_ok m H)).
  unfold bind at 1, get.
  destruct (m_index_buffer_id (cmd_list m) =? ib_GetObjectId b); reflexivity.
Qed.


(** The wait that [Begin] starts with: only a [Submitted] list waits. *)
Definition wait_if_Submitted : M Machine unit :=
  fun m => if in_state Submitted m then WaitForExecution m else Ok (tt, m).

(** After its wait, a successful [Begin] changes the state and the recorded
    calls and nothing else. *)
Lemma Begin_Ok_shape (m m' : Machine) :
  Begin m = Ok (tt, m') ->
  exists m1,
    wait_if_Submitted m = Ok (tt, m1)
    /\ m' = set_m_state Recording
              {| cmd_list := cmd_list m1; profiler := profiler m1;
                 recorded := recorded m1 ++ [Reset (m_rhi_cmd_pool_resource (cmd_list m1))] |}.
Proof.
  unfold Begin, bind at 1, get. unfold bind at 1. unfold wait_if_Submitted.
  destruct (in_state Submitted m).
  - destruct (WaitForExecution m) as [[[] m1]|d m1]; [|discriminate].
    intro H. exists m1. split; [reflexivity|].
    invert_run H. inversion H0; subst. reflexivity.
  - unfold ret at 1. intro H. exists m. split; [reflexivity|].
    invert_run H. inversion H0; subst. reflexivity.
Qed.

(** ** The state machine *)

(** C5.  [Begin()] on a command list that is already [Recording] (a second
    [Begin()] with no [End()]/[Submit()] in between) fails fatally on an
    assertion: the one on the backend object if that is null, else the one
    that requires the [Idle] state. *)
Theorem Begin_while_Recording_fails (m : Machine) :
  m_state (cmd_list m) = Recording ->
  Begin m =
  Fatal (if is_null (m_rhi_resource (cmd_list m)) then resource_text else Idle_text) m.
Proof. exact (Begin_Recording m). Qed.

(** Two calls in a row: the second one fails on the state assertion. *)
Lemma Begin_twice_in_a_row (m m' : Machine) :
  Begin m = Ok (tt, m') -> Begin m' = Fatal Idle_text m'.
Proof.
  intro H. apply Begin_Ok_inv in H. destruct H as [Hs Hnull].
  rewrite (Begin_Recording m' Hs). now rewrite Hnull.
Qed.

(** C2.  Not every unimplemented path of the D3D12 command list fails:
    [Submit], the three memory-barrier insertions and [GetTimestampDuration]
    have empty bodies (the last one returns [0.0f]); in every state they
    return normally, log nothing and leave the machine as it is. *)
Theorem silent_placeholders (m : Machine) :
  Submit m = Ok (tt, m)
  /\ (forall image aspect mip_index mip_range array_length layout_old layout_new,
        InsertMemoryBarrierImage_image image aspect mip_index mip_range array_length
          layout_old layout_new m = Ok (tt, m))
  /\ (forall texture mip_start mip_range array_length layout_old layout_new,
        InsertMemoryBarrierImage texture mip_start mip_range array_length
          layout_old layout_new m = Ok (tt, m))
  /\ (forall texture, InsertMemoryBarrierImageWaitForWrite texture m = Ok (tt, m))
  /\ (forall timestamp_index, GetTimestampDuration timestamp_index m = Ok (float_zero, m)).
Proof. repeat split. Qed.

(** C3.  [Submit()] on a list in the [Ended] state returns without changing
    anything: the state is [Ended] afterwards, not [Submitted], and a
    [Begin()] that follows fails on an assertion ([Idle] is required). *)
Theorem Submit_leaves_Ended (m : Machine) :
  m_state (cmd_list m) = Ended ->
  Submit m = Ok (tt, m)
  /\ m_state (cmd_list m) <> Submitted
  /\ Begin m = Fatal (if is_null (m_rhi_resource (cmd_list m)) then resource_text
                      else Idle_text) m.
Proof.
  intro Hs. split; [reflexivity|].
  split; [rewrite Hs; discriminate | exact (Begin_Ended m Hs)].
Qed.

(** C4.  [Blit] and [Copy] to a swap chain check the source's flag and the
    dimensions and never the state, and the barrier insertions check
    nothing: for a flagged source of the destination's size they return
    normally in every state of the list. *)
Theorem swapchain_transfers_and_barriers_ignore_state
  (m : Machine) (source : RHI_Texture) (destination : RHI_SwapChain) :
  Z.land (tex_GetFlags source) RHI_Texture_ClearBlit <> 0 ->
  tex_GetWidth source = sc_GetWidth destination ->
  tex_GetHeight source = sc_GetHeight destination ->
  Blit_swapchain source destination m = Ok (tt, m)
  /\ Copy_swapchain source destination m = Ok (tt, m)
  /\ (forall mip_start mip_range array_length layout_old layout_new,
        InsertMemoryBarrierImage source mip_start mip_range array_length
          layout_old layout_new m = Ok (tt, m))
  /\ InsertMemoryBarrierImageWaitForWrite source m = Ok (tt, m).
Proof.
  intros Hflag Hw Hh.
  unfold Blit_swapchain, Copy_swapchain, SP_ASSERT_MSG, bind.
  apply Z.eqb_neq in Hflag. rewrite Hflag, Hw, Hh.
  rewrite !Z.leb_refl, !Z.eqb_refl. simpl. repeat split.
Qed.

(** ** The binding cache *)

(** [Begin()] itself does not touch the cached identities: after its wait
    they are what they were. *)
Lemma Begin_keeps_cached_ids (m m' : Machine) :
  Begin m = Ok (tt, m') ->
  exists m1,
    wait_if_Submitted m = Ok (tt, m1)
    /\ m_vertex_buffer_id (cmd_list m') = m_vertex_buffer_id (cmd_list m1)
    /\ m_index_buffer_id (cmd_list m') = m_index_buffer_id (cmd_list m1).
Proof.
  intro H. apply Begin_Ok_shape in H. destruct H as (m1 & Hwait & Hm').
  exists m1. subst m'. repeat split. exact Hwait.
Qed.


(** ** Drawing *)


End Facts.

(** ** Concrete runs *)

(** A driver that accepts every call, a [WaitForExecution] that returns the
    list to [Idle] once the GPU is done with it (spec, section 4.3), and one
    flag bit for [RHI_Texture_ClearBlit]. *)
Definition sample_ext : Externals :=
  {| driver := fun _ _ => 0;
     WaitForExecution := modify (set_m_state Idle);
     RHI_Texture_ClearBlit := 64;
     static_cast_LONG := fun _ => 0;
     RHI_PipelineState := unit;
     IsValid := fun _ => true |}.

Definition no_counts : Profiler :=
  {| m_rhi_draw := 0; m_rhi_dispatch := 0;
     m_rhi_bindings_buffer_vertex := 0; m_rhi_bindings_buffer_index := 0 |}.

Definition list_in (s : RHI_CommandListState) (vertex_id index_id : Z) : RHI_CommandList :=
  {| m_state := s; m_rhi_resource := 4096; m_rhi_cmd_pool_resource := 8192;
     m_vertex_buffer_id := vertex_id; m_index_buffer_id := index_id |}.

(** An idle list that has recorded nothing, the same list after [Begin()],
    and after [End()]. *)
Definition fresh_list : Machine :=
  {| cmd_list := list_in Idle 0 0; profiler := no_counts; recorded := [] |}.

Definition recording_list : Machine :=
  {| cmd_list := list_in Recording 0 0; profiler := no_counts;
     recorded := [Reset 8192] |}.

Definition ended_list : Machine :=
  {| cmd_list := list_in Ended 0 0; profiler := no_counts;
     recorded := [Reset 8192; Close] |}.

Definition quad_vertices : RHI_VertexBuffer :=
  {| vb_GetObjectId := 7; vb_GetStride := 32; vb_GetObjectSizeGpu := 128 |}.

Definition quad_indices : RHI_IndexBuffer :=
  {| ib_GetObjectId := 9; ib_GetObjectSizeGpu := 12; ib_Is16Bit := true |}.

Definition frame : RHI_Texture :=
  {| tex_GetFlags := 64; tex_GetWidth := 1920; tex_GetHeight := 1080 |}.

Definition window : RHI_SwapChain :=
  {| sc_GetWidth := 1920; sc_GetHeight := 1080 |}.

Example fresh_list_runs :
  Begin (ext := sample_ext) fresh_list = Ok (tt, recording_list)
  /\ End (ext := sample_ext) recording_list = Ok (tt, ended_list).
Proof. split; reflexivity. Qed.

Lemma Begin_while_Recording_fails_witness :
  Begin (ext := sample_ext) recording_list = Fatal Idle_text recording_list.
Proof.
  exact (@Begin_while_Recording_fails sample_ext recording_list eq_refl).
Defined.

Lemma Submit_leaves_Ended_witness :
  Submit ended_list = Ok (tt, ended_list)
  /\ m_state (cmd_list ended_list) <> Submitted
  /\ Begin (ext := sample_ext) ended_list = Fatal Idle_text ended_list.
Proof.
  exact (@Submit_leaves_Ended sample_ext ended_list eq_refl).
Defined.

Lemma swapchain_transfers_in_Idle_witness :
  Blit_swapchain (ext := sample_ext) frame window fresh_list = Ok (tt, fresh_list)
  /\ Copy_swapchain (ext := sample_ext) frame window fresh_list = Ok (tt, fresh_list)
  /\ (forall mip_start mip_range array_length layout_old layout_new,
        InsertMemoryBarrierImage frame mip_start mip_range array_length
          layout_old layout_new fresh_list = Ok (tt, fresh_list))
  /\ InsertMemoryBarrierImageWaitForWrite frame fresh_list = Ok (tt, fresh_list).
Proof.
  apply (@swapchain_transfers_and_barriers_ignore_state sample_ext fresh_list frame window);
    [discriminate | reflexivity | reflexivity].
Defined.




End CommandListSpec.

(* ===================================================================== *)
(** * The pipeline object: layout, kind and depth bias *)
(* ===================================================================== *)

Module PipelineSpec.
Import Vulkan.

Definition layout_text : string := "layout != nullptr"%string.
Definition graphics_text : string := "Failed to create graphics pipeline"%string.

Ltac invert_ctor H :=
  repeat match type of H with
  | bind _ _ _ = Ok _ =>
      let a := fresh "a" in let s := fresh "s" in
      let H1 := fresh "H" in let H2 := fresh "H" in
      apply bind_Ok_inv in H; destruct H as (a & s & H1 & H2);
      invert_ctor H1; invert_ctor H2
  | SP_ASSERT _ _ _ = Ok _ =>
      let Hb := fresh "Hb" in
      apply SP_ASSERT_Ok_inv in H; destruct H as [Hb H]; inversion H; subst; clear H
  | SP_ASSERT_MSG _ _ _ = Ok _ => unfold SP_ASSERT_MSG in H
  | SP_VK_ASSERT_MSG _ _ _ = Ok _ => unfold SP_VK_ASSERT_MSG in H
  | ret _ _ = Ok _ => inversion H; subst; clear H
  | call _ _ = Ok _ => inversion H; subst; clear H
  end.

Section Facts.
Context {ext : Externals}.

(** A loop of assertions passes exactly when every element passes. *)
Lemma for_each_assert {A} (p : A -> bool) (text : string) (xs : list A) (t : Trace) :
  for_each xs (fun x => SP_ASSERT (p x) text) t =
  if forallb p xs then Ok (tt, t) else Fatal text t.
Proof.
  induction xs as [|x xs IH]; [reflexivity|].
  cbn [for_each forallb]. unfold bind at 1. destruct (p x); simpl; [exact IH | reflexivity].
Qed.

Lemma forallb_not_null (ps : list ptr) :
  forallb (fun p => negb (is_null p)) ps = true <-> Forall (fun p => p <> nullptr) ps.
Proof.
  rewrite forallb_forall, Forall_forall. unfold is_null.
  split; intros H p Hp; specialize (H p Hp).
  - apply negb_true_iff, Z.eqb_neq in H. exact H.
  - apply negb_true_iff, Z.eqb_neq. exact H.
Qed.

(** The shader-stage checks and the collection of push-constant ranges make
    no call. *)
Lemma shader_stage_trace (bit : Z) (shader : option RHI_Shader)
  (acc stages : list VkPipelineShaderStageCreateInfo) (t t' : Trace) :
  shader_stage bit shader acc t = Ok (stages, t') -> t' = t.
Proof.
  unfold shader_stage. destruct shader as [sh|]; intro H; invert_ctor H; reflexivity.
Qed.

Lemma shader_stages_trace (pipeline_state : RHI_PipelineState)
  (stages : list VkPipelineShaderStageCreateInfo) (t t' : Trace) :
  shader_stages pipeline_state t = Ok (stages, t') -> t' = t.
Proof.
  unfold shader_stages. intro H.
  apply bind_Ok_inv in H. destruct H as (s1 & t1 & H1 & H).
  apply bind_Ok_inv in H. destruct H as (s2 & t2 & H2 & H3).
  apply shader_stage_trace in H1, H2, H3. congruence.
Qed.

Lemma push_constant_ranges_trace (descriptors : list RHI_Descriptor)
  (acc ranges : list VkPushConstantRange) (t t' : Trace) :
  push_constant_ranges descriptors acc t = Ok (ranges, t') -> t' = t.
Proof.
  revert acc t. induction descriptors as [|d ds IH]; intros acc t H; cbn in H.
  - now inversion H.
  - destruct (type d).
    + apply bind_Ok_inv in H. destruct H as ([] & t1 & H1 & H2).
      invert_ctor H1. exact (IH _ _ H2).
    + exact (IH _ _ H).
Qed.

(** What a successful pipeline-layout block has done. *)
Lemma pipeline_layout_Ok (pipeline_state : RHI_PipelineState)
  (descriptor_set_layout : RHI_DescriptorSetLayout) (t t' : Trace) (handle : ptr) :
  pipeline_layout pipeline_state descriptor_set_layout t = Ok (handle, t') ->
  exists ranges,
    let info := pipeline_layout_info descriptor_set_layout ranges in
    t' = t ++ [vkCreatePipelineLayout_call info;
               SetResourceName handle PipelineLayout (name pipeline_state)]
    /\ Forall (fun p => p <> nullptr) (layouts descriptor_set_layout)
    /\ fst (vkCreatePipelineLayout info) = VK_SUCCESS
    /\ handle = snd (vkCreatePipelineLayout info).
Proof.
  unfold pipeline_layout. intro H.
  apply bind_Ok_inv in H. destruct H as ([] & t1 & Hloop & H).
  rewrite for_each_assert in Hloop.
  destruct (forallb _ _) eqn:Hall in Hloop; [|discriminate]. inversion Hloop; subst t1.
  apply bind_Ok_inv in H. destruct H as (ranges & t2 & Hranges & H).
  apply push_constant_ranges_trace in Hranges. subst t2.
  invert_ctor H. exists ranges. cbn zeta.
  rewrite <- app_assoc. repeat split.
  - now apply forallb_not_null.
  - now apply Z.eqb_eq.
Qed.

(** A null layout stops the constructor at its first loop. *)
Lemma pipeline_layout_null (pipeline_state : RHI_PipelineState)
  (descriptor_set_layout : RHI_DescriptorSetLayout) (t : Trace) :
  In nullptr (layouts descriptor_set_layout) ->
  pipeline_layout pipeline_state descriptor_set_layout t = Fatal layout_text t.
Proof.
  intro Hin. unfold pipeline_layout. apply bind_Fatal.
  rewrite for_each_assert.
  destruct (forallb _ _) eqn:Hall; [|reflexivity].
  rewrite forallb_forall in Hall. specialize (Hall nullptr Hin). discriminate Hall.
Qed.

(** What the block that creates the pipeline appends. *)
Lemma pipeline_Ok (pipeline_state : RHI_PipelineState) (layout : ptr)
  (stages : list VkPipelineShaderStageCreateInfo) (t t' : Trace) (handle : ptr) :
  pipeline pipeline_state layout stages t = Ok (handle, t') ->
  exists calls, t' = t ++ calls
    /\ (IsGraphics pipeline_state = true ->
        calls = [vkCreateGraphicsPipelines_call
                   (graphics_pipeline_info pipeline_state layout stages)]).
Proof.
  unfold pipeline. intro H.
  destruct (IsGraphics pipeline_state); [|destruct (IsCompute pipeline_state)].
  - invert_ctor H. eexists. split; [reflexivity | intros _; reflexivity].
  - invert_ctor H. eexists. rewrite <- app_assoc.
    split; [reflexivity | discriminate].
  - inversion H; subst. exists []. rewrite app_nil_r.
    split; [reflexivity | discriminate].
Qed.

(** ** The descriptor-set layouts of the pipeline layout *)

(** C8.  The pipeline layout of every constructed pipeline is created from
    exactly three descriptor-set layouts, in this order: the caller's at
    index 0, the comparison-sampler layout at index 1, the regular-sampler
    layout at index 2, none of them null; and a null one among the three
    stops the constructor on the assertion [layout != nullptr]. *)
Theorem pipeline_layout_set_layouts (pipeline_state : RHI_PipelineState)
  (descriptor_set_layout : RHI_DescriptorSetLayout) (t : Trace) :
  (In nullptr (layouts descriptor_set_layout) ->
   RHI_Pipeline_ctor pipeline_state descriptor_set_layout t = Fatal layout_text t)
  /\ (forall (this : RHI_Pipeline) (t' : Trace),
       RHI_Pipeline_ctor pipeline_state descriptor_set_layout t = Ok (this, t') ->
       exists info rest,
         t' = t ++ vkCreatePipelineLayout_call info :: rest
         /\ pSetLayouts info = [ dsl_GetRhiResource descriptor_set_layout;
                                 GetDescriptorSetLayout sampler_comparison;
                                 GetDescriptorSetLayout sampler_regular ]
         /\ setLayoutCount info = 3
         /\ Forall (fun layout => layout <> nullptr) (pSetLayouts info)
         /\ m_resource_pipeline_layout this = snd (vkCreatePipelineLayout info)).
Proof.
  split.
  - intro Hin. unfold RHI_Pipeline_ctor. apply bind_Fatal.
    now apply pipeline_layout_null.
  - intros this t' H. unfold RHI_Pipeline_ctor in H.
    apply bind_Ok_inv in H. destruct H as (layout & t1 & Hlayout & H).
    apply bind_Ok_inv in H. destruct H as (stages & t2 & Hstages & H).
    apply bind_Ok_inv in H. destruct H as (handle & t3 & Hpipeline & H).
    inversion H; subst this t'. clear H.
    apply pipeline_layout_Ok in Hlayout. destruct Hlayout as (ranges & Ht1 & Hnn & _ & Hh).
    apply shader_stages_trace in Hstages. subst t2.
    apply pipeline_Ok in Hpipeline. destruct Hpipeline as (calls & Ht3 & _).
    exists (pipeline_layout_info descriptor_set_layout ranges).
    exists (SetResourceName layout PipelineLayout (name pipeline_state) :: calls).
    subst t3 t1. rewrite <- app_assoc. repeat split; assumption.
Qed.

(** ** The kind of the pipeline *)

(** C1.  The constructor never compares [IsGraphics()] with [IsCompute()].
    Once the pipeline layout is created and the shader stages are checked,
    a state on which the two agree is handled like this: both false, no
    pipeline is created, the handle stays null and the constructor returns;
    both true, the graphics branch runs, and only a failure of
    [vkCreateGraphicsPipelines] is fatal. *)
Theorem construction_when_kinds_agree (pipeline_state : RHI_PipelineState)
  (descriptor_set_layout : RHI_DescriptorSetLayout) (t t1 t2 : Trace)
  (layout : ptr) (stages : list VkPipelineShaderStageCreateInfo) :
  pipeline_layout pipeline_state descriptor_set_layout t = Ok (layout, t1) ->
  shader_stages pipeline_state t1 = Ok (stages, t2) ->
  IsGraphics pipeline_state = IsCompute pipeline_state ->
  RHI_Pipeline_ctor pipeline_state descriptor_set_layout t =
  if IsGraphics pipeline_state then
    let pipeline_info := graphics_pipeline_info pipeline_state layout stages in
    if fst (vkCreateGraphicsPipelines pipeline_info) =? VK_SUCCESS then
      Ok ({| m_state := pipeline_state;
             m_resource_pipeline_layout := layout;
             m_resource_pipeline := snd (vkCreateGraphicsPipelines pipeline_info) |},
          t2 ++ [vkCreateGraphicsPipelines_call pipeline_info])
    else Fatal graphics_text (t2 ++ [vkCreateGraphicsPipelines_call pipeline_info])
  else
    Ok ({| m_state := pipeline_state;
           m_resource_pipeline_layout := layout;
           m_resource_pipeline := nullptr |}, t2).
Proof.
  intros Hlayout Hstages Hkind. unfold RHI_Pipeline_ctor.
  rewrite (bind_Ok _ _ _ Hlayout), (bind_Ok _ _ _ Hstages).
  unfold pipeline, bind at 1. rewrite <- Hkind.
  destruct (IsGraphics pipeline_state); [|reflexivity].
  cbn zeta. unfold bind, call, modify, SP_VK_ASSERT_MSG, SP_ASSERT_MSG, SP_ASSERT, ret.
  destruct (fst (vkCreateGraphicsPipelines _) =? VK_SUCCESS); reflexivity.
Qed.

(** ** Depth bias *)

(** The rasterizer block: the bias is enabled exactly when it is not a
    zero, and for a finite bias below 2^104 the constant factor is the
    integer floor(d * 2^24), held exactly. *)
Lemma rasterizer_depth_bias (pipeline_state : RHI_PipelineState) (rs : RHI_RasterizerState) :
  rasterizer_state pipeline_state = Some rs ->
  depthBiasEnable (rasterizer_state_info pipeline_state) = negb (is_zero (GetDepthBias rs))
  /\ (float_valid (GetDepthBias rs) ->
      is_finite (GetDepthBias rs) = true ->
      magnitude_below_pow2 (GetDepthBias rs) 104 ->
      holds_integer (depthBiasConstantFactor (rasterizer_state_info pipeline_state))
                    (floor_times_pow2 (GetDepthBias rs) 24)).
Proof.
  intro Hrs. unfold rasterizer_state_info. rewrite Hrs.
  cbn [depthBiasEnable depthBiasConstantFactor]. split.
  - now rewrite float_eqb_zero.
  - intros Hv Hf Hlt. exact (Floor_mul_two24 Hv Hf Hlt).
Qed.

(** C9.  A graphics pipeline constructed from a state whose rasterizer has
    the depth bias d is created with depth bias enabled if and only if d
    is not a zero, for every d (an infinity and a NaN enable it); and if d
    is finite with |d| < 2^104, with a depth-bias constant factor that is
    finite and equal to the integer floor(d * 2^24). *)
Theorem depth_bias_constant_factor (pipeline_state : RHI_PipelineState)
  (descriptor_set_layout : RHI_DescriptorSetLayout) (rs : RHI_RasterizerState)
  (t t' : Trace) (this : RHI_Pipeline) :
  RHI_Pipeline_ctor pipeline_state descriptor_set_layout t = Ok (this, t') ->
  IsGraphics pipeline_state = true ->
  rasterizer_state pipeline_state = Some rs ->
  exists info calls,
    t' = calls ++ [vkCreateGraphicsPipelines_call info]
    /\ depthBiasEnable (pRasterizationState info) = negb (is_zero (GetDepthBias rs))
    /\ (GetDepthBias rs = S754_nan -> depthBiasEnable (pRasterizationState info) = true)
    /\ (float_valid (GetDepthBias rs) ->
        is_finite (GetDepthBias rs) = true ->
        magnitude_below_pow2 (GetDepthBias rs) 104 ->
        holds_integer (depthBiasConstantFactor (pRasterizationState info))
                      (floor_times_pow2 (GetDepthBias rs) 24)).
Proof.
  intros H Hgraphics Hrs. unfold RHI_Pipeline_ctor in H.
  apply bind_Ok_inv in H. destruct H as (layout & t1 & _ & H).
  apply bind_Ok_inv in H. destruct H as (stages & t2 & _ & H).
  apply bind_Ok_inv in H. destruct H as (handle & t3 & Hpipeline & H).
  inversion H; subst this t'. clear H.
  apply pipeline_Ok in Hpipeline. destruct Hpipeline as (calls & Ht3 & Hcalls).
  specialize (Hcalls Hgraphics). subst calls t3.
  destruct (rasterizer_depth_bias pipeline_state Hrs) as [Henable Hfactor].
  exists (graphics_pipeline_info pipeline_state layout stages), t2.
  cbn [pRasterizationState graphics_pipeline_info].
  split; [reflexivity|]. split; [exact Henable|].
  split; [|exact Hfactor].
  intro Hnan. rewrite Henable, Hnan. reflexivity.
Qed.

End Facts.

(** ** Concrete runs *)

(** Modelled from the spec: [RHI_PipelineState::IsGraphics] and
    [IsCompute] (RHI_PipelineState is not among the sources).  Spec,
    section 3: "exactly one of {graphics shader set, compute shader} is
    populated"; a state is a graphics state when its vertex or pixel shader
    is populated and a compute state when its compute shader is. *)
Definition IsGraphics_spec (pipeline_state : RHI_PipelineState) : bool :=
  is_some (shader_vertex pipeline_state) || is_some (shader_pixel pipeline_state).

Definition IsCompute_spec (pipeline_state : RHI_PipelineState) : bool :=
  is_some (shader_compute pipeline_state).

(** The integer part of a non-negative float. *)
Definition integer_part (f : float) : Z :=
  match f with
  | S754_finite false m e => if 0 <=? e then Zpos m * 2 ^ e else Zpos m / 2 ^ (- e)
  | _ => 0
  end.

(** A device on which every creation succeeds. *)
Definition sample_ext : Externals :=
  {| IsGraphics := IsGraphics_spec;
     IsCompute := IsCompute_spec;
     GetWidth := fun _ => 1920;
     GetHeight := fun _ => 1080;
     GetDescriptorSetLayout :=
       fun r => match r with sampler_comparison => 256 | sampler_regular => 512 end;
     PropertyGetMaxPushConstantSize := 128;
     vkCreatePipelineLayout := fun _ => (VK_SUCCESS, 4096);
     vkCreateGraphicsPipelines := fun _ => (VK_SUCCESS, 8192);
     vkCreateComputePipelines := fun _ => (VK_SUCCESS, 12288);
     RHI_Shader_Vertex := 1;
     RHI_Shader_Pixel := 2;
     RHI_Shader_Compute := 4;
     rhi_format_to_index := fun f => f;
     vulkan_format := fun i => i;
     vulkan_primitive_topology := fun i => i;
     vulkan_polygon_mode := fun i => i;
     vulkan_cull_mode := fun i => i;
     vulkan_blend_factor := fun i => i;
     vulkan_blend_operation := fun i => i;
     vulkan_compare_operator := fun i => i;
     vulkan_stencil_operation := fun i => i;
     static_cast_uint32 := integer_part |}.

#[local] Existing Instance sample_ext.

Definition quad_layout : RHI_DescriptorSetLayout :=
  {| dsl_GetRhiResource := 1024;
     dsl_GetDescriptors :=
       [ {| type := OtherDescriptor 1; stage := 2; struct_size := 0 |};
         {| type := PushConstantBuffer; stage := 3; struct_size := 64 |} ] |}.

(** A state with no shader at all: neither graphics nor compute. *)
Definition no_shaders : RHI_PipelineState :=
  {| shader_vertex := None; shader_pixel := None; shader_compute := None;
     rasterizer_state := None; blend_state := None; depth_stencil_state := None;
     render_target_swapchain := None;
     render_target_color_textures := repeat None 8;
     render_target_depth_texture := None;
     primitive_topology := 0; dynamic_scissor := false;
     is_fullscreen_triangle := false; instancing := false;
     name := "empty"%string |}.

Definition shader (module : ptr) : RHI_Shader :=
  {| sh_GetRhiResource := module; sh_GetEntryPoint := Some "main"%string;
     sh_GetVertexSize := 32; sh_GetInputLayout := None |}.

Definition rasterizer (depth_bias : float) : RHI_RasterizerState :=
  {| GetDepthClipEnabled := true; GetPolygonMode := 0; GetLineWidth := float_of_Z 1;
     GetCullMode := 0; GetDepthBias := depth_bias;
     GetDepthBiasClamp := float_zero; GetDepthBiasSlopeScaled := float_zero |}.

(** A graphics state drawing to the swap chain with the given depth bias. *)
Definition quad_state (depth_bias : float) : RHI_PipelineState :=
  {| shader_vertex := Some (shader 16); shader_pixel := Some (shader 32);
     shader_compute := None;
     rasterizer_state := Some (rasterizer depth_bias);
     blend_state := None; depth_stencil_state := None;
     render_target_swapchain := Some {| sc_GetFormat := 44 |};
     render_target_color_textures := repeat None 8;
     render_target_depth_texture := None;
     primitive_topology := 0; dynamic_scissor := true;
     is_fullscreen_triangle := false; instancing := false;
     name := "quad"%string |}.

(** 0.1f, and 2^104. *)
Definition a_tenth : float := S754_finite false 13421773 (-27).
Definition two_pow_104 : float := S754_finite false 8388608 81.

Definition quad_result : Result Trace RHI_Pipeline :=
  Eval vm_compute in
    RHI_Pipeline_ctor (ext := sample_ext) (quad_state a_tenth) quad_layout [].

Definition quad_pipeline : RHI_Pipeline :=
  {| m_state := quad_state a_tenth;
     m_resource_pipeline_layout := 4096;
     m_resource_pipeline := 8192 |}.

Definition quad_trace : Trace :=
  match quad_result with Ok (_, t) => t | Fatal _ _ => [] end.

Example quad_constructed :
  RHI_Pipeline_ctor (ext := sample_ext) (quad_state a_tenth) quad_layout []
  = Ok (quad_pipeline, quad_trace).
Proof. reflexivity. Qed.

Lemma pipeline_layout_set_layouts_witness :
  exists info rest,
    quad_trace = [] ++ vkCreatePipelineLayout_call info :: rest
    /\ pSetLayouts info = [1024; 256; 512]
    /\ setLayoutCount info = 3
    /\ Forall (fun layout => layout <> nullptr) (pSetLayouts info)
    /\ m_resource_pipeline_layout quad_pipeline
       = snd (vkCreatePipelineLayout (Externals := sample_ext) info).
Proof.
  exact (proj2 (@pipeline_layout_set_layouts sample_ext (quad_state a_tenth) quad_layout [])
               quad_pipeline quad_trace eq_refl).
Defined.

(** The calls that create and name the pipeline layout of [no_shaders]. *)
Definition layout_only : Trace :=
  [ vkCreatePipelineLayout_call
      (pipeline_layout_info quad_layout
         [ {| pcr_stageFlags := 17; pcr_offset := 0; pcr_size := 64 |} ]);
    SetResourceName 4096 PipelineLayout "empty"%string ].

(** A state on which [IsGraphics()] and [IsCompute()] are both false is
    constructed without any failure; no pipeline is created. *)
Lemma construction_of_no_shaders_succeeds :
  IsGraphics no_shaders = false
  /\ IsCompute no_shaders = false
  /\ RHI_Pipeline_ctor no_shaders quad_layout []
     = Ok ({| m_state := no_shaders;
              m_resource_pipeline_layout := 4096;
              m_resource_pipeline := nullptr |}, layout_only).
Proof. repeat split. Qed.

Lemma construction_when_kinds_agree_witness :
  RHI_Pipeline_ctor no_shaders quad_layout []
  = Ok ({| m_state := no_shaders;
           m_resource_pipeline_layout := 4096;
           m_resource_pipeline := nullptr |}, layout_only).
Proof.
  exact (@construction_when_kinds_agree sample_ext no_shaders quad_layout
           [] layout_only layout_only 4096 [] eq_refl eq_refl eq_refl).
Defined.

(** 0.1f * 2^24 = 1677721.625: the factor is 1677721, and the bias is
    enabled. *)
Lemma depth_bias_constant_factor_witness :
  exists info calls,
    quad_trace = calls ++ [vkCreateGraphicsPipelines_call info]
    /\ depthBiasEnable (pRasterizationState info) = true
    /\ holds_integer (depthBiasConstantFactor (pRasterizationState info)) 1677721.
Proof.
  destruct (@depth_bias_constant_factor sample_ext (quad_state a_tenth) quad_layout
              (rasterizer a_tenth) [] quad_trace quad_pipeline eq_refl eq_refl eq_refl)
    as (info & calls & Htrace & Henable & _ & Hfactor).
  exists info, calls. split; [exact Htrace|]. split; [exact Henable|].
  exact (Hfactor eq_refl eq_refl eq_refl).
Defined.

(** The bias 2^104 is a finite single-precision number and
    floor(d * 2^24) is the integer 2^128, but the factor of the created
    pipeline is +infinity: it holds no integer. *)
Lemma depth_bias_overflows :
  float_valid two_pow_104
  /\ is_finite two_pow_104 = true
  /\ floor_times_pow2 two_pow_104 24 = 2 ^ 128
  /\ exists this info calls,
       RHI_Pipeline_ctor (quad_state two_pow_104) quad_layout []
       = Ok (this, calls ++ [vkCreateGraphicsPipelines_call info])
       /\ depthBiasConstantFactor (pRasterizationState info) = S754_infinity false
       /\ ~ holds_integer (depthBiasConstantFactor (pRasterizationState info))
                         (floor_times_pow2 two_pow_104 24).
Proof.
  split; [reflexivity|]. split; [reflexivity|]. split; [reflexivity|].
  eexists. eexists. exists (firstn 2 quad_trace).
  split; [vm_compute; reflexivity|]. split; [reflexivity|].
  intros [Hfinite _]. discriminate Hfinite.
Qed.

End PipelineSpec.

(* ===================================================================== *)
(** * The command list under arbitrary call sequences *)
(* ===================================================================== *)

Module CommandListMore.
Import D3D12 CommandListSpec.

Section Sequences.
Context {ext : Externals}.

(** A caller's use of one command list: the member functions it calls, with
    their arguments, in order. *)
Inductive Command : Type :=
| call_Begin
| call_End
| call_Submit
| call_SetPipelineState (pso : RHI_PipelineState)
| call_BeginRenderPass
| call_EndRenderPass
| call_ClearPipelineStateRenderTargets (pipeline_state : RHI_PipelineState)
| call_ClearRenderTarget (texture : RHI_Texture) (color_index depth_stencil_index : Z)
    (storage : bool) (clear_depth : float) (clear_stencil : Z)
| call_Draw (vertex_count vertex_start_index : Z)
| call_DrawIndexed (index_count index_offset vertex_offset instance_count : Z)
| call_Dispatch (x y z : Z) (async : bool)
| call_Blit_texture (source destination : RHI_Texture) (blit_mips : bool)
| call_Blit_swapchain (source : RHI_Texture) (destination : RHI_SwapChain)
| call_Copy_texture (source destination : RHI_Texture) (blit_mips : bool)
| call_Copy_swapchain (source : RHI_Texture) (destination : RHI_SwapChain)
| call_SetViewport (viewport : RHI_Viewport)
| call_SetScissorRectangle (scissor_rectangle : Rectangle)
| call_SetBufferVertex (buffer : RHI_VertexBuffer) (binding : Z)
| call_SetBufferIndex (buffer : RHI_IndexBuffer)
| call_SetConstantBuffer (slot : Z) (constant_buffer : ptr)
| call_PushConstants (offset size : Z) (data : ptr)
| call_SetStructuredBuffer (slot : Z) (structured_buffer : ptr)
| call_SetSampler (slot : Z) (sampler : ptr)
| call_SetTexture (slot : Z) (texture : RHI_Texture) (mip_index mip_range : Z) (uav : bool)
| call_BeginTimestamp
| call_EndTimestamp
| call_GetTimestampDuration (timestamp_index : Z)
| call_BeginTimeblock (name : string) (gpu_marker gpu_timing : bool)
| call_EndTimeblock
| call_BeginMarker (name : string)
| call_EndMarker
| call_InsertMemoryBarrierImage_image (image : ptr)
    (aspect_mask mip_index mip_range array_length layout_old layout_new : Z)
| call_InsertMemoryBarrierImage (texture : RHI_Texture)
    (mip_start mip_range array_length layout_old layout_new : Z)
| call_InsertMemoryBarrierImageWaitForWrite (texture : RHI_Texture).

(** The call is made and its return value, if any, dropped. *)
Definition exec (c : Command) : M Machine unit :=
  match c with
  | call_Begin => Begin
  | call_End => End
  | call_Submit => Submit
  | call_SetPipelineState pso => SetPipelineState pso
  | call_BeginRenderPass => BeginRenderPass
  | call_EndRenderPass => EndRenderPass
  | call_ClearPipelineStateRenderTargets ps => ClearPipelineStateRenderTargets ps
  | call_ClearRenderTarget t c d st cd cs => ClearRenderTarget t c d st cd cs
  | call_Draw vc vs => Draw vc vs
  | call_DrawIndexed ic io vo n => DrawIndexed ic io vo n
  | call_Dispatch x y z async => Dispatch x y z async
  | call_Blit_texture s d mips => Blit_texture s d mips
  | call_Blit_swapchain s d => Blit_swapchain s d
  | call_Copy_texture s d mips => Copy_texture s d mips
  | call_Copy_swapchain s d => Copy_swapchain s d
  | call_SetViewport v => SetViewport v
  | call_SetScissorRectangle r => SetScissorRectangle r
  | call_SetBufferVertex b binding => SetBufferVertex b binding
  | call_SetBufferIndex b => SetBufferIndex b
  | call_SetConstantBuffer slot b => SetConstantBuffer slot b
  | call_PushConstants o sz d => PushConstants o sz d
  | call_SetStructuredBuffer slot b => SetStructuredBuffer slot b
  | call_SetSampler slot sm => SetSampler slot sm
  | call_SetTexture slot t i r uav => SetTexture slot t i r uav
  | call_BeginTimestamp => _ <- BeginTimestamp ;; ret tt
  | call_EndTimestamp => EndTimestamp
  | call_GetTimestampDuration i => _ <- GetTimestampDuration i ;; ret tt
  | call_BeginTimeblock n mk tm => BeginTimeblock n mk tm
  | call_EndTimeblock => EndTimeblock
  | call_BeginMarker n => BeginMarker n
  | call_EndMarker => EndMarker
  | call_InsertMemoryBarrierImage_image i a mi mr al lo ln =>
      InsertMemoryBarrierImage_image i a mi mr al lo ln
  | call_InsertMemoryBarrierImage t ms mr al lo ln =>
      InsertMemoryBarrierImage t ms mr al lo ln
  | call_InsertMemoryBarrierImageWaitForWrite t => InsertMemoryBarrierImageWaitForWrite t
  end.

Definition exec_all (cs : list Command) : M Machine unit := for_each cs exec.

(** The machine with one more call recorded. *)
Definition with_call (c : D3D12_Call) (m : Machine) : Machine :=
  {| cmd_list := cmd_list m; profiler := profiler m; recorded := recorded m ++ [c] |}.

Definition viewport_of (v : RHI_Viewport) : D3D12_VIEWPORT :=
  {| TopLeftX := D3D12.x v; TopLeftY := D3D12.y v;
     Width := width v; Height := height v;
     MinDepth := depth_min v; MaxDepth := depth_max v |}.

Definition rect_of (r : Rectangle) : D3D12_RECT :=
  {| rect_left := static_cast_LONG (left r);
     rect_top := static_cast_LONG (top r);
     rect_right := static_cast_LONG (right r);
     rect_bottom := static_cast_LONG (bottom r) |}.

(** Everything a call that returns can have done to a list that is not
    [Submitted]. *)
Inductive step_shape (c : Command) (m m' : Machine) : Prop :=
| step_nothing :
    m' = m ->
    (forall b binding, c = call_SetBufferVertex b binding ->
                       m_vertex_buffer_id (cmd_list m) = vb_GetObjectId b) ->
    (forall b, c = call_SetBufferIndex b ->
               m_index_buffer_id (cmd_list m) = ib_GetObjectId b) ->
    step_shape c m m'
| step_Begin :
    c = call_Begin ->
    m_state (cmd_list m) = Idle ->
    m' = set_m_state Recording
           (with_call (Reset (m_rhi_cmd_pool_resource (cmd_list m))) m) ->
    step_shape c m m'
| step_End :
    c = call_End ->
    m_state (cmd_list m) = Recording ->
    m' = set_m_state Ended (with_call Close m) ->
    step_shape c m m'
| step_SetViewport (v : RHI_Viewport) :
    c = call_SetViewport v ->
    m_state (cmd_list m) = Recording ->
    m' = with_call (RSSetViewports 1 (viewport_of v)) m ->
    step_shape c m m'
| step_SetScissorRectangle (r : Rectangle) :
    c = call_SetScissorRectangle r ->
    m_state (cmd_list m) = Recording ->
    m' = with_call (RSSetScissorRects 1 (rect_of r)) m ->
    step_shape c m m'
| step_SetBufferVertex (b : RHI_VertexBuffer) (binding : Z) :
    c = call_SetBufferVertex b binding ->
    m_state (cmd_list m) = Recording ->
    m_vertex_buffer_id (cmd_list m) <> vb_GetObjectId b ->
    m' = vertex_buffer_bound b m ->
    step_shape c m m'
| step_SetBufferIndex (b : RHI_IndexBuffer) :
    c = call_SetBufferIndex b ->
    m_state (cmd_list m) = Recording ->
    m_index_buffer_id (cmd_list m) <> ib_GetObjectId b ->
    m' = index_buffer_bound b m ->
    step_shape c m m'.

Lemma not_Submitted (m : Machine) :
  m_state (cmd_list m) <> Submitted -> in_state Submitted m = false.
Proof.
  intro H. unfold in_state. destruct (m_state (cmd_list m)); try reflexivity.
  now contradiction H.
Qed.

Lemma Begin_Ok_from (m m' : Machine) :
  m_state (cmd_list m) <> Submitted ->
  Begin m = Ok (tt, m') ->
  m_state (cmd_list m) = Idle
  /\ m' = set_m_state Recording
            (with_call (Reset (m_rhi_cmd_pool_resource (cmd_list m))) m).
Proof.
  intros Hns. unfold Begin, bind at 1, get. unfold bind at 1.
  rewrite (not_Submitted m Hns). unfold ret at 1.
  intro H. invert_run H. inversion H0; subst.
  split; [now apply state_eqb_eq | reflexivity].
Qed.

Lemma End_Ok_from (m m' : Machine) :
  End m = Ok (tt, m') ->
  m_state (cmd_list m) = Recording /\ m' = set_m_state Ended (with_call Close m).
Proof.
  unfold End. intro H. invert_run H.
  split; [now apply state_eqb_eq | reflexivity].
Qed.

Lemma assert_Recording_Ok_inv (m : Machine) (r : unit * Machine) :
  assert_Recording m = Ok r -> m_state (cmd_list m) = Recording /\ r = (tt, m).
Proof.
  destruct r as [[] m2]. unfold assert_Recording. intro H. invert_run H.
  split; [now apply state_eqb_eq | reflexivity].
Qed.

(** Peels the state assertion off an operation that returned. *)
Ltac peel H :=
  let u := fresh "u" in let m1 := fresh "m" in
  let Ha := fresh "Ha" in let Hs := fresh "Hs" in let E := fresh "E" in
  apply bind_Ok_inv in H; destruct H as (u & m1 & Ha & H);
  apply assert_Recording_Ok_inv in Ha; destruct Ha as [Hs E];
  inversion E; subst; clear E.

Lemma exec_shape (c : Command) (m m' : Machine) :
  m_state (cmd_list m) <> Submitted ->
  exec c m = Ok (tt, m') ->
  step_shape c m m'.
Proof.
  intros Hns H.
  assert (Hnothing : forall c0 : Command,
            (forall b binding, c0 <> call_SetBufferVertex b binding) ->
            (forall b, c0 <> call_SetBufferIndex b) ->
            step_shape c0 m m).
  { intros c0 Hv Hi. apply step_nothing; [reflexivity | |].
    - intros b binding E. now contradiction (Hv b binding).
    - intros b E. now contradiction (Hi b). }
  destruct c; cbn [exec] in H;
    try discriminate H;
    try (inversion H; subst; apply Hnothing; discriminate).
  - (* Begin *)
    destruct (@Begin_Ok_from m m' Hns H) as [Hs ->]. now apply step_Begin.
  - (* End *)
    destruct (@End_Ok_from m m' H) as [Hs ->]. now apply step_End.
  - (* SetPipelineState *)
    rewrite SetPipelineState_fails in H. discriminate H.
  - (* Draw *)
    unfold Draw in H. peel H. discriminate H.
  - (* DrawIndexed *)
    unfold DrawIndexed in H. peel H. discriminate H.
  - (* Dispatch *)
    unfold Dispatch in H. peel H. discriminate H.
  - (* Blit to a swap chain *)
    unfold Blit_swapchain in H. invert_run H. apply Hnothing; discriminate.
  - (* Copy to a swap chain *)
    unfold Copy_swapchain in H. invert_run H. apply Hnothing; discriminate.
  - (* SetViewport *)
    unfold SetViewport in H. peel H. invert_run H.
    apply (@step_SetViewport _ m _ viewport); [reflexivity | assumption | reflexivity].
  - (* SetScissorRectangle *)
    unfold SetScissorRectangle in H. peel H. invert_run H.
    apply (@step_SetScissorRectangle _ m _ scissor_rectangle);
      [reflexivity | assumption | reflexivity].
  - (* SetBufferVertex *)
    assert (Hs : m_state (cmd_list m) = Recording).
    { unfold SetBufferVertex in H. peel H. assumption. }
    rewrite (SetBufferVertex_Recording buffer binding m Hs) in H.
    destruct (m_vertex_buffer_id (cmd_list m) =? vb_GetObjectId buffer) eqn:Hid;
      inversion H; subst.
    + apply Z.eqb_eq in Hid. apply step_nothing; [reflexivity | | discriminate].
      intros b binding' E. inversion E; subst. exact Hid.
    + apply Z.eqb_neq in Hid.
      apply (@step_SetBufferVertex _ m _ buffer binding);
        [reflexivity | assumption | assumption | reflexivity].
  - (* SetBufferIndex *)
    assert (Hs : m_state (cmd_list m) = Recording).
    { unfold SetBufferIndex in H. peel H. assumption. }
    rewrite (SetBufferIndex_Recording buffer m Hs) in H.
    destruct (m_index_buffer_id (cmd_list m) =? ib_GetObjectId buffer) eqn:Hid;
      inversion H; subst.
    + apply Z.eqb_eq in Hid. apply step_nothing; [reflexivity | discriminate |].
      intros b E. inversion E; subst. exact Hid.
    + apply Z.eqb_neq in Hid.
      apply (@step_SetBufferIndex _ m _ buffer);
        [reflexivity | assumption | assumption | reflexivity].
Qed.

(** ** What a run of calls leaves behind *)

Definition is_draw_call (c : D3D12_Call) : bool :=
  match c with
  | DrawInstanced _ _ _ _ | DrawIndexedInstanced _ _ _ _ _ | Dispatch_call _ _ _ => true
  | _ => false
  end.

Definition is_Reset (c : D3D12_Call) : bool :=
  match c with Reset _ => true | _ => false end.

Definition is_Close (c : D3D12_Call) : bool :=
  match c with Close => true | _ => false end.

Definition is_vertex_bind (c : D3D12_Call) : bool :=
  match c with IASetVertexBuffers _ _ _ => true | _ => false end.

Definition is_index_bind (c : D3D12_Call) : bool :=
  match c with IASetIndexBuffer _ => true | _ => false end.

Definition count (p : D3D12_Call -> bool) (calls : list D3D12_Call) : nat :=
  List.length (filter p calls).

(** The backend calls recorded between two machines of one run. *)
Definition new_calls (m m' : Machine) : list D3D12_Call :=
  skipn (List.length (recorded m)) (recorded m').

(** 1 once the list has left [Idle]; 1 once it has been closed. *)
Definition begun (s : RHI_CommandListState) : nat :=
  match s with Idle => 0%nat | _ => 1%nat end.

Definition closed (s : RHI_CommandListState) : nat :=
  match s with Idle | Recording => 0%nat | _ => 1%nat end.

Record run_facts (added : list D3D12_Call) (m m' : Machine) : Prop := {
  rf_recorded : recorded m' = recorded m ++ added;
  rf_state : m_state (cmd_list m') <> Submitted;
  rf_resource : m_rhi_resource (cmd_list m') = m_rhi_resource (cmd_list m);
  rf_pool : m_rhi_cmd_pool_resource (cmd_list m') = m_rhi_cmd_pool_resource (cmd_list m);
  rf_no_draw : Forall (fun c => is_draw_call c = false) added;
  rf_draw : m_rhi_draw (profiler m') = m_rhi_draw (profiler m);
  rf_dispatch : m_rhi_dispatch (profiler m') = m_rhi_dispatch (profiler m);
  rf_Reset : (count is_Reset added + begun (m_state (cmd_list m))
              = begun (m_state (cmd_list m')))%nat;
  rf_Close : (count is_Close added + closed (m_state (cmd_list m))
              = closed (m_state (cmd_list m')))%nat;
  rf_vertex : m_rhi_bindings_buffer_vertex (profiler m')
              = Nat.iter (count is_vertex_bind added) incr
                  (m_rhi_bindings_buffer_vertex (profiler m));
  rf_index : m_rhi_bindings_buffer_index (profiler m')
             = Nat.iter (count is_index_bind added) incr
                 (m_rhi_bindings_buffer_index (profiler m));
  rf_allocator : Forall (fun c => forall allocator, c = Reset allocator ->
                           allocator = m_rhi_cmd_pool_resource (cmd_list m)) added
}.

Lemma run_facts_refl (m : Machine) :
  m_state (cmd_list m) <> Submitted -> run_facts [] m m.
Proof.
  intro H. constructor; try reflexivity; try assumption.
  - now rewrite app_nil_r.
  - constructor.
  - constructor.
Qed.

Lemma count_app (p : D3D12_Call -> bool) (a b : list D3D12_Call) :
  count p (a ++ b) = (count p a + count p b)%nat.
Proof. unfold count. now rewrite filter_app, length_app. Qed.

Lemma run_facts_trans (a b : list D3D12_Call) (m m1 m2 : Machine) :
  run_facts a m m1 -> run_facts b m1 m2 -> run_facts (a ++ b) m m2.
Proof.
  intros [Ha1 Ha2 Ha3 Ha4 Ha5 Ha6 Ha7 Ha8 Ha9 Ha10 Ha11 Ha12]
         [Hb1 Hb2 Hb3 Hb4 Hb5 Hb6 Hb7 Hb8 Hb9 Hb10 Hb11 Hb12].
  constructor; try congruence.
  - now rewrite Hb1, Ha1, app_assoc.
  - apply Forall_app. now split.
  - rewrite count_app. lia.
  - rewrite count_app. lia.
  - rewrite count_app, Hb10, Ha10, Nat.add_comm. apply eq_sym, Nat.iter_add.
  - rewrite count_app, Hb11, Ha11, Nat.add_comm. apply eq_sym, Nat.iter_add.
  - apply Forall_app. split; [exact Ha12|]. now rewrite <- Ha4.
Qed.

Lemma step_facts (c : Command) (m m' : Machine) :
  m_state (cmd_list m) <> Submitted ->
  step_shape c m m' -> exists added, run_facts added m m'.
Proof.
  intros Hns [-> _ _ | _ Hs -> | _ Hs -> | v _ Hs -> | r _ Hs -> | b binding _ Hs _ ->
              | b _ Hs _ ->].
  - exists []. now apply run_facts_refl.
  - eexists [_]. constructor; cbn; try reflexivity; try discriminate.
    + repeat constructor.
    + now rewrite Hs.
    + now rewrite Hs.
    + repeat constructor. intros allocator E. now inversion E.
  - eexists [_]. constructor; cbn; try reflexivity; try discriminate.
    + repeat constructor.
    + now rewrite Hs.
    + now rewrite Hs.
    + repeat constructor. discriminate.
  - eexists [_]. constructor; cbn; try reflexivity; try assumption.
    + repeat constructor.
    + repeat constructor. discriminate.
  - eexists [_]. constructor; cbn; try reflexivity; try assumption.
    + repeat constructor.
    + repeat constructor. discriminate.
  - eexists [_]. constructor; cbn; try reflexivity; try assumption.
    + repeat constructor.
    + repeat constructor. discriminate.
  - eexists [_]. constructor; cbn; try reflexivity; try assumption.
    + repeat constructor.
    + repeat constructor. discriminate.
Qed.

Lemma exec_all_facts (cs : list Command) (m m' : Machine) :
  m_state (cmd_list m) <> Submitted ->
  exec_all cs m = Ok (tt, m') ->
  exists added, run_facts added m m'.
Proof.
  revert m. induction cs as [|c cs IH]; intros m Hns H.
  - inversion H; subst. exists []. now apply run_facts_refl.
  - cbn [exec_all for_each] in H. apply bind_Ok_inv in H.
    destruct H as ([] & m1 & Hc & Hrest).
    destruct (@step_facts c m m1 Hns (@exec_shape c m m1 Hns Hc)) as (a & Ha).
    destruct (IH m1 (rf_state Ha) Hrest) as (b & Hb).
    exists (a ++ b). exact (run_facts_trans Ha Hb).
Qed.

Lemma new_calls_added (added : list D3D12_Call) (m m' : Machine) :
  recorded m' = recorded m ++ added -> new_calls m m' = added.
Proof.
  intro H. unfold new_calls. rewrite H, skipn_app, skipn_all, Nat.sub_diag. reflexivity.
Qed.

Lemma exec_all_new_calls (cs : list Command) (m m' : Machine) :
  m_state (cmd_list m) <> Submitted ->
  exec_all cs m = Ok (tt, m') ->
  run_facts (new_calls m m') m m'.
Proof.
  intros Hns H. destruct (@exec_all_facts cs m m' Hns H) as (added & Hf).
  now rewrite (@new_calls_added added m m' (rf_recorded Hf)).
Qed.

(** ** The state machine over whole runs *)

(** X1.  No sequence of calls on a command list ever brings it to the
    [Submitted] state: a list that is not [Submitted] is not [Submitted]
    after any run of member functions that returns. *)
Theorem a_list_never_becomes_Submitted (cs : list Command) (m m' : Machine) :
  m_state (cmd_list m) <> Submitted ->
  exec_all cs m = Ok (tt, m') ->
  m_state (cmd_list m') <> Submitted.
Proof.
  intros Hns H. exact (rf_state (@exec_all_new_calls cs m m' Hns H)).
Qed.

Lemma step_from_Ended (c : Command) (m m' : Machine) :
  m_state (cmd_list m) = Ended -> step_shape c m m' -> m' = m.
Proof.
  intros He [-> _ _ | _ Hs _ | _ Hs _ | v _ Hs _ | r _ Hs _ | b binding _ Hs _ _
             | b _ Hs _ _]; try reflexivity; rewrite He in Hs; discriminate Hs.
Qed.

(** X2.  [Ended] is final: on a list that [End()] has closed, every run of
    calls that returns has changed nothing at all - not the state, not the
    cached buffers, not the counters, not the recorded calls.  The list
    cannot record again. *)
Theorem Ended_list_is_final (cs : list Command) (m m' : Machine) :
  m_state (cmd_list m) = Ended ->
  exec_all cs m = Ok (tt, m') ->
  m' = m.
Proof.
  intro He. induction cs as [|c cs IH]; intro H.
  - now inversion H.
  - cbn [exec_all for_each] in H. apply bind_Ok_inv in H.
    destruct H as ([] & m1 & Hc & Hrest).
    assert (Hns : m_state (cmd_list m) <> Submitted) by (rewrite He; discriminate).
    pose proof (step_from_Ended He (@exec_shape c m m1 Hns Hc)) as E. subst m1.
    exact (IH Hrest).
Qed.

(** *** Runs that do not return *)

(** Where a call that aborts leaves the machine: as it was, except that
    [Begin()] and [End()] have called the backend when it is the backend's
    result that is refused. *)
Lemma exec_abort (c : Command) (m m' : Machine) (d : string) :
  m_state (cmd_list m) <> Submitted ->
  exec c m = Fatal d m' ->
  m' = m
  \/ m' = with_call (Reset (m_rhi_cmd_pool_resource (cmd_list m))) m
  \/ m' = with_call Close m.
Proof.
  intros Hns H. pose proof (not_Submitted m Hns) as Hsub.
  destruct c; cbn [exec] in H;
    unfold Begin, End, Submit, SetPipelineState, BeginRenderPass, EndRenderPass,
      ClearPipelineStateRenderTargets, ClearRenderTarget, Draw, DrawIndexed, Dispatch,
      Draw_issue, DrawIndexed_issue, OnDraw,
      Blit_texture, Blit_swapchain, Copy_texture, Copy_swapchain, SetViewport,
      SetScissorRectangle, SetBufferVertex, SetBufferIndex, SetConstantBuffer,
      PushConstants, SetStructuredBuffer, SetSampler, SetTexture, BeginTimestamp,
      EndTimestamp, GetTimestampDuration, BeginTimeblock, EndTimeblock, BeginMarker,
      EndMarker, InsertMemoryBarrierImage_image, InsertMemoryBarrierImage,
      InsertMemoryBarrierImageWaitForWrite, assert_Recording in H;
    cbv beta iota zeta delta [bind get ret modify SP_ASSERT SP_ASSERT_MSG d3d12] in H;
    rewrite ?Hsub in H;
    cbv beta iota zeta delta [bind get ret modify SP_ASSERT SP_ASSERT_MSG d3d12] in H;
    repeat match type of H with
           | context [if ?b then _ else _] => destruct b
           end;
    try discriminate H; inversion H; subst; auto.
Qed.

(** What every run keeps, returning or not. *)
Record draw_facts (added : list D3D12_Call) (m m' : Machine) : Prop := {
  df_recorded : recorded m' = recorded m ++ added;
  df_no_draw : Forall (fun c => is_draw_call c = false) added;
  df_draw : m_rhi_draw (profiler m') = m_rhi_draw (profiler m);
  df_dispatch : m_rhi_dispatch (profiler m') = m_rhi_dispatch (profiler m)
}.

Lemma draw_facts_of_run (added : list D3D12_Call) (m m' : Machine) :
  run_facts added m m' -> draw_facts added m m'.
Proof. intros []. now constructor. Qed.

Lemma draw_facts_trans (a b : list D3D12_Call) (m m1 m2 : Machine) :
  draw_facts a m m1 -> draw_facts b m1 m2 -> draw_facts (a ++ b) m m2.
Proof.
  intros [Ha1 Ha2 Ha3 Ha4] [Hb1 Hb2 Hb3 Hb4]. constructor; try congruence.
  - now rewrite Hb1, Ha1, app_assoc.
  - apply Forall_app. now split.
Qed.

Lemma exec_all_draw_facts (cs : list Command) (m : Machine) :
  m_state (cmd_list m) <> Submitted ->
  exists added, draw_facts added m (state_of (exec_all cs m)).
Proof.
  revert m. induction cs as [|c cs IH]; intros m Hns.
  - exists []. apply draw_facts_of_run. now apply run_facts_refl.
  - cbn [exec_all for_each]. unfold bind.
    destruct (exec c m) as [[[] m1]|d m1] eqn:Hc.
    + destruct (@step_facts c m m1 Hns (@exec_shape c m m1 Hns Hc)) as (a & Ha).
      destruct (IH m1 (rf_state Ha)) as (b & Hb).
      exists (a ++ b). exact (draw_facts_trans (draw_facts_of_run Ha) Hb).
    + cbn [state_of].
      destruct (@exec_abort c m m1 d Hns Hc) as [-> | [-> | ->]].
      * exists []. apply draw_facts_of_run. now apply run_facts_refl.
      * eexists [_]. constructor; try reflexivity. repeat constructor.
      * eexists [_]. constructor; try reflexivity. repeat constructor.
Qed.

(** X3.  No draw reaches the backend.  [Draw], [DrawIndexed] and
    [Dispatch] stop the process before their backend call: at that point
    the machine is what it was before the call.  And in every run of
    calls, whether it returns or stops on an assertion, the backend list
    has at the end what it had before followed by the calls of the run,
    none of which is a [DrawInstanced], [DrawIndexedInstanced] or
    [Dispatch], and the profiler's draw and dispatch counts are what they
    were. *)
Theorem no_draw_reaches_the_backend (cs : list Command) (m : Machine) :
  m_state (cmd_list m) <> Submitted ->
  (forall vertex_count vertex_start_index,
     exists text, Draw vertex_count vertex_start_index m = Fatal text m)
  /\ (forall index_count index_offset vertex_offset instance_count,
        exists text,
          DrawIndexed index_count index_offset vertex_offset instance_count m
          = Fatal text m)
  /\ (forall x y z async, exists text, Dispatch x y z async m = Fatal text m)
  /\ recorded (state_of (exec_all cs m))
     = recorded m ++ new_calls m (state_of (exec_all cs m))
  /\ Forall (fun c => is_draw_call c = false) (new_calls m (state_of (exec_all cs m)))
  /\ m_rhi_draw (profiler (state_of (exec_all cs m))) = m_rhi_draw (profiler m)
  /\ m_rhi_dispatch (profiler (state_of (exec_all cs m))) = m_rhi_dispatch (profiler m).
Proof.
  intro Hns.
  assert (Hstop : forall k : M Machine unit,
            exists text, (assert_Recording ;; OnDraw ;; k)%rhi m = Fatal text m).
  { intro k. unfold assert_Recording, OnDraw, bind, get, SP_ASSERT_MSG, SP_ASSERT.
    destruct (in_state Recording m); eexists; reflexivity. }
  split; [intros; apply Hstop|]. split; [intros; apply Hstop|].
  split; [intros; apply Hstop|].
  destruct (@exec_all_draw_facts cs m Hns) as (added & [H1 H2 H3 H4]).
  rewrite (@new_calls_added added m _ H1). repeat split; assumption.
Qed.

(** X4.  A list is reset and closed at most once: in every run, the number
    of [Reset] calls recorded is 1 if the run took the list out of [Idle]
    and 0 otherwise, and the number of [Close] calls is 1 if the run
    brought it to [Ended] and 0 otherwise.  The state never moves back. *)
Theorem one_Reset_and_one_Close_per_list (cs : list Command) (m m' : Machine) :
  m_state (cmd_list m) <> Submitted ->
  exec_all cs m = Ok (tt, m') ->
  (count is_Reset (new_calls m m') + begun (m_state (cmd_list m))
   = begun (m_state (cmd_list m')))%nat
  /\ (count is_Close (new_calls m m') + closed (m_state (cmd_list m))
      = closed (m_state (cmd_list m')))%nat
  /\ (count is_Reset (new_calls m m') <= 1)%nat
  /\ (count is_Close (new_calls m m') <= 1)%nat.
Proof.
  intros Hns H. destruct (@exec_all_new_calls cs m m' Hns H).
  repeat split; try assumption.
  - destruct (m_state (cmd_list m')); cbn in *; lia.
  - destruct (m_state (cmd_list m')); cbn in *; lia.
Qed.


(** X19.  A command list keeps its handles: no run of calls changes the
    backend list or the allocator the list was constructed with, and every
    [Reset] that a run records resets the list with that allocator. *)
Theorem handles_are_kept (cs : list Command) (m m' : Machine) :
  m_state (cmd_list m) <> Submitted ->
  exec_all cs m = Ok (tt, m') ->
  m_rhi_resource (cmd_list m') = m_rhi_resource (cmd_list m)
  /\ m_rhi_cmd_pool_resource (cmd_list m') = m_rhi_cmd_pool_resource (cmd_list m)
  /\ Forall (fun c => forall allocator, c = Reset allocator ->
               allocator = m_rhi_cmd_pool_resource (cmd_list m)) (new_calls m m')
  /\ (m_state (cmd_list m) = Idle -> m_state (cmd_list m') <> Idle ->
      In (Reset (m_rhi_cmd_pool_resource (cmd_list m))) (new_calls m m')).
Proof.
  intros Hns H. destruct (@exec_all_new_calls cs m m' Hns H).
  repeat split; try assumption.
  intros Hidle Hleft. rewrite Hidle in rf_Reset0. cbn [begun] in rf_Reset0.
  assert (Hone : (0 < count is_Reset (new_calls m m'))%nat)
    by (destruct (m_state (cmd_list m')); cbn [begun] in rf_Reset0;
        [now contradiction Hleft | lia | lia | lia]).
  unfold count in Hone.
  destruct (filter is_Reset (new_calls m m')) as [|c rest] eqn:Hfilter;
    [cbn in Hone; lia|].
  assert (Hin : In c (filter is_Reset (new_calls m m')))
    by (rewrite Hfilter; now left).
  apply filter_In in Hin. destruct Hin as [Hin Hreset].
  destruct c; try discriminate Hreset.
  rewrite Forall_forall in rf_allocator0.
  now rewrite <- (rf_allocator0 _ Hin _ eq_refl).
Qed.

(** ** The cached buffers over whole runs *)

Definition vertex_id_after (c : Command) (cached : Z) : Z :=
  match c with call_SetBufferVertex b _ => vb_GetObjectId b | _ => cached end.

Definition index_id_after (c : Command) (cached : Z) : Z :=
  match c with call_SetBufferIndex b => ib_GetObjectId b | _ => cached end.

(** The id of the last vertex (index) buffer a run sets, or the id that
    was cached before it. *)
Definition last_vertex_buffer (cs : list Command) (cached : Z) : Z :=
  fold_left (fun id c => vertex_id_after c id) cs cached.

Definition last_index_buffer (cs : list Command) (cached : Z) : Z :=
  fold_left (fun id c => index_id_after c id) cs cached.

Lemma step_cached_ids (c : Command) (m m' : Machine) :
  step_shape c m m' ->
  m_vertex_buffer_id (cmd_list m') = vertex_id_after c (m_vertex_buffer_id (cmd_list m))
  /\ m_index_buffer_id (cmd_list m') = index_id_after c (m_index_buffer_id (cmd_list m)).
Proof.
  intros [-> Hv Hi | -> _ -> | -> _ -> | v -> _ -> | r -> _ -> | b binding -> _ _ ->
          | b -> _ _ ->]; try (split; reflexivity).
  destruct c; try (split; reflexivity).
  - split; [cbn; now apply (Hv buffer binding) | reflexivity].
  - split; [reflexivity | cbn; now apply (Hi buffer)].
Qed.

Lemma cached_ids_after_run (cs : list Command) (m m' : Machine) :
  m_state (cmd_list m) <> Submitted ->
  exec_all cs m = Ok (tt, m') ->
  m_vertex_buffer_id (cmd_list m') = last_vertex_buffer cs (m_vertex_buffer_id (cmd_list m))
  /\ m_index_buffer_id (cmd_list m') = last_index_buffer cs (m_index_buffer_id (cmd_list m)).
Proof.
  revert m. induction cs as [|c cs IH]; intros m Hns H.
  - inversion H; subst. split; reflexivity.
  - cbn [exec_all for_each] in H. apply bind_Ok_inv in H.
    destruct H as ([] & m1 & Hc & Hrest).
    pose proof (@exec_shape c m m1 Hns Hc) as Hshape.
    destruct (step_cached_ids Hshape) as [Hv Hi].
    destruct (@step_facts c m m1 Hns Hshape) as (a & Ha).
    destruct (IH m1 (rf_state Ha) Hrest) as [Hv' Hi'].
    unfold last_vertex_buffer, last_index_buffer. cbn [fold_left].
    rewrite <- Hv, <- Hi. split; assumption.
Qed.

(** X6.  After any run, the cached vertex-buffer id is the id of the last
    buffer handed to [SetBufferVertex] in the run (bound or skipped), and
    the cached index-buffer id that of the last buffer handed to
    [SetBufferIndex]; a run without such a call keeps what was cached, a
    [Begin()] or [End()] in between changes nothing. *)
Theorem cached_buffers_are_the_last_set (cs : list Command) (m m' : Machine) :
  m_state (cmd_list m) <> Submitted ->
  exec_all cs m = Ok (tt, m') ->
  m_vertex_buffer_id (cmd_list m') = last_vertex_buffer cs (m_vertex_buffer_id (cmd_list m))
  /\ m_index_buffer_id (cmd_list m') = last_index_buffer cs (m_index_buffer_id (cmd_list m)).
Proof. exact (@cached_ids_after_run cs m m'). Qed.

(** ** The first bind of a recording *)





(** A buffer is cached only by a [SetBufferVertex] of the run. *)
Lemma cached_vertex_buffer_was_set (cs : list Command) (cached : Z) :
  last_vertex_buffer cs cached = cached
  \/ exists b binding, In (call_SetBufferVertex b binding) cs
                       /\ last_vertex_buffer cs cached = vb_GetObjectId b.
Proof.
  unfold last_vertex_buffer. revert cached.
  induction cs as [|c cs IH]; intro cached; [now left|].
  cbn [fold_left].
  destruct (IH (vertex_id_after c cached)) as [E | (b & binding & Hin & E)].
  - rewrite E. destruct c; try (now left).
    right. exists buffer, binding. split; [now left | reflexivity].
  - right. exists b, binding. split; [now right | exact E].
Qed.




(** ** Transfers to a swap chain, and buffer views *)

Definition has_ClearBlit (source : RHI_Texture) : Prop :=
  Z.land (tex_GetFlags source) RHI_Texture_ClearBlit <> 0.

(** X7.  [Blit] to a swap chain returns exactly for a flagged source that
    fits into the destination, [Copy] exactly for a flagged source of the
    destination's size; so whatever [Copy] accepts, [Blit] accepts.  Neither
    one changes the list or records a call. *)
Theorem swapchain_transfers_accept (m : Machine) (source : RHI_Texture)
  (destination : RHI_SwapChain) :
  (Blit_swapchain source destination m = Ok (tt, m)
   <-> has_ClearBlit source
       /\ tex_GetWidth source <= sc_GetWidth destination
       /\ tex_GetHeight source <= sc_GetHeight destination)
  /\ (Copy_swapchain source destination m = Ok (tt, m)
      <-> has_ClearBlit source
          /\ tex_GetWidth source = sc_GetWidth destination
          /\ tex_GetHeight source = sc_GetHeight destination)
  /\ (forall r, Blit_swapchain source destination m = Ok r -> r = (tt, m))
  /\ (forall r, Copy_swapchain source destination m = Ok r ->
                Blit_swapchain source destination m = Ok r).
Proof.
  unfold has_ClearBlit, Blit_swapchain, Copy_swapchain, SP_ASSERT_MSG, SP_ASSERT, bind.
  destruct (Z.eqb_spec (Z.land (tex_GetFlags source) RHI_Texture_ClearBlit) 0) as [E|E];
    cbn [negb].
  { repeat split; try discriminate; intros (Hf & _); now contradiction Hf. }
  destruct (Z.leb_spec (tex_GetWidth source) (sc_GetWidth destination)) as [Hw|Hw];
  destruct (Z.leb_spec (tex_GetHeight source) (sc_GetHeight destination)) as [Hh|Hh];
  destruct (Z.eqb_spec (tex_GetWidth source) (sc_GetWidth destination)) as [Ew|Ew];
  destruct (Z.eqb_spec (tex_GetHeight source) (sc_GetHeight destination)) as [Eh|Eh];
    cbn [andb]; repeat split; try discriminate; try assumption; try lia;
    try (intros r Hr; now inversion Hr);
    try (intros (_ & H1 & H2); lia).
Qed.

(** X8.  An actual vertex-buffer bind hands the backend one view whose
    address is 0 and whose stride and size are the buffer's, reduced
    modulo 2^32: the size in the view is the buffer's GPU size exactly when
    that size is below 4 GiB. *)
Theorem vertex_buffer_view_is_32_bit (m : Machine) (b : RHI_VertexBuffer) (binding : Z) :
  m_state (cmd_list m) = Recording ->
  m_vertex_buffer_id (cmd_list m) <> vb_GetObjectId b ->
  0 <= vb_GetObjectSizeGpu b ->
  exists m' view,
    SetBufferVertex b binding m = Ok (tt, m')
    /\ recorded m' = recorded m ++ [IASetVertexBuffers 0 1 view]
    /\ vbv_BufferLocation view = 0
    /\ 0 <= vbv_SizeInBytes view < 2 ^ 32
    /\ vbv_SizeInBytes view = vb_GetObjectSizeGpu b mod 2 ^ 32
    /\ (vbv_SizeInBytes view = vb_GetObjectSizeGpu b <-> vb_GetObjectSizeGpu b < 2 ^ 32).
Proof.
  intros Hs Hid Hsize. exists (vertex_buffer_bound b m), (vertex_buffer_view b).
  rewrite (SetBufferVertex_Recording b binding m Hs).
  apply Z.eqb_neq in Hid. rewrite Hid.
  assert (Hmod : 0 <= vb_GetObjectSizeGpu b mod 2 ^ 32 < 2 ^ 32)
    by (apply Z.mod_pos_bound; reflexivity).
  cbn [vertex_buffer_view vbv_BufferLocation vbv_SizeInBytes vertex_buffer_bound recorded].
  unfold to_uint32, uint32_max. repeat split; try apply Hmod.
  - intro E. rewrite <- E. apply Hmod.
  - intro Hlt. apply Z.mod_small. now split.
Qed.

End Sequences.

(** ** Concrete runs *)

#[local] Existing Instance sample_ext.

Definition a_viewport : RHI_Viewport :=
  {| D3D12.x := float_zero; D3D12.y := float_zero;
     width := float_of_Z 1920; height := float_of_Z 1080;
     depth_min := float_zero; depth_max := float_of_Z 1 |}.

(** One use of a list: record, close, submit, ask for a timing. *)
Definition session : list Command :=
  [ call_Begin;
    call_SetViewport a_viewport;
    call_SetBufferVertex quad_vertices 0;
    call_SetBufferIndex quad_indices;
    call_SetBufferVertex quad_vertices 1;
    call_InsertMemoryBarrierImage frame 0 1 1 0 1;
    call_Blit_swapchain frame window;
    call_End;
    call_Submit;
    call_GetTimestampDuration 0 ].

Definition session_end : Machine :=
  {| cmd_list := list_in Ended 7 9;
     profiler := {| m_rhi_draw := 0; m_rhi_dispatch := 0;
                    m_rhi_bindings_buffer_vertex := 1;
                    m_rhi_bindings_buffer_index := 1 |};
     recorded := [ Reset 8192;
                   RSSetViewports 1 (viewport_of a_viewport);
                   IASetVertexBuffers 0 1 (vertex_buffer_view quad_vertices);
                   IASetIndexBuffer (index_buffer_view quad_indices);
                   Close ] |}.

Example session_runs : exec_all session fresh_list = Ok (tt, session_end).
Proof. reflexivity. Qed.

(** What a caller may still try on a closed list without aborting. *)
Definition afterwards : list Command :=
  [ call_Submit;
    call_Copy_swapchain frame window;
    call_InsertMemoryBarrierImageWaitForWrite frame;
    call_GetTimestampDuration 1 ].

Lemma a_list_never_becomes_Submitted_witness :
  exec_all session fresh_list = Ok (tt, session_end)
  /\ m_state (cmd_list session_end) <> Submitted.
Proof.
  split; [reflexivity|].
  apply (@a_list_never_becomes_Submitted sample_ext session fresh_list session_end);
    [discriminate | reflexivity].
Defined.

Lemma Ended_list_is_final_witness :
  exec_all afterwards session_end = Ok (tt, session_end)
  /\ session_end = session_end.
Proof.
  split; [reflexivity|].
  apply (@Ended_list_is_final sample_ext afterwards session_end session_end);
    reflexivity.
Defined.

(** The list once it is recording and has a viewport, and a run that tries
    to draw on it. *)
Definition viewport_set : Machine :=
  {| cmd_list := list_in Recording 0 0; profiler := no_counts;
     recorded := [Reset 8192; RSSetViewports 1 (viewport_of a_viewport)] |}.

Definition drawing : list Command :=
  [ call_Begin; call_SetViewport a_viewport; call_Draw 3 0; call_End ].

Example drawing_stops : exec_all drawing fresh_list = Fatal not_implemented viewport_set.
Proof. reflexivity. Qed.

Lemma no_draw_reaches_the_backend_witness :
  (forall vertex_count vertex_start_index,
     exists text, Draw vertex_count vertex_start_index fresh_list = Fatal text fresh_list)
  /\ (forall index_count index_offset vertex_offset instance_count,
        exists text,
          DrawIndexed index_count index_offset vertex_offset instance_count fresh_list
          = Fatal text fresh_list)
  /\ (forall x y z async,
        exists text, Dispatch x y z async fresh_list = Fatal text fresh_list)
  /\ recorded viewport_set = recorded fresh_list ++ new_calls fresh_list viewport_set
  /\ Forall (fun c => is_draw_call c = false) (new_calls fresh_list viewport_set)
  /\ m_rhi_draw (profiler viewport_set) = m_rhi_draw (profiler fresh_list)
  /\ m_rhi_dispatch (profiler viewport_set) = m_rhi_dispatch (profiler fresh_list).
Proof.
  refine (@no_draw_reaches_the_backend sample_ext drawing fresh_list _). discriminate.
Defined.


Lemma one_Reset_and_one_Close_per_list_witness :
  (count is_Reset (new_calls fresh_list session_end) + 0 = 1)%nat
  /\ (count is_Close (new_calls fresh_list session_end) + 0 = 1)%nat
  /\ (count is_Reset (new_calls fresh_list session_end) <= 1)%nat
  /\ (count is_Close (new_calls fresh_list session_end) <= 1)%nat.
Proof.
  apply (@one_Reset_and_one_Close_per_list sample_ext session fresh_list session_end);
    [discriminate | reflexivity].
Defined.


Lemma cached_buffers_are_the_last_set_witness :
  m_vertex_buffer_id (cmd_list session_end) = last_vertex_buffer session 0
  /\ m_index_buffer_id (cmd_list session_end) = last_index_buffer session 0.
Proof.
  apply (@cached_buffers_are_the_last_set sample_ext session fresh_list session_end);
    [discriminate | reflexivity].
Defined.

Lemma handles_are_kept_witness :
  m_rhi_resource (cmd_list session_end) = m_rhi_resource (cmd_list fresh_list)
  /\ m_rhi_cmd_pool_resource (cmd_list session_end)
     = m_rhi_cmd_pool_resource (cmd_list fresh_list)
  /\ Forall (fun c => forall allocator, c = Reset allocator ->
               allocator = m_rhi_cmd_pool_resource (cmd_list fresh_list))
       (new_calls fresh_list session_end)
  /\ (m_state (cmd_list fresh_list) = Idle -> m_state (cmd_list session_end) <> Idle ->
      In (Reset (m_rhi_cmd_pool_resource (cmd_list fresh_list)))
         (new_calls fresh_list session_end)).
Proof.
  apply (@handles_are_kept sample_ext session fresh_list session_end);
    [discriminate | reflexivity].
Defined.

(** A buffer of 4 GiB and 16 bytes. *)
Definition huge_vertices : RHI_VertexBuffer :=
  {| vb_GetObjectId := 11; vb_GetStride := 32; vb_GetObjectSizeGpu := 2 ^ 32 + 16 |}.

Lemma vertex_buffer_view_is_32_bit_witness :
  exists m' view,
    SetBufferVertex huge_vertices 0 recording_list = Ok (tt, m')
    /\ recorded m' = recorded recording_list ++ [IASetVertexBuffers 0 1 view]
    /\ vbv_BufferLocation view = 0
    /\ 0 <= vbv_SizeInBytes view < 2 ^ 32
    /\ vbv_SizeInBytes view = (2 ^ 32 + 16) mod 2 ^ 32
    /\ (vbv_SizeInBytes view = 2 ^ 32 + 16 <-> 2 ^ 32 + 16 < 2 ^ 32).
Proof.
  apply (@vertex_buffer_view_is_32_bit sample_ext recording_list huge_vertices 0);
    [reflexivity | discriminate | discriminate].
Defined.

End CommandListMore.

(* ===================================================================== *)
(** * The pipeline object: what a construction consists of *)
(* ===================================================================== *)

Module PipelineMore.
Import Vulkan PipelineSpec.

Section Construction.
Context {ext : Externals}.

(** ** Push-constant ranges *)

Definition is_push_constant (descriptor : RHI_Descriptor) : bool :=
  match type descriptor with PushConstantBuffer => true | OtherDescriptor _ => false end.

Definition fits (descriptor : RHI_Descriptor) : bool :=
  struct_size descriptor <=? PropertyGetMaxPushConstantSize.

Definition size_text : string :=
  "descriptor.struct_size <= RHI_Device::PropertyGetMaxPushConstantSize()"%string.

Lemma push_constant_ranges_acc (descriptors : list RHI_Descriptor)
  (acc : list VkPushConstantRange) (t : Trace) :
  push_constant_ranges descriptors acc t =
  if forallb fits (filter is_push_constant descriptors)
  then Ok (acc ++ map push_constant_range (filter is_push_constant descriptors), t)
  else Fatal size_text t.
Proof.
  revert acc. induction descriptors as [|d ds IH]; intro acc.
  - cbn. now rewrite app_nil_r.
  - cbn [push_constant_ranges filter].
    destruct (type d) eqn:Ht.
    + assert (Hp : is_push_constant d = true) by (unfold is_push_constant; now rewrite Ht).
      rewrite Hp. cbn [forallb map]. unfold bind, SP_ASSERT, fits at 1.
      destruct (struct_size d <=? PropertyGetMaxPushConstantSize); cbn [andb]; [|reflexivity].
      rewrite IH. destruct (forallb fits _); [|reflexivity].
      now rewrite <- app_assoc.
    + assert (Hp : is_push_constant d = false) by (unfold is_push_constant; now rewrite Ht).
      rewrite Hp. apply IH.
Qed.

(** X9.  The push-constant ranges of a pipeline layout are one range per
    push-constant descriptor of the caller's layout, in the descriptors'
    order, each at offset 0 with the descriptor's size; the collection
    fails exactly when one of these descriptors is larger than the device's
    maximum, and descriptors of any other type are neither collected nor
    checked. *)
Theorem push_constant_ranges_collected (descriptors : list RHI_Descriptor) (t : Trace) :
  push_constant_ranges descriptors [] t =
  if forallb fits (filter is_push_constant descriptors)
  then Ok (map push_constant_range (filter is_push_constant descriptors), t)
  else Fatal size_text t.
Proof. exact (push_constant_ranges_acc descriptors [] t). Qed.

(** X10.  The stage mask of a push-constant range has the Vulkan vertex bit
    exactly when the descriptor's stage has [RHI_Shader_Vertex], the
    fragment bit exactly for [RHI_Shader_Pixel], the compute bit exactly
    for [RHI_Shader_Compute], and no other bit. *)
Theorem push_constant_stage_flags (descriptor : RHI_Descriptor) :
  let flags := pcr_stageFlags (push_constant_range descriptor) in
  Z.testbit flags 0 = negb (Z.land (stage descriptor) RHI_Shader_Vertex =? 0)
  /\ Z.testbit flags 4 = negb (Z.land (stage descriptor) RHI_Shader_Pixel =? 0)
  /\ Z.testbit flags 5 = negb (Z.land (stage descriptor) RHI_Shader_Compute =? 0)
  /\ Z.land flags (Z.lnot (Z.lor (Z.lor VK_SHADER_STAGE_VERTEX_BIT
                                          VK_SHADER_STAGE_FRAGMENT_BIT)
                                   VK_SHADER_STAGE_COMPUTE_BIT)) = 0
  /\ pcr_offset (push_constant_range descriptor) = 0
  /\ pcr_size (push_constant_range descriptor) = struct_size descriptor.
Proof.
  cbn [push_constant_range pcr_stageFlags pcr_offset pcr_size]. unfold stage_flag.
  destruct (Z.land (stage descriptor) RHI_Shader_Vertex =? 0);
  destruct (Z.land (stage descriptor) RHI_Shader_Pixel =? 0);
  destruct (Z.land (stage descriptor) RHI_Shader_Compute =? 0);
  repeat split.
Qed.

(** ** Shader stages *)

Definition module_text : string := "shader_stage_info.module != nullptr"%string.
Definition entry_text : string := "shader_stage_info.pName != nullptr"%string.

(** The stage description of a shader that is present. *)
Definition stage_of (stage_bit : Z) (shader : option RHI_Shader)
  : list VkPipelineShaderStageCreateInfo :=
  match shader with
  | Some sh => [ {| ss_stage := stage_bit;
                    ss_module := sh_GetRhiResource sh;
                    ss_pName := sh_GetEntryPoint sh |} ]
  | None => []
  end.

Definition present_stages (pipeline_state : RHI_PipelineState)
  : list VkPipelineShaderStageCreateInfo :=
  stage_of VK_SHADER_STAGE_VERTEX_BIT (shader_vertex pipeline_state)
  ++ stage_of VK_SHADER_STAGE_FRAGMENT_BIT (shader_pixel pipeline_state)
  ++ stage_of VK_SHADER_STAGE_COMPUTE_BIT (shader_compute pipeline_state).

(** A shader that is present is compiled: it has a module and an entry
    point. *)
Definition compiled (shader : option RHI_Shader) : bool :=
  match shader with
  | Some sh => negb (is_null (sh_GetRhiResource sh)) && is_some (sh_GetEntryPoint sh)
  | None => true
  end.

Definition shaders_compiled (pipeline_state : RHI_PipelineState) : bool :=
  compiled (shader_vertex pipeline_state)
  && compiled (shader_pixel pipeline_state)
  && compiled (shader_compute pipeline_state).

Lemma shader_stage_compiled (bit : Z) (shader : option RHI_Shader)
  (acc : list VkPipelineShaderStageCreateInfo) (t : Trace) :
  compiled shader = true ->
  shader_stage bit shader acc t = Ok (acc ++ stage_of bit shader, t).
Proof.
  destruct shader as [sh|]; cbn [compiled shader_stage stage_of ss_module ss_pName].
  - intro H. apply andb_true_iff in H. destruct H as [Hm He].
    unfold bind, SP_ASSERT. rewrite Hm, He. reflexivity.
  - intros _. unfold ret. now rewrite app_nil_r.
Qed.

Lemma shader_stage_not_compiled (bit : Z) (shader : option RHI_Shader)
  (acc : list VkPipelineShaderStageCreateInfo) (t : Trace) :
  compiled shader = false ->
  shader_stage bit shader acc t = Fatal module_text t
  \/ shader_stage bit shader acc t = Fatal entry_text t.
Proof.
  destruct shader as [sh|]; cbn [compiled shader_stage ss_module ss_pName]; [|discriminate].
  unfold bind, SP_ASSERT.
  destruct (negb (is_null (sh_GetRhiResource sh))); [|now left].
  destruct (is_some (sh_GetEntryPoint sh)); [discriminate | now right].
Qed.

Lemma shader_stages_compiled (pipeline_state : RHI_PipelineState) (t : Trace) :
  shaders_compiled pipeline_state = true ->
  shader_stages pipeline_state t = Ok (present_stages pipeline_state, t).
Proof.
  unfold shaders_compiled, shader_stages, present_stages. intro H.
  apply andb_true_iff in H. destruct H as [H Hc].
  apply andb_true_iff in H. destruct H as [Hv Hp].
  rewrite (bind_Ok _ _ _ (shader_stage_compiled _ _ _ t Hv)).
  rewrite (bind_Ok _ _ _ (shader_stage_compiled _ _ _ t Hp)).
  rewrite (shader_stage_compiled _ _ _ t Hc). cbn [app].
  now rewrite <- app_assoc.
Qed.

Lemma shader_stages_not_compiled (pipeline_state : RHI_PipelineState) (t : Trace) :
  shaders_compiled pipeline_state = false ->
  shader_stages pipeline_state t = Fatal module_text t
  \/ shader_stages pipeline_state t = Fatal entry_text t.
Proof.
  unfold shaders_compiled, shader_stages. intro H.
  destruct (compiled (shader_vertex pipeline_state)) eqn:Hv.
  - rewrite (bind_Ok _ _ _ (shader_stage_compiled _ _ _ t Hv)).
    destruct (compiled (shader_pixel pipeline_state)) eqn:Hp.
    + rewrite (bind_Ok _ _ _ (shader_stage_compiled _ _ _ t Hp)).
      apply shader_stage_not_compiled. exact H.
    + destruct (shader_stage_not_compiled VK_SHADER_STAGE_FRAGMENT_BIT _
                  ([] ++ stage_of VK_SHADER_STAGE_VERTEX_BIT (shader_vertex pipeline_state))
                  t Hp) as [E|E];
        [left | right]; now apply bind_Fatal.
  - destruct (shader_stage_not_compiled VK_SHADER_STAGE_VERTEX_BIT _ [] t Hv) as [E|E];
      [left | right]; now apply bind_Fatal.
Qed.

(** X11.  The shader stages handed to Vulkan are those of the shaders that
    are present, in the order vertex, pixel, compute, each with the shader's
    module and entry point.  Collecting them succeeds exactly when every
    shader that is present has a non-null module and a non-null entry
    point; otherwise it stops on the module or the entry-point assertion.
    An absent shader is skipped, and no call is made. *)
Theorem shader_stages_are_the_present_shaders
  (pipeline_state : RHI_PipelineState) (t : Trace) :
  (shaders_compiled pipeline_state = true ->
   shader_stages pipeline_state t = Ok (present_stages pipeline_state, t))
  /\ (shaders_compiled pipeline_state = false ->
      shader_stages pipeline_state t = Fatal module_text t
      \/ shader_stages pipeline_state t = Fatal entry_text t).
Proof.
  split; [apply shader_stages_compiled | apply shader_stages_not_compiled].
Qed.

(** ** The whole construction *)

Definition ranges_of (descriptor_set_layout : RHI_DescriptorSetLayout)
  : list VkPushConstantRange :=
  map push_constant_range
    (filter is_push_constant (dsl_GetDescriptors descriptor_set_layout)).

Definition layout_info (descriptor_set_layout : RHI_DescriptorSetLayout)
  : VkPipelineLayoutCreateInfo :=
  pipeline_layout_info descriptor_set_layout (ranges_of descriptor_set_layout).

(** The handle that [vkCreatePipelineLayout] writes. *)
Definition layout_handle (descriptor_set_layout : RHI_DescriptorSetLayout) : ptr :=
  snd (vkCreatePipelineLayout (layout_info descriptor_set_layout)).

(** The three descriptor-set layouts are there, the push constants fit, and
    Vulkan creates the pipeline layout. *)
Definition layout_created (descriptor_set_layout : RHI_DescriptorSetLayout) : bool :=
  forallb (fun layout => negb (is_null layout)) (layouts descriptor_set_layout)
  && forallb fits (filter is_push_constant (dsl_GetDescriptors descriptor_set_layout))
  && (fst (vkCreatePipelineLayout (layout_info descriptor_set_layout)) =? VK_SUCCESS).

Definition graphics_info (pipeline_state : RHI_PipelineState)
  (descriptor_set_layout : RHI_DescriptorSetLayout) : VkGraphicsPipelineCreateInfo :=
  graphics_pipeline_info pipeline_state (layout_handle descriptor_set_layout)
    (present_stages pipeline_state).

Definition compute_info (pipeline_state : RHI_PipelineState)
  (descriptor_set_layout : RHI_DescriptorSetLayout) : VkComputePipelineCreateInfo :=
  compute_pipeline_info (layout_handle descriptor_set_layout)
    (present_stages pipeline_state).

(** Vulkan creates the pipeline that the state asks for, if it asks for
    one. *)
Definition pipeline_created (pipeline_state : RHI_PipelineState)
  (descriptor_set_layout : RHI_DescriptorSetLayout) : bool :=
  if IsGraphics pipeline_state then
    fst (vkCreateGraphicsPipelines (graphics_info pipeline_state descriptor_set_layout))
    =? VK_SUCCESS
  else if IsCompute pipeline_state then
    fst (vkCreateComputePipelines (compute_info pipeline_state descriptor_set_layout))
    =? VK_SUCCESS
  else true.

Definition pipeline_handle (pipeline_state : RHI_PipelineState)
  (descriptor_set_layout : RHI_DescriptorSetLayout) : ptr :=
  if IsGraphics pipeline_state then
    snd (vkCreateGraphicsPipelines (graphics_info pipeline_state descriptor_set_layout))
  else if IsCompute pipeline_state then
    snd (vkCreateComputePipelines (compute_info pipeline_state descriptor_set_layout))
  else nullptr.

Definition layout_calls (pipeline_state : RHI_PipelineState)
  (descriptor_set_layout : RHI_DescriptorSetLayout) : Trace :=
  [ vkCreatePipelineLayout_call (layout_info descriptor_set_layout);
    SetResourceName (layout_handle descriptor_set_layout) PipelineLayout
      (name pipeline_state) ].

Definition pipeline_calls (pipeline_state : RHI_PipelineState)
  (descriptor_set_layout : RHI_DescriptorSetLayout) : Trace :=
  if IsGraphics pipeline_state then
    [ vkCreateGraphicsPipelines_call (graphics_info pipeline_state descriptor_set_layout) ]
  else if IsCompute pipeline_state then
    [ vkCreateComputePipelines_call (compute_info pipeline_state descriptor_set_layout);
      SetResourceName
        (snd (vkCreateComputePipelines (compute_info pipeline_state descriptor_set_layout)))
        Pipeline (name pipeline_state) ]
  else [].

Definition constructible (pipeline_state : RHI_PipelineState)
  (descriptor_set_layout : RHI_DescriptorSetLayout) : bool :=
  layout_created descriptor_set_layout
  && shaders_compiled pipeline_state
  && pipeline_created pipeline_state descriptor_set_layout.

Definition constructed (pipeline_state : RHI_PipelineState)
  (descriptor_set_layout : RHI_DescriptorSetLayout) : RHI_Pipeline :=
  {| m_state := pipeline_state;
     m_resource_pipeline_layout := layout_handle descriptor_set_layout;
     m_resource_pipeline := pipeline_handle pipeline_state descriptor_set_layout |}.

Lemma pipeline_layout_created (pipeline_state : RHI_PipelineState)
  (descriptor_set_layout : RHI_DescriptorSetLayout) (t : Trace) :
  pipeline_layout pipeline_state descriptor_set_layout t =
  if layout_created descriptor_set_layout
  then Ok (layout_handle descriptor_set_layout,
           t ++ layout_calls pipeline_state descriptor_set_layout)
  else if forallb (fun layout => negb (is_null layout)) (layouts descriptor_set_layout)
            && forallb fits
                 (filter is_push_constant (dsl_GetDescriptors descriptor_set_layout))
       then Fatal "Failed to create pipeline layout"%string
              (t ++ [vkCreatePipelineLayout_call (layout_info descriptor_set_layout)])
       else Fatal (if forallb (fun layout => negb (is_null layout))
                        (layouts descriptor_set_layout)
                   then size_text else layout_text) t.
Proof.
  unfold pipeline_layout, layout_created. unfold bind at 1. rewrite for_each_assert.
  destruct (forallb _ (layouts descriptor_set_layout)); [|reflexivity].
  unfold bind at 1. rewrite push_constant_ranges_acc.
  destruct (forallb fits _); [|reflexivity].
  cbn [app andb]. fold (ranges_of descriptor_set_layout).
  fold (layout_info descriptor_set_layout).
  unfold bind, call, modify, SP_VK_ASSERT_MSG, SP_ASSERT_MSG, SP_ASSERT, ret.
  destruct (fst (vkCreatePipelineLayout (layout_info descriptor_set_layout)) =? VK_SUCCESS);
    [|reflexivity].
  unfold layout_calls, layout_handle. now rewrite <- app_assoc.
Qed.

Lemma pipeline_created_or_not (pipeline_state : RHI_PipelineState)
  (descriptor_set_layout : RHI_DescriptorSetLayout) (t : Trace) :
  pipeline pipeline_state (layout_handle descriptor_set_layout)
    (present_stages pipeline_state) t =
  if pipeline_created pipeline_state descriptor_set_layout
  then Ok (pipeline_handle pipeline_state descriptor_set_layout,
           t ++ pipeline_calls pipeline_state descriptor_set_layout)
  else Fatal (if IsGraphics pipeline_state
              then "Failed to create graphics pipeline"%string
              else "Failed to create compute pipeline"%string)
         (t ++ if IsGraphics pipeline_state
               then [ vkCreateGraphicsPipelines_call
                        (graphics_info pipeline_state descriptor_set_layout) ]
               else [ vkCreateComputePipelines_call
                        (compute_info pipeline_state descriptor_set_layout) ]).
Proof.
  unfold pipeline, pipeline_created, pipeline_handle, pipeline_calls.
  destruct (IsGraphics pipeline_state); [|destruct (IsCompute pipeline_state)].
  - fold (graphics_info pipeline_state descriptor_set_layout).
    unfold bind, call, modify, SP_VK_ASSERT_MSG, SP_ASSERT_MSG, SP_ASSERT, ret.
    destruct (fst (vkCreateGraphicsPipelines _) =? VK_SUCCESS); reflexivity.
  - fold (compute_info pipeline_state descriptor_set_layout).
    unfold bind, call, modify, SP_VK_ASSERT_MSG, SP_ASSERT_MSG, SP_ASSERT, ret.
    destruct (fst (vkCreateComputePipelines _) =? VK_SUCCESS); [|reflexivity].
    now rewrite <- app_assoc.
  - unfold ret, m_resource_pipeline_initial. now rewrite app_nil_r.
Qed.

Lemma ctor_constructible (pipeline_state : RHI_PipelineState)
  (descriptor_set_layout : RHI_DescriptorSetLayout) (t : Trace) :
  constructible pipeline_state descriptor_set_layout = true ->
  RHI_Pipeline_ctor pipeline_state descriptor_set_layout t =
  Ok (constructed pipeline_state descriptor_set_layout,
      t ++ layout_calls pipeline_state descriptor_set_layout
        ++ pipeline_calls pipeline_state descriptor_set_layout).
Proof.
  unfold constructible. intro H.
  apply andb_true_iff in H. destruct H as [H Hp].
  apply andb_true_iff in H. destruct H as [Hl Hs].
  unfold RHI_Pipeline_ctor.
  unfold bind at 1. rewrite pipeline_layout_created, Hl.
  unfold bind at 1. rewrite (shader_stages_compiled _ _ Hs).
  unfold bind at 1. rewrite pipeline_created_or_not, Hp.
  unfold ret, constructed. now rewrite <- app_assoc.
Qed.

Lemma ctor_not_constructible (pipeline_state : RHI_PipelineState)
  (descriptor_set_layout : RHI_DescriptorSetLayout) (t : Trace) :
  constructible pipeline_state descriptor_set_layout = false ->
  exists diagnostic t',
    RHI_Pipeline_ctor pipeline_state descriptor_set_layout t = Fatal diagnostic t'.
Proof.
  unfold constructible. intro H. unfold RHI_Pipeline_ctor.
  unfold bind at 1. rewrite pipeline_layout_created.
  destruct (layout_created descriptor_set_layout).
  2: { destruct (forallb _ (layouts descriptor_set_layout) && forallb fits _);
       do 2 eexists; reflexivity. }
  unfold bind at 1.
  destruct (shaders_compiled pipeline_state) eqn:Hs.
  - rewrite (shader_stages_compiled _ _ Hs).
    unfold bind at 1. rewrite pipeline_created_or_not.
    cbn [andb] in H. rewrite H. do 2 eexists; reflexivity.
  - destruct (shader_stages_not_compiled pipeline_state
                (t ++ layout_calls pipeline_state descriptor_set_layout) Hs) as [E|E];
      rewrite E; do 2 eexists; reflexivity.
Qed.

Lemma ctor_Ok_inv (pipeline_state : RHI_PipelineState)
  (descriptor_set_layout : RHI_DescriptorSetLayout) (t t' : Trace) (this : RHI_Pipeline) :
  RHI_Pipeline_ctor pipeline_state descriptor_set_layout t = Ok (this, t') ->
  constructible pipeline_state descriptor_set_layout = true
  /\ this = constructed pipeline_state descriptor_set_layout
  /\ t' = t ++ layout_calls pipeline_state descriptor_set_layout
            ++ pipeline_calls pipeline_state descriptor_set_layout.
Proof.
  intro H. destruct (constructible pipeline_state descriptor_set_layout) eqn:Hc.
  - rewrite (ctor_constructible _ _ t Hc) in H. inversion H. repeat split.
  - destruct (ctor_not_constructible _ _ t Hc) as (d & t1 & Hd). congruence.
Qed.

(** X12.  The constructor succeeds exactly when the three descriptor-set
    layouts are non-null, every push-constant descriptor fits the device's
    maximum, [vkCreatePipelineLayout] succeeds, every shader that is
    present has a module and an entry point, and the pipeline creation the
    state asks for succeeds.  It then has made exactly these calls, in this
    order: [vkCreatePipelineLayout], the naming of the layout, and then
    either [vkCreateGraphicsPipelines] alone (a graphics pipeline is not
    named), or [vkCreateComputePipelines] and the naming of the pipeline, or
    nothing; the object holds the two handles Vulkan wrote (a null pipeline
    handle when nothing was created).  In every other case the constructor
    stops on a fatal assertion. *)
Theorem construction_succeeds_exactly_when (pipeline_state : RHI_PipelineState)
  (descriptor_set_layout : RHI_DescriptorSetLayout) (t : Trace) :
  (constructible pipeline_state descriptor_set_layout = true ->
   RHI_Pipeline_ctor pipeline_state descriptor_set_layout t =
   Ok (constructed pipeline_state descriptor_set_layout,
       t ++ layout_calls pipeline_state descriptor_set_layout
         ++ pipeline_calls pipeline_state descriptor_set_layout))
  /\ (constructible pipeline_state descriptor_set_layout = false ->
      exists diagnostic t',
        RHI_Pipeline_ctor pipeline_state descriptor_set_layout t = Fatal diagnostic t').
Proof.
  split; [apply ctor_constructible | apply ctor_not_constructible].
Qed.

(** ** The compute pipeline *)

(** X13.  A compute pipeline is created from the first shader stage that
    was collected, [shader_stages[0]]: the vertex shader's stage if the
    state has a vertex shader, else the pixel shader's, and the compute
    shader's stage only when the state has neither; with no shader at all
    the read is outside the vector.  The pipeline is created against the
    object's own layout, it is the last creation call, and it is named
    with the state's name. *)
Theorem compute_pipeline_uses_the_first_stage (pipeline_state : RHI_PipelineState)
  (descriptor_set_layout : RHI_DescriptorSetLayout) (t t' : Trace) (this : RHI_Pipeline) :
  RHI_Pipeline_ctor pipeline_state descriptor_set_layout t = Ok (this, t') ->
  IsGraphics pipeline_state = false ->
  IsCompute pipeline_state = true ->
  exists info,
    t' = t ++ layout_calls pipeline_state descriptor_set_layout
           ++ [ vkCreateComputePipelines_call info;
                SetResourceName (m_resource_pipeline this) Pipeline
                  (name pipeline_state) ]
    /\ cp_layout info = m_resource_pipeline_layout this
    /\ m_resource_pipeline this = snd (vkCreateComputePipelines info)
    /\ fst (vkCreateComputePipelines info) = VK_SUCCESS
    /\ cp_stage info =
       match shader_vertex pipeline_state, shader_pixel pipeline_state,
             shader_compute pipeline_state with
       | Some vs, _, _ =>
           Some {| ss_stage := VK_SHADER_STAGE_VERTEX_BIT;
                   ss_module := sh_GetRhiResource vs; ss_pName := sh_GetEntryPoint vs |}
       | None, Some ps, _ =>
           Some {| ss_stage := VK_SHADER_STAGE_FRAGMENT_BIT;
                   ss_module := sh_GetRhiResource ps; ss_pName := sh_GetEntryPoint ps |}
       | None, None, Some cs =>
           Some {| ss_stage := VK_SHADER_STAGE_COMPUTE_BIT;
                   ss_module := sh_GetRhiResource cs; ss_pName := sh_GetEntryPoint cs |}
       | None, None, None => None
       end.
Proof.
  intros H Hg Hc. apply ctor_Ok_inv in H. destruct H as (Hok & Hthis & Ht').
  exists (compute_info pipeline_state descriptor_set_layout).
  unfold constructible in Hok. apply andb_true_iff in Hok. destruct Hok as [_ Hp].
  unfold pipeline_created in Hp. rewrite Hg, Hc in Hp. apply Z.eqb_eq in Hp.
  subst this t'. unfold pipeline_calls, constructed, pipeline_handle.
  rewrite Hg, Hc. cbn [m_resource_pipeline m_resource_pipeline_layout].
  repeat split; try assumption.
  unfold compute_info, compute_pipeline_info, present_stages. cbn [cp_stage].
  destruct (shader_vertex pipeline_state), (shader_pixel pipeline_state),
           (shader_compute pipeline_state); reflexivity.
Qed.

(** ** The graphics pipeline *)

Lemma graphics_call (pipeline_state : RHI_PipelineState)
  (descriptor_set_layout : RHI_DescriptorSetLayout) (t t' : Trace) (this : RHI_Pipeline) :
  RHI_Pipeline_ctor pipeline_state descriptor_set_layout t = Ok (this, t') ->
  IsGraphics pipeline_state = true ->
  t' = t ++ layout_calls pipeline_state descriptor_set_layout
         ++ [ vkCreateGraphicsPipelines_call
                (graphics_info pipeline_state descriptor_set_layout) ].
Proof.
  intros H Hg. apply ctor_Ok_inv in H. destruct H as (_ & _ & Ht').
  subst t'. unfold pipeline_calls. now rewrite Hg.
Qed.

(** X14.  A graphics pipeline is created with one viewport at the origin
    whose width and height are the state's width and height, held exactly
    by the single-precision members as long as they are below 2^24, with
    the depth range 0 to 1; the viewport is always dynamic, the scissor
    exactly when the state's [dynamic_scissor] is set. *)
Theorem viewport_has_the_size_of_the_state (pipeline_state : RHI_PipelineState)
  (descriptor_set_layout : RHI_DescriptorSetLayout) (t t' : Trace) (this : RHI_Pipeline) :
  RHI_Pipeline_ctor pipeline_state descriptor_set_layout t = Ok (this, t') ->
  IsGraphics pipeline_state = true ->
  0 <= GetWidth pipeline_state < 2 ^ 24 ->
  0 <= GetHeight pipeline_state < 2 ^ 24 ->
  exists info calls,
    t' = calls ++ [vkCreateGraphicsPipelines_call info]
    /\ viewportCount (pViewportState info) = 1
    /\ holds_integer (vp_x (pViewports (pViewportState info))) 0
    /\ holds_integer (vp_y (pViewports (pViewportState info))) 0
    /\ holds_integer (vp_width (pViewports (pViewportState info))) (GetWidth pipeline_state)
    /\ holds_integer (vp_height (pViewports (pViewportState info)))
                     (GetHeight pipeline_state)
    /\ holds_integer (vp_minDepth (pViewports (pViewportState info))) 0
    /\ holds_integer (vp_maxDepth (pViewports (pViewportState info))) 1
    /\ pDynamicStates (pDynamicState info) =
       VK_DYNAMIC_STATE_VIEWPORT
       :: (if dynamic_scissor pipeline_state then [VK_DYNAMIC_STATE_SCISSOR] else []).
Proof.
  intros H Hg Hw Hh. apply (graphics_call _ _ _ H) in Hg.
  exists (graphics_info pipeline_state descriptor_set_layout).
  exists (t ++ layout_calls pipeline_state descriptor_set_layout).
  split; [now rewrite <- app_assoc|].
  cbn [graphics_info graphics_pipeline_info pViewportState viewport_state viewportCount
       pViewports vkViewport vp_x vp_y vp_width vp_height vp_minDepth vp_maxDepth
       pDynamicState dynamic_state pDynamicStates].
  split; [reflexivity|].
  split; [split; reflexivity|]. split; [split; reflexivity|].
  split; [apply binary_normalize_integer; lia|].
  split; [apply binary_normalize_integer; lia|].
  split; [split; reflexivity|]. split; [split; reflexivity|].
  reflexivity.
Qed.

(** The attributes reflected from the vertex shader's input layout. *)
Definition reflected_attributes (vs : RHI_Shader)
  : list VkVertexInputAttributeDescription :=
  match sh_GetInputLayout vs with
  | Some input_layout =>
      map (fun desc =>
             {| via_location := va_location desc;
                via_binding := va_binding desc;
                via_format := vulkan_format (rhi_format_to_index (va_format desc));
                via_offset := va_offset desc |})
          (GetAttributeDescriptions input_layout)
  | None => []
  end.

(** Row [i] of the instance matrix, as an attribute after [n] others. *)
Definition instance_row (n : nat) (i : Z) : VkVertexInputAttributeDescription :=
  {| via_location := Z.of_nat n + i; via_binding := 1;
     via_format := VK_FORMAT_R32G32B32A32_SFLOAT; via_offset := 16 * i |}.

Lemma size_small {A} (v : list A) :
  Z.of_nat (List.length v) < 2 ^ 32 -> size v = Z.of_nat (List.length v).
Proof.
  intro H. unfold size, to_uint32, uint32_max. apply Z.mod_small. lia.
Qed.

Lemma matrix_rows (descs : list VkVertexInputAttributeDescription) :
  Z.of_nat (List.length descs) + 4 <= 2 ^ 32 ->
  fold_left matrix_row [0; 1; 2; 3] descs =
  descs ++ map (instance_row (List.length descs)) [0; 1; 2; 3].
Proof.
  intro H. cbn [fold_left map]. unfold matrix_row.
  rewrite !size_small by (rewrite ?length_app; cbn [List.length]; lia).
  rewrite !length_app. cbn [List.length].
  rewrite <- !app_assoc. cbn [app]. unfold instance_row, sizeof_Vector4.
  repeat (f_equal; try lia).
Qed.

(** X15.  The vertex input of a graphics pipeline whose state has a vertex
    shader: nothing for a fullscreen triangle (even with instancing set);
    else binding 0 per vertex with the shader's vertex size and the
    attributes reflected from its input layout; with instancing, binding 1
    per instance with a stride of 64 bytes, and four more attributes, one
    per row of the instance matrix, at the four locations after the
    reflected ones, on binding 1, at offsets 0, 16, 32 and 48. *)
Theorem vertex_input_of_the_vertex_shader (pipeline_state : RHI_PipelineState)
  (vs : RHI_Shader) (layout : ptr) (stages : list VkPipelineShaderStageCreateInfo) :
  shader_vertex pipeline_state = Some vs ->
  Z.of_nat (List.length (reflected_attributes vs)) + 4 < 2 ^ 32 ->
  let input := pVertexInputState (graphics_pipeline_info pipeline_state layout stages) in
  let per_vertex := {| vib_binding := 0; vib_stride := sh_GetVertexSize vs;
                       vib_inputRate := VK_VERTEX_INPUT_RATE_VERTEX |} in
  let per_instance := {| vib_binding := 1; vib_stride := 64;
                         vib_inputRate := VK_VERTEX_INPUT_RATE_INSTANCE |} in
  if is_fullscreen_triangle pipeline_state then
    pVertexBindingDescriptions input = []
    /\ pVertexAttributeDescriptions input = []
    /\ vertexBindingDescriptionCount input = 0
    /\ vertexAttributeDescriptionCount input = 0
  else if instancing pipeline_state then
    pVertexBindingDescriptions input = [per_vertex; per_instance]
    /\ pVertexAttributeDescriptions input =
       reflected_attributes vs
       ++ map (instance_row (List.length (reflected_attributes vs))) [0; 1; 2; 3]
    /\ vertexBindingDescriptionCount input = 2
    /\ vertexAttributeDescriptionCount input =
       Z.of_nat (List.length (reflected_attributes vs)) + 4
  else
    pVertexBindingDescriptions input = [per_vertex]
    /\ pVertexAttributeDescriptions input = reflected_attributes vs
    /\ vertexBindingDescriptionCount input = 1
    /\ vertexAttributeDescriptionCount input =
       Z.of_nat (List.length (reflected_attributes vs)).
Proof.
  intros Hvs Hn.
  cbn [graphics_pipeline_info pVertexInputState vertex_input_state
       pVertexBindingDescriptions pVertexAttributeDescriptions
       vertexBindingDescriptionCount vertexAttributeDescriptionCount].
  unfold vertex_input_binding_descs, vertex_attribute_descs. rewrite Hvs.
  fold (reflected_attributes vs).
  destruct (is_fullscreen_triangle pipeline_state); cbn [negb].
  - repeat split.
  - destruct (instancing pipeline_state).
    + rewrite matrix_rows by lia. cbn [app]. repeat split.
      rewrite size_small; rewrite length_app; cbn [List.length map]; lia.
    + cbn [app]. repeat split.
      rewrite size_small; lia.
Qed.

(** The colour textures of the state that are not null, and those before
    the first null one. *)
Definition count_present (textures : list (option RHI_Texture)) : nat :=
  List.length (filter is_some textures).

Fixpoint leading_present (textures : list (option RHI_Texture)) : nat :=
  match textures with
  | Some _ :: rest => S (leading_present rest)
  | _ => 0%nat
  end.

(** The colour textures before the first null one, and the Vulkan format
    of a texture. *)
Fixpoint leading (textures : list (option RHI_Texture)) : list RHI_Texture :=
  match textures with
  | Some texture :: rest => texture :: leading rest
  | _ => []
  end.

Definition format_of (texture : RHI_Texture) : Z :=
  vulkan_format (rhi_format_to_index (tex_GetFormat texture)).

Lemma formats_until_null_leading (textures : list (option RHI_Texture)) :
  formats_until_null textures = map format_of (leading textures).
Proof.
  induction textures as [|[texture|] rest IH]; cbn; [reflexivity | now rewrite IH | reflexivity].
Qed.

Lemma attachments_repeat (bs : RHI_BlendState) (textures : list (option RHI_Texture)) :
  flat_map (fun texture : option RHI_Texture =>
              if is_some texture then [blend_state_attachment bs] else []) textures
  = repeat (blend_state_attachment bs) (List.length (filter is_some textures)).
Proof.
  induction textures as [|[texture|] rest IH]; cbn; [reflexivity | now rewrite IH | exact IH].
Qed.

Lemma formats_until_null_length (textures : list (option RHI_Texture)) :
  List.length (formats_until_null textures) = leading_present textures.
Proof.
  induction textures as [|[texture|] rest IH]; cbn; [reflexivity | now rewrite IH | reflexivity].
Qed.

Lemma leading_le_count (textures : list (option RHI_Texture)) :
  (leading_present textures <= count_present textures)%nat.
Proof.
  unfold count_present.
  induction textures as [|[texture|] rest IH]; cbn; [lia | lia | lia].
Qed.

Lemma attachments_length (bs : RHI_BlendState) (textures : list (option RHI_Texture)) :
  List.length
    (flat_map (fun texture : option RHI_Texture =>
                 if is_some texture then [blend_state_attachment bs] else []) textures)
  = count_present textures.
Proof.
  unfold count_present.
  induction textures as [|[texture|] rest IH]; cbn; [reflexivity | now rewrite IH | exact IH].
Qed.

(** X16.  With a blend state, a graphics pipeline gets one blend attachment
    for the swap chain, if it is a target, and one for every non-null
    colour texture, all of them the one translated from the blend state;
    its colour attachment formats are the swap chain's format alone if it
    is a target, else the formats of the colour textures before the first
    null one, in order.  So there are never more colour formats than blend
    attachments, and as many exactly when the swap chain is the only
    target or, without a swap chain, no colour texture comes after a null
    one. *)
Theorem blend_attachments_cover_the_color_formats (pipeline_state : RHI_PipelineState)
  (bs : RHI_BlendState) (layout : ptr) (stages : list VkPipelineShaderStageCreateInfo) :
  blend_state pipeline_state = Some bs ->
  let info := graphics_pipeline_info pipeline_state layout stages in
  let attachments := pAttachments (pColorBlendState info) in
  let formats := pColorAttachmentFormats (pNext info) in
  let textures := render_target_color_textures pipeline_state in
  List.length attachments =
    ((if is_some (render_target_swapchain pipeline_state) then 1 else 0)
     + count_present textures)%nat
  /\ List.length formats =
     (if is_some (render_target_swapchain pipeline_state) then 1
      else leading_present textures)%nat
  /\ (List.length formats <= List.length attachments)%nat
  /\ Forall (fun attachment => attachment = blend_state_attachment bs) attachments
  /\ attachments =
     repeat (blend_state_attachment bs)
       ((if is_some (render_target_swapchain pipeline_state) then 1 else 0)
        + count_present textures)
  /\ formats =
     match render_target_swapchain pipeline_state with
     | Some swapchain => [vulkan_format (rhi_format_to_index (sc_GetFormat swapchain))]
     | None => map format_of (leading textures)
     end.
Proof.
  intro Hbs.
  cbn [graphics_pipeline_info pColorBlendState pNext pipeline_rendering_create_info
       pColorAttachmentFormats].
  unfold color_blend_state. rewrite Hbs. cbn [pAttachments].
  unfold blend_state_attachments, attachment_formats_color.
  pose proof (leading_le_count (render_target_color_textures pipeline_state)) as Hle.
  assert (Hall : Forall (fun attachment => attachment = blend_state_attachment bs)
            (flat_map (fun texture : option RHI_Texture =>
                         if is_some texture then [blend_state_attachment bs] else [])
               (render_target_color_textures pipeline_state))).
  { apply Forall_flat_map, Forall_forall. intros texture _.
    destruct (is_some texture); repeat constructor. }
  destruct (render_target_swapchain pipeline_state) as [swapchain|]; cbn [is_some app].
  - cbn [List.length]. rewrite attachments_length.
    repeat split; [lia | now constructor |].
    rewrite attachments_repeat. reflexivity.
  - rewrite attachments_length, formats_until_null_length.
    repeat split; [exact Hle | exact Hall | |].
    + rewrite attachments_repeat. reflexivity.
    + apply formats_until_null_leading.
Qed.

(** ** Depth bias out of range *)

Lemma float_mul_two24_overflow (s : bool) (m : positive) (e : Z) :
  bounded float_prec float_emax m e = true ->
  2 ^ 253 <= Zpos m * 2 ^ (e + 149) ->
  float_mul (S754_finite s m e) two24 = S754_infinity s.
Proof.
  intros Hb Hge. rewrite (float_mul_two24 s m e Hb).
  pose proof (bounded_inv m e Hb) as (Hd & He & _).
  destruct (digits2_bounds m) as [_ Hhi].
  set (dm := Zpos (digits2_pos m)) in *.
  assert (Hdm : 1 <= dm) by (subst dm; lia).
  destruct (e + dm <=? 104) eqn:Hsum; [|reflexivity]. exfalso.
  apply Z.leb_le in Hsum.
  assert (0 < 2 ^ (e + 149)) by (apply Z.pow_pos_nonneg; lia).
  assert (Zpos m * 2 ^ (e + 149) < 2 ^ dm * 2 ^ (e + 149))
    by (apply Z.mul_lt_mono_pos_r; lia).
  assert (2 ^ dm * 2 ^ (e + 149) <= 2 ^ 253).
  { rewrite <- Z.pow_add_r by lia. apply Z.pow_le_mono_r; lia. }
  lia.
Qed.

(** X17.  The depth-bias constant factor of a graphics pipeline is a finite
    number exactly when the depth bias of the rasterizer state is finite
    and below 2^104 in magnitude.  A finite bias of at least 2^104 in
    magnitude gives the infinity of its sign, an infinite bias gives
    itself. *)
Theorem depth_bias_factor_is_finite_iff (pipeline_state : RHI_PipelineState)
  (rs : RHI_RasterizerState) (layout : ptr)
  (stages : list VkPipelineShaderStageCreateInfo) :
  rasterizer_state pipeline_state = Some rs ->
  float_valid (GetDepthBias rs) ->
  let factor :=
    depthBiasConstantFactor
      (pRasterizationState (graphics_pipeline_info pipeline_state layout stages)) in
  (is_finite factor = true <->
   is_finite (GetDepthBias rs) = true /\ magnitude_below_pow2 (GetDepthBias rs) 104)
  /\ (is_finite (GetDepthBias rs) = true ->
      ~ magnitude_below_pow2 (GetDepthBias rs) 104 ->
      factor = S754_infinity (units (GetDepthBias rs) <? 0))
  /\ (forall s, GetDepthBias rs = S754_infinity s -> factor = S754_infinity s).
Proof.
  intros Hrs Hv.
  cbn [graphics_pipeline_info pRasterizationState].
  unfold rasterizer_state_info. rewrite Hrs. cbn [depthBiasConstantFactor].
  fold two24.
  assert (Hbig : is_finite (GetDepthBias rs) = true ->
                 ~ magnitude_below_pow2 (GetDepthBias rs) 104 ->
                 Floor (float_mul (GetDepthBias rs) two24)
                 = S754_infinity (units (GetDepthBias rs) <? 0)).
  { intros Hf Hnot. unfold magnitude_below_pow2 in Hnot.
    destruct (GetDepthBias rs) as [s|s| |s m e]; try discriminate Hf.
    - exfalso. apply Hnot. reflexivity.
    - unfold float_valid in Hv. cbn [valid_binary] in Hv.
      pose proof (bounded_inv m e Hv) as (_ & He & _).
      assert (Hpos : 0 < Zpos m * 2 ^ (e + 149))
        by (apply Z.mul_pos_pos; [lia | apply Z.pow_pos_nonneg; lia]).
      unfold units in Hnot. rewrite abs_cond_Zopp in Hnot.
      rewrite Z.abs_eq in Hnot by lia.
      change (104 + 149) with 253 in Hnot.
      rewrite (@float_mul_two24_overflow s m e Hv) by lia.
      cbn [Floor]. f_equal. unfold units.
      destruct s; cbn [cond_Zopp]; symmetry;
        [apply Z.ltb_lt | apply Z.ltb_ge]; lia. }
  split; [split|split].
  - intro Hfin. destruct (is_finite (GetDepthBias rs)) eqn:Hf.
    + split; [reflexivity|].
      destruct (Z_lt_ge_dec (Z.abs (units (GetDepthBias rs))) (2 ^ (104 + 149)))
        as [Hlt|Hge]; [exact Hlt|]. exfalso.
      rewrite Hbig in Hfin; [discriminate Hfin | reflexivity |].
      unfold magnitude_below_pow2. lia.
    + exfalso. destruct (GetDepthBias rs) as [s|s| |s m e];
        try discriminate Hf; discriminate Hfin.
  - intros [Hf Hlt]. exact (proj1 (Floor_mul_two24 Hv Hf Hlt)).
  - exact Hbig.
  - intros s Hd. rewrite Hd. destruct s; reflexivity.
Qed.

(** ** Destruction *)

(** What [RHI_Device::DeletionQueueAdd] has been handed, in order. *)
Definition DeletionQueue : Type := list (RHI_Resource_Type * ptr).

Definition DeletionQueueAdd (resource_type : RHI_Resource_Type) (resource : ptr)
  : M (RHI_Pipeline * DeletionQueue) unit :=
  modify (fun s => (fst s, snd s ++ [(resource_type, resource)])).

Definition set_resource_pipeline (p : ptr) : M (RHI_Pipeline * DeletionQueue) unit :=
  modify (fun s => ({| m_state := m_state (fst s);
                       m_resource_pipeline_layout := m_resource_pipeline_layout (fst s);
                       m_resource_pipeline := p |}, snd s)).

Definition set_resource_pipeline_layout (p : ptr) : M (RHI_Pipeline * DeletionQueue) unit :=
  modify (fun s => ({| m_state := m_state (fst s);
                       m_resource_pipeline_layout := p;
                       m_resource_pipeline := m_resource_pipeline (fst s) |}, snd s)).

(** [RHI_Pipeline::~RHI_Pipeline()]. *)
Definition RHI_Pipeline_dtor : M (RHI_Pipeline * DeletionQueue) unit :=
  this <- get ;;
  DeletionQueueAdd Pipeline (m_resource_pipeline (fst this)) ;;
  set_resource_pipeline nullptr ;;
  this <- get ;;
  DeletionQueueAdd PipelineLayout (m_resource_pipeline_layout (fst this)) ;;
  set_resource_pipeline_layout nullptr.

(** X18.  Destroying a pipeline object that was constructed hands to the
    deletion queue, once each and in this order, the pipeline handle that
    [vkCreateGraphicsPipelines] or [vkCreateComputePipelines] wrote (a null
    handle when the state was neither graphics nor compute, which is
    queued all the same) and the layout handle that
    [vkCreatePipelineLayout] wrote; both members are null afterwards. *)
Theorem destruction_queues_what_construction_created
  (pipeline_state : RHI_PipelineState)
  (descriptor_set_layout : RHI_DescriptorSetLayout) (t t' : Trace) (this : RHI_Pipeline)
  (queue : DeletionQueue) :
  RHI_Pipeline_ctor pipeline_state descriptor_set_layout t = Ok (this, t') ->
  RHI_Pipeline_dtor (this, queue) =
  Ok (tt, ({| m_state := pipeline_state;
              m_resource_pipeline_layout := nullptr;
              m_resource_pipeline := nullptr |},
           queue ++
           [ (Pipeline,
              if IsGraphics pipeline_state then
                snd (vkCreateGraphicsPipelines
                       (graphics_info pipeline_state descriptor_set_layout))
              else if IsCompute pipeline_state then
                snd (vkCreateComputePipelines
                       (compute_info pipeline_state descriptor_set_layout))
              else nullptr);
             (PipelineLayout,
              snd (vkCreatePipelineLayout (layout_info descriptor_set_layout))) ])).
Proof.
  intro H. apply ctor_Ok_inv in H. destruct H as (_ & Hthis & _). subst this.
  unfold RHI_Pipeline_dtor, bind, get, DeletionQueueAdd, set_resource_pipeline,
    set_resource_pipeline_layout, modify.
  cbn [fst snd constructed m_state m_resource_pipeline m_resource_pipeline_layout].
  now rewrite <- app_assoc.
Qed.

End Construction.

(** ** Concrete runs *)

#[local] Existing Instance sample_ext.

Lemma shader_stages_are_the_present_shaders_witness :
  shader_stages (quad_state a_tenth) [] =
  Ok ([ {| ss_stage := VK_SHADER_STAGE_VERTEX_BIT; ss_module := 16;
           ss_pName := Some "main"%string |};
        {| ss_stage := VK_SHADER_STAGE_FRAGMENT_BIT; ss_module := 32;
           ss_pName := Some "main"%string |} ], []).
Proof.
  exact (proj1 (@shader_stages_are_the_present_shaders (quad_state a_tenth) [])
               eq_refl).
Defined.

Lemma construction_succeeds_exactly_when_witness :
  RHI_Pipeline_ctor (quad_state a_tenth) quad_layout [] = Ok (quad_pipeline, quad_trace).
Proof.
  exact (proj1 (@construction_succeeds_exactly_when sample_ext (quad_state a_tenth)
                  quad_layout []) eq_refl).
Defined.

(** A compute state: one compute shader, no target. *)
Definition blur_state : RHI_PipelineState :=
  {| shader_vertex := None; shader_pixel := None; shader_compute := Some (shader 48);
     rasterizer_state := None; blend_state := None; depth_stencil_state := None;
     render_target_swapchain := None;
     render_target_color_textures := repeat None 8;
     render_target_depth_texture := None;
     primitive_topology := 0; dynamic_scissor := false;
     is_fullscreen_triangle := false; instancing := false;
     name := "blur"%string |}.

Definition blur_pipeline : RHI_Pipeline :=
  {| m_state := blur_state;
     m_resource_pipeline_layout := 4096;
     m_resource_pipeline := 12288 |}.

Definition blur_stage : VkPipelineShaderStageCreateInfo :=
  {| ss_stage := VK_SHADER_STAGE_COMPUTE_BIT; ss_module := 48;
     ss_pName := Some "main"%string |}.

Definition blur_trace : Trace :=
  layout_calls blur_state quad_layout
  ++ [ vkCreateComputePipelines_call {| cp_layout := 4096; cp_stage := Some blur_stage |};
       SetResourceName 12288 Pipeline "blur"%string ].

Example blur_constructed :
  RHI_Pipeline_ctor blur_state quad_layout [] = Ok (blur_pipeline, blur_trace).
Proof. reflexivity. Qed.

Lemma compute_pipeline_uses_the_first_stage_witness :
  exists info,
    blur_trace = [] ++ layout_calls blur_state quad_layout
                    ++ [ vkCreateComputePipelines_call info;
                         SetResourceName 12288 Pipeline "blur"%string ]
    /\ cp_layout info = 4096
    /\ 12288 = snd (vkCreateComputePipelines info)
    /\ fst (vkCreateComputePipelines info) = VK_SUCCESS
    /\ cp_stage info = Some blur_stage.
Proof.
  exact (@compute_pipeline_uses_the_first_stage sample_ext blur_state quad_layout
           [] blur_trace blur_pipeline eq_refl eq_refl eq_refl).
Defined.

Lemma viewport_has_the_size_of_the_state_witness :
  exists info calls,
    quad_trace = calls ++ [vkCreateGraphicsPipelines_call info]
    /\ viewportCount (pViewportState info) = 1
    /\ holds_integer (vp_x (pViewports (pViewportState info))) 0
    /\ holds_integer (vp_y (pViewports (pViewportState info))) 0
    /\ holds_integer (vp_width (pViewports (pViewportState info))) 1920
    /\ holds_integer (vp_height (pViewports (pViewportState info))) 1080
    /\ holds_integer (vp_minDepth (pViewports (pViewportState info))) 0
    /\ holds_integer (vp_maxDepth (pViewports (pViewportState info))) 1
    /\ pDynamicStates (pDynamicState info) =
       [VK_DYNAMIC_STATE_VIEWPORT; VK_DYNAMIC_STATE_SCISSOR].
Proof.
  apply (@viewport_has_the_size_of_the_state sample_ext (quad_state a_tenth) quad_layout
           [] quad_trace quad_pipeline); [reflexivity | reflexivity | | ];
    split; [discriminate | reflexivity | discriminate | reflexivity].
Defined.

(** An instanced draw into two colour textures, with blending: the vertex
    shader reflects a position and a texture coordinate. *)
Definition mesh_shader : RHI_Shader :=
  {| sh_GetRhiResource := 16; sh_GetEntryPoint := Some "main"%string;
     sh_GetVertexSize := 20;
     sh_GetInputLayout :=
       Some {| GetAttributeDescriptions :=
                 [ {| va_location := 0; va_binding := 0; va_format := 106; va_offset := 0 |};
                   {| va_location := 1; va_binding := 0; va_format := 103;
                      va_offset := 12 |} ] |} |}.

Definition alpha_blend : RHI_BlendState :=
  {| GetBlendEnabled := true;
     GetSourceBlend := 6; GetDestBlend := 7; GetBlendOp := 0;
     GetSourceBlendAlpha := 1; GetDestBlendAlpha := 1; GetBlendOpAlpha := 0;
     GetBlendFactor := float_zero |}.

Definition color_target : RHI_Texture := {| tex_GetFormat := 97; tex_IsStencilFormat := false |}.

Definition instanced_state : RHI_PipelineState :=
  {| shader_vertex := Some mesh_shader; shader_pixel := Some (shader 32);
     shader_compute := None;
     rasterizer_state := Some (rasterizer two_pow_104);
     blend_state := Some alpha_blend; depth_stencil_state := None;
     render_target_swapchain := None;
     render_target_color_textures :=
       [Some color_target; Some color_target; None; Some color_target] ++ repeat None 4;
     render_target_depth_texture := None;
     primitive_topology := 0; dynamic_scissor := false;
     is_fullscreen_triangle := false; instancing := true;
     name := "instanced"%string |}.

Definition instanced_info : VkGraphicsPipelineCreateInfo :=
  graphics_pipeline_info instanced_state 4096 (present_stages instanced_state).

Lemma vertex_input_of_the_vertex_shader_witness :
  pVertexBindingDescriptions (pVertexInputState instanced_info) =
    [ {| vib_binding := 0; vib_stride := 20; vib_inputRate := VK_VERTEX_INPUT_RATE_VERTEX |};
      {| vib_binding := 1; vib_stride := 64;
         vib_inputRate := VK_VERTEX_INPUT_RATE_INSTANCE |} ]
  /\ pVertexAttributeDescriptions (pVertexInputState instanced_info) =
     [ {| via_location := 0; via_binding := 0; via_format := 106; via_offset := 0 |};
       {| via_location := 1; via_binding := 0; via_format := 103; via_offset := 12 |};
       {| via_location := 2; via_binding := 1; via_format := 109; via_offset := 0 |};
       {| via_location := 3; via_binding := 1; via_format := 109; via_offset := 16 |};
       {| via_location := 4; via_binding := 1; via_format := 109; via_offset := 32 |};
       {| via_location := 5; via_binding := 1; via_format := 109; via_offset := 48 |} ]
  /\ vertexBindingDescriptionCount (pVertexInputState instanced_info) = 2
  /\ vertexAttributeDescriptionCount (pVertexInputState instanced_info) = 6.
Proof.
  exact (@vertex_input_of_the_vertex_shader sample_ext instanced_state mesh_shader 4096
           (present_stages instanced_state) eq_refl eq_refl).
Defined.

(** Three colour textures are not null, two of them before the first null
    one: three blend attachments, two colour formats. *)
Lemma blend_attachments_cover_the_color_formats_witness :
  List.length (pAttachments (pColorBlendState instanced_info)) = 3%nat
  /\ List.length (pColorAttachmentFormats (pNext instanced_info)) = 2%nat
  /\ (List.length (pColorAttachmentFormats (pNext instanced_info))
      <= List.length (pAttachments (pColorBlendState instanced_info)))%nat
  /\ Forall (fun attachment => attachment = blend_state_attachment alpha_blend)
       (pAttachments (pColorBlendState instanced_info))
  /\ pAttachments (pColorBlendState instanced_info)
     = [ blend_state_attachment alpha_blend; blend_state_attachment alpha_blend;
         blend_state_attachment alpha_blend ]
  /\ pColorAttachmentFormats (pNext instanced_info) = [97; 97].
Proof.
  exact (@blend_attachments_cover_the_color_formats sample_ext instanced_state alpha_blend
           4096 (present_stages instanced_state) eq_refl).
Defined.

Lemma depth_bias_factor_is_finite_iff_witness :
  (is_finite (depthBiasConstantFactor (pRasterizationState instanced_info)) = true <->
   is_finite two_pow_104 = true /\ magnitude_below_pow2 two_pow_104 104)
  /\ (is_finite two_pow_104 = true ->
      ~ magnitude_below_pow2 two_pow_104 104 ->
      depthBiasConstantFactor (pRasterizationState instanced_info) = S754_infinity false)
  /\ (forall s, two_pow_104 = S754_infinity s ->
      depthBiasConstantFactor (pRasterizationState instanced_info) = S754_infinity s).
Proof.
  exact (@depth_bias_factor_is_finite_iff sample_ext instanced_state
           (rasterizer two_pow_104) 4096 (present_stages instanced_state) eq_refl eq_refl).
Defined.

Lemma destruction_queues_what_construction_created_witness :
  RHI_Pipeline_dtor (quad_pipeline, []) =
  Ok (tt, ({| m_state := quad_state a_tenth;
              m_resource_pipeline_layout := nullptr;
              m_resource_pipeline := nullptr |},
           [(Pipeline, 8192); (PipelineLayout, 4096)])).
Proof.
  exact (@destruction_queues_what_construction_created sample_ext (quad_state a_tenth)
           quad_layout [] quad_trace quad_pipeline [] eq_refl).
Defined.

End PipelineMore.
